(** * ProjectFlow backend ([backend/server.py]): a shallow embedding

    The FastAPI handlers of [server.py] are embedded as functions over an
    explicit model of the [db.projects] collection.

    - A document is a record carrying exactly the fields of the Pydantic
      model it was dumped from ([model_dump] always writes every field, so
      the [.get(key, default)] fall-backs of the handlers never fire on a
      document this server stored).
    - A Python [str] is a [string], a sequence of 8-bit characters compared
      by character code as Python compares by code point; [None] is [None]
      of an [option]; an [int] is a [Z]; a [float] is a binary64 value.
    - The collection is the list of its documents in insertion order;
      [find_one], [find_one_and_update], [update_one] and [delete_one] act
      on the first document the filter accepts.
    - A handler is a function from the collection to a response and the
      collection it leaves behind ([Handler]); [HTTPException] aborts it.
    - Every reading of [datetime.now(timezone.utc)] and every [uuid.uuid4()]
      is an argument of the handler, in the order the handler performs
      them; a handler of the projects receives [current_user["id"]] as
      [owner].  The routes of authentication are embedded apart, over the
      functions of the password and token libraries.
    - [datetime.fromisoformat] is embedded on the format of Python 3.7 to
      3.10; the overview is defined over the parser ([overview_by]), so
      that what does not depend on the format is stated for every parser.

    The statements C1 to C10 are the properties of the specification that
    concern the project repository, the nested collection editor and the
    analytics; the statements X1 and following are further properties of
    the routes. *)

From Stdlib Require Import ZArith String Ascii List Lia Bool.
From Stdlib Require Import SpecFloat.
From stdpp Require Import base decidable option list strings pretty gmap fin_maps sorting.

Local Open Scope string_scope.
Local Open Scope list_scope.
Local Open Scope Z_scope.

(** ** Python numbers *)

(** A Python [float] is a binary64 value of the Standard Library's
    executable IEEE 754 specification. *)
Abbreviation float := spec_float.

Definition prec : Z := 53.
Definition emax : Z := 1024.

(* ================================================================= *)
(** ** Models (the Pydantic classes) *)

Module TimeEntryCreate.
Record t := mk {
  description : option string;
  duration_minutes : Z;
  date : string }.
End TimeEntryCreate.

Module TimeEntry.
Record t := mk {
  id : string;
  description : string;
  duration_minutes : Z;
  date : string;
  created_at : string }.
End TimeEntry.

Module TaskCreate.
Record t := mk {
  title : string;
  description : option string;
  priority : string;
  due_date : option string;
  estimated_hours : option float }.
End TaskCreate.

Module TaskUpdate.
Record t := mk {
  title : option string;
  description : option string;
  priority : option string;
  status : option string;
  due_date : option string;
  estimated_hours : option float }.
End TaskUpdate.

Module Task.
Record t := mk {
  id : string;
  title : string;
  description : string;
  priority : string;
  status : string;
  due_date : option string;
  estimated_hours : option float;
  time_entries : list TimeEntry.t;
  created_at : string;
  completed_at : option string }.
End Task.

Module MilestoneCreate.
Record t := mk {
  title : string;
  description : option string;
  due_date : string }.
End MilestoneCreate.

Module Milestone.
Record t := mk {
  id : string;
  title : string;
  description : string;
  due_date : string;
  completed : bool;
  completed_at : option string }.
End Milestone.

Module ProjectCreate.
Record t := mk {
  name : string;
  description : option string;
  color : string;
  deadline : option string }.
End ProjectCreate.

Module ProjectUpdate.
Record t := mk {
  name : option string;
  description : option string;
  color : option string;
  deadline : option string;
  status : option string }.
End ProjectUpdate.

Module Project.
Record t := mk {
  id : string;
  name : string;
  description : string;
  color : string;
  status : string;
  deadline : option string;
  owner_id : string;
  tasks : list Task.t;
  milestones : list Milestone.t;
  created_at : string;
  updated_at : string }.
End Project.

(** [x or ""] on an [Optional[str]]. *)
Definition or_empty (x : option string) : string := default "" x.

(** The patched value of a field: [{k: v for k, v in ... if v is not None}]
    followed by [$set] or [dict.update] leaves a field alone when the patch
    holds [None]. *)
Definition patched {A : Type} (patch : option A) (old : A) : A :=
  default old patch.

(* ================================================================= *)
(** ** The collection and the handler monad *)

Abbreviation Db := (list Project.t).

Inductive Response (A : Type) : Type :=
| Return (a : A)
| HTTPException (status_code : nat) (detail : string).
Arguments Return {A} a.
Arguments HTTPException {A} status_code detail.

Definition Handler (A : Type) : Type := Db -> Response A * Db.

Definition ret {A} (a : A) : Handler A := fun db => (Return a, db).

Definition raise {A} (status_code : nat) (detail : string) : Handler A :=
  fun db => (HTTPException status_code detail, db).

Definition bind {A B} (m : Handler A) (k : A -> Handler B) : Handler B :=
  fun db =>
    match m db with
    | (Return a, db') => k a db'
    | (HTTPException c d, db') => (HTTPException c d, db')
    end.

Notation "'let*' x ':=' m 'in' k" := (bind m (fun x => k))
  (at level 10, x name, m at level 100, k at level 200).
Notation "m ';;' k" := (bind m (fun _ => k))
  (at level 100, k at level 200, right associativity).

(** *** Filters *)

(** [{"id": project_id, "owner_id": current_user["id"]}] *)
Definition by_id_owner (project_id owner : string) (p : Project.t) : Prop :=
  Project.id p = project_id /\ Project.owner_id p = owner.

(** [{"id": project_id}] *)
Definition by_id (project_id : string) (p : Project.t) : Prop :=
  Project.id p = project_id.

(** [{"owner_id": current_user["id"]}] *)
Definition by_owner (owner : string) (p : Project.t) : Prop :=
  Project.owner_id p = owner.

#[global] Instance by_id_owner_dec i o p : Decision (by_id_owner i o p).
Proof. unfold by_id_owner. apply _. Defined.
#[global] Instance by_id_dec i p : Decision (by_id i p).
Proof. unfold by_id. apply _. Defined.
#[global] Instance by_owner_dec o p : Decision (by_owner o p).
Proof. unfold by_owner. apply _. Defined.

(** *** Collection operations (Motor) *)

Section Collection.
Context (q : Project.t -> Prop) `{!forall p, Decision (q p)}.

Definition find_one : Handler (option Project.t) :=
  fun db => (Return (snd <$> list_find q db), db).

(** [return_document=True] hands back the document after the update,
    the default hands back the one before it. *)
Definition find_one_and_update (update : Project.t -> Project.t)
    (return_document : bool) : Handler (option Project.t) :=
  fun db =>
    match list_find q db with
    | Some (i, p) =>
        (Return (Some (if return_document then update p else p)),
         <[i := update p]> db)
    | None => (Return None, db)
    end.

Definition update_one (update : Project.t -> Project.t) : Handler unit :=
  fun db =>
    match list_find q db with
    | Some (i, p) => (Return tt, <[i := update p]> db)
    | None => (Return tt, db)
    end.

(** The response is [deleted_count]. *)
Definition delete_one : Handler nat :=
  fun db =>
    match list_find q db with
    | Some (i, _) => (Return 1%nat, delete i db)
    | None => (Return 0%nat, db)
    end.

(** [find(q, {"_id": 0}).to_list(length)] *)
Definition find_to_list (length : nat) : Handler (list Project.t) :=
  fun db => (Return (take length (filter q db)), db).
End Collection.

Definition insert_one (p : Project.t) : Handler unit :=
  fun db => (Return tt, (db ++ [p])%list).

(* ================================================================= *)
(** ** Update operators *)

(** [{"$set": {"updated_at": now}}] *)
Definition set_updated_at (now : string) (p : Project.t) : Project.t :=
  {| Project.id := Project.id p;
     Project.name := Project.name p;
     Project.description := Project.description p;
     Project.color := Project.color p;
     Project.status := Project.status p;
     Project.deadline := Project.deadline p;
     Project.owner_id := Project.owner_id p;
     Project.tasks := Project.tasks p;
     Project.milestones := Project.milestones p;
     Project.created_at := Project.created_at p;
     Project.updated_at := now |}.

(** [{"$set": {"tasks": tasks, "updated_at": now}}] *)
Definition set_tasks (tasks : list Task.t) (now : string) (p : Project.t)
  : Project.t :=
  {| Project.id := Project.id p;
     Project.name := Project.name p;
     Project.description := Project.description p;
     Project.color := Project.color p;
     Project.status := Project.status p;
     Project.deadline := Project.deadline p;
     Project.owner_id := Project.owner_id p;
     Project.tasks := tasks;
     Project.milestones := Project.milestones p;
     Project.created_at := Project.created_at p;
     Project.updated_at := now |}.

(** [{"$set": {"milestones": milestones, "updated_at": now}}] *)
Definition set_milestones (milestones : list Milestone.t) (now : string)
    (p : Project.t) : Project.t :=
  {| Project.id := Project.id p;
     Project.name := Project.name p;
     Project.description := Project.description p;
     Project.color := Project.color p;
     Project.status := Project.status p;
     Project.deadline := Project.deadline p;
     Project.owner_id := Project.owner_id p;
     Project.tasks := Project.tasks p;
     Project.milestones := milestones;
     Project.created_at := Project.created_at p;
     Project.updated_at := now |}.

(** [{"$push": {"tasks": task}, "$set": {"updated_at": now}}] *)
Definition push_task (task : Task.t) (now : string) (p : Project.t)
  : Project.t :=
  set_tasks (Project.tasks p ++ [task])%list now p.

(** [{"$pull": {"tasks": {"id": task_id}}, "$set": {"updated_at": now}}] *)
Definition pull_task (task_id : string) (now : string) (p : Project.t)
  : Project.t :=
  set_tasks (filter (fun t => Task.id t <> task_id) (Project.tasks p)) now p.

(** [{"$push": {"milestones": milestone}, "$set": {"updated_at": now}}] *)
Definition push_milestone (milestone : Milestone.t) (now : string)
    (p : Project.t) : Project.t :=
  set_milestones (Project.milestones p ++ [milestone])%list now p.

(** [{"$pull": {"milestones": {"id": milestone_id}},
      "$set": {"updated_at": now}}] *)
Definition pull_milestone (milestone_id : string) (now : string)
    (p : Project.t) : Project.t :=
  set_milestones
    (filter (fun m => Milestone.id m <> milestone_id) (Project.milestones p))
    now p.

(** [{"$set": update_dict}] of [update_project], where [update_dict] holds
    the fields of [project_data] that are not [None], and [updated_at]. *)
Definition set_project_fields (project_data : ProjectUpdate.t) (now : string)
    (p : Project.t) : Project.t :=
  {| Project.id := Project.id p;
     Project.name := patched (ProjectUpdate.name project_data) (Project.name p);
     Project.description :=
       patched (ProjectUpdate.description project_data) (Project.description p);
     Project.color :=
       patched (ProjectUpdate.color project_data) (Project.color p);
     Project.status :=
       patched (ProjectUpdate.status project_data) (Project.status p);
     Project.deadline :=
       match ProjectUpdate.deadline project_data with
       | Some d => Some d
       | None => Project.deadline p
       end;
     Project.owner_id := Project.owner_id p;
     Project.tasks := Project.tasks p;
     Project.milestones := Project.milestones p;
     Project.created_at := Project.created_at p;
     Project.updated_at := now |}.

(* ================================================================= *)
(** ** Project routes *)

Definition get_projects (owner : string) : Handler (list Project.t) :=
  find_to_list (by_owner owner) 1000.

Definition create_project (project_data : ProjectCreate.t) (owner : string)
    (new_id now : string) : Handler Project.t :=
  let project :=
    {| Project.id := new_id;
       Project.name := ProjectCreate.name project_data;
       Project.description := or_empty (ProjectCreate.description project_data);
       Project.color := ProjectCreate.color project_data;
       Project.status := "active";
       Project.deadline := ProjectCreate.deadline project_data;
       Project.owner_id := owner;
       Project.tasks := [];
       Project.milestones := [];
       Project.created_at := now;
       Project.updated_at := now |} in
  insert_one project ;;
  ret project.

Definition get_project (project_id owner : string) : Handler Project.t :=
  let* project := find_one (by_id_owner project_id owner) in
  match project with
  | None => raise 404 "Project not found"
  | Some project => ret project
  end.

Definition update_project (project_id : string)
    (project_data : ProjectUpdate.t) (owner : string) (now : string)
  : Handler Project.t :=
  let* result :=
    find_one_and_update (by_id_owner project_id owner)
      (set_project_fields project_data now) true in
  match result with
  | None => raise 404 "Project not found"
  | Some result => ret result
  end.

Definition delete_project (project_id owner : string) : Handler string :=
  let* deleted_count := delete_one (by_id_owner project_id owner) in
  if decide (deleted_count = 0%nat) then raise 404 "Project not found"
  else ret "Project deleted".

(* ================================================================= *)
(** ** Task routes *)

Definition create_task (project_id : string) (task_data : TaskCreate.t)
    (owner : string) (new_id created now : string) : Handler Task.t :=
  let task :=
    {| Task.id := new_id;
       Task.title := TaskCreate.title task_data;
       Task.description := or_empty (TaskCreate.description task_data);
       Task.priority := TaskCreate.priority task_data;
       Task.status := "todo";
       Task.due_date := TaskCreate.due_date task_data;
       Task.estimated_hours := TaskCreate.estimated_hours task_data;
       Task.time_entries := [];
       Task.created_at := created;
       Task.completed_at := None |} in
  let* result :=
    find_one_and_update (by_id_owner project_id owner)
      (push_task task now) true in
  match result with
  | None => raise 404 "Project not found"
  | Some _ => ret task
  end.

(** [next((i for i, t in enumerate(tasks) if t["id"] == task_id), None)],
    together with [tasks[i]]. *)
Definition task_index (task_id : string) (tasks : list Task.t)
  : option (nat * Task.t) :=
  list_find (fun t => Task.id t = task_id) tasks.

(** Truth value of [update_dict.get("status")]: a key that is missing and
    the empty string are both falsy. *)
Definition truthy (x : option string) : bool :=
  match x with
  | Some s => negb (String.eqb s "")
  | None => false
  end.

(** The entry [completed_at] of [update_dict] after the "status change to
    done" block of [update_task]: [None] when the key is not set,
    [Some v] when it is set to [v]. *)
Definition completed_at_update (task_data : TaskUpdate.t) (task : Task.t)
    (now : string) : option (option string) :=
  let status := TaskUpdate.status task_data in
  if bool_decide (status = Some "done")
     && bool_decide (Task.status task <> "done")
  then Some (Some now)
  else if truthy status && bool_decide (status <> Some "done")
  then Some None
  else None.

(** [tasks[task_index].update(update_dict)] *)
Definition apply_task_update (task_data : TaskUpdate.t) (now : string)
    (task : Task.t) : Task.t :=
  {| Task.id := Task.id task;
     Task.title := patched (TaskUpdate.title task_data) (Task.title task);
     Task.description :=
       patched (TaskUpdate.description task_data) (Task.description task);
     Task.priority :=
       patched (TaskUpdate.priority task_data) (Task.priority task);
     Task.status := patched (TaskUpdate.status task_data) (Task.status task);
     Task.due_date :=
       match TaskUpdate.due_date task_data with
       | Some d => Some d
       | None => Task.due_date task
       end;
     Task.estimated_hours :=
       match TaskUpdate.estimated_hours task_data with
       | Some h => Some h
       | None => Task.estimated_hours task
       end;
     Task.time_entries := Task.time_entries task;
     Task.created_at := Task.created_at task;
     Task.completed_at :=
       patched (completed_at_update task_data task now)
               (Task.completed_at task) |}.

(** [now] is the reading taken for [completed_at], [now'] the later one
    taken for [updated_at]. *)
Definition update_task (project_id task_id : string)
    (task_data : TaskUpdate.t) (owner : string) (now now' : string)
  : Handler Task.t :=
  let* project := find_one (by_id_owner project_id owner) in
  match project with
  | None => raise 404 "Project not found"
  | Some project =>
      let tasks := Project.tasks project in
      match task_index task_id tasks with
      | None => raise 404 "Task not found"
      | Some (task_index, task) =>
          let task := apply_task_update task_data now task in
          let tasks := <[task_index := task]> tasks in
          update_one (by_id project_id) (set_tasks tasks now') ;;
          ret task
      end
  end.

Definition delete_task (project_id task_id : string) (owner : string)
    (now : string) : Handler string :=
  let* result :=
    find_one_and_update (by_id_owner project_id owner)
      (pull_task task_id now) false in
  match result with
  | None => raise 404 "Project not found"
  | Some _ => ret "Task deleted"
  end.

(* ================================================================= *)
(** ** Time tracking routes *)

(** [tasks[task_index]["time_entries"] = ...] *)
Definition set_time_entries (time_entries : list TimeEntry.t) (task : Task.t)
  : Task.t :=
  {| Task.id := Task.id task;
     Task.title := Task.title task;
     Task.description := Task.description task;
     Task.priority := Task.priority task;
     Task.status := Task.status task;
     Task.due_date := Task.due_date task;
     Task.estimated_hours := Task.estimated_hours task;
     Task.time_entries := time_entries;
     Task.created_at := Task.created_at task;
     Task.completed_at := Task.completed_at task |}.

Definition add_time_entry (project_id task_id : string)
    (time_data : TimeEntryCreate.t) (owner : string)
    (new_id created now : string) : Handler TimeEntry.t :=
  let time_entry :=
    {| TimeEntry.id := new_id;
       TimeEntry.description := or_empty (TimeEntryCreate.description time_data);
       TimeEntry.duration_minutes := TimeEntryCreate.duration_minutes time_data;
       TimeEntry.date := TimeEntryCreate.date time_data;
       TimeEntry.created_at := created |} in
  let* project := find_one (by_id_owner project_id owner) in
  match project with
  | None => raise 404 "Project not found"
  | Some project =>
      let tasks := Project.tasks project in
      match task_index task_id tasks with
      | None => raise 404 "Task not found"
      | Some (task_index, task) =>
          let task :=
            set_time_entries (Task.time_entries task ++ [time_entry])%list task in
          let tasks := <[task_index := task]> tasks in
          update_one (by_id project_id) (set_tasks tasks now) ;;
          ret time_entry
      end
  end.

Definition delete_time_entry (project_id task_id time_id : string)
    (owner : string) (now : string) : Handler string :=
  let* project := find_one (by_id_owner project_id owner) in
  match project with
  | None => raise 404 "Project not found"
  | Some project =>
      let tasks := Project.tasks project in
      match task_index task_id tasks with
      | None => raise 404 "Task not found"
      | Some (task_index, task) =>
          let task :=
            set_time_entries
              (filter (fun te => TimeEntry.id te <> time_id)
                      (Task.time_entries task)) task in
          let tasks := <[task_index := task]> tasks in
          update_one (by_id project_id) (set_tasks tasks now) ;;
          ret "Time entry deleted"
      end
  end.

(* ================================================================= *)
(** ** Milestone routes *)

Definition create_milestone (project_id : string)
    (milestone_data : MilestoneCreate.t) (owner : string)
    (new_id now : string) : Handler Milestone.t :=
  let milestone :=
    {| Milestone.id := new_id;
       Milestone.title := MilestoneCreate.title milestone_data;
       Milestone.description :=
         or_empty (MilestoneCreate.description milestone_data);
       Milestone.due_date := MilestoneCreate.due_date milestone_data;
       Milestone.completed := false;
       Milestone.completed_at := None |} in
  let* result :=
    find_one_and_update (by_id_owner project_id owner)
      (push_milestone milestone now) true in
  match result with
  | None => raise 404 "Project not found"
  | Some _ => ret milestone
  end.

Definition milestone_index (milestone_id : string)
    (milestones : list Milestone.t) : option (nat * Milestone.t) :=
  list_find (fun m => Milestone.id m = milestone_id) milestones.

(** The two assignments of [update_milestone]. *)
Definition set_completed (completed : bool) (now : string) (m : Milestone.t)
  : Milestone.t :=
  {| Milestone.id := Milestone.id m;
     Milestone.title := Milestone.title m;
     Milestone.description := Milestone.description m;
     Milestone.due_date := Milestone.due_date m;
     Milestone.completed := completed;
     Milestone.completed_at := if completed then Some now else None |}.

(** [now] is the reading taken for [completed_at], [now'] the later one
    taken for [updated_at]. *)
Definition update_milestone (project_id milestone_id : string)
    (completed : bool) (owner : string) (now now' : string)
  : Handler Milestone.t :=
  let* project := find_one (by_id_owner project_id owner) in
  match project with
  | None => raise 404 "Project not found"
  | Some project =>
      let milestones := Project.milestones project in
      match milestone_index milestone_id milestones with
      | None => raise 404 "Milestone not found"
      | Some (milestone_index, milestone) =>
          let milestone := set_completed completed now milestone in
          let milestones := <[milestone_index := milestone]> milestones in
          update_one (by_id project_id) (set_milestones milestones now') ;;
          ret milestone
      end
  end.

Definition delete_milestone (project_id milestone_id : string)
    (owner : string) (now : string) : Handler string :=
  let* result :=
    find_one_and_update (by_id_owner project_id owner)
      (pull_milestone milestone_id now) false in
  match result with
  | None => raise 404 "Project not found"
  | Some _ => ret "Milestone deleted"
  end.

(* ================================================================= *)
(** ** Python arithmetic used by the analytics *)

(** [sum(xs)]: a left fold from [0]. *)
Definition py_sum (xs : list Z) : Z := foldl Z.add 0 xs.

(** [sum(1 for x in xs if P x)] *)
Definition count_if {A} (P : A -> Prop) `{!forall x, Decision (P x)}
    (xs : list A) : Z :=
  py_sum ((fun _ => 1) <$> filter P xs).

(** [len(xs)] *)
Definition len {A} (xs : list A) : Z := Z.of_nat (length xs).

(** An integer as an unrounded significand with exponent [0]. *)
Definition raw_int (n : Z) : float :=
  match n with
  | Z0 => S754_zero false
  | Zpos m => S754_finite false m 0
  | Zneg m => S754_finite true m 0
  end.

(** [a / b] on two [int]s, [b] not zero: the binary64 value nearest to the
    quotient, ties to even.  (Python raises [OverflowError] where this
    gives an infinity, beyond [10^308].) *)
Definition int_truediv (a b : Z) : float :=
  SFdiv prec emax (raw_int a) (raw_int b).

(** [float(n)] *)
Definition float_of_int (n : Z) : float := binary_normalize prec emax n 0 false.

(** [x * n] for a [float] and an [int]. *)
Definition float_mul_int (x : float) (n : Z) : float :=
  SFmul prec emax x (float_of_int n).

(** The float written [k/10] in decimal with one fractional digit. *)
Definition tenths (k : Z) : float := int_truediv k 10.

(** The integer nearest to [n / d] for [0 < d], ties to even. *)
Definition div_half_even (n d : Z) : Z :=
  let q := n / d in
  match (2 * (n mod d)) ?= d with
  | Lt => q
  | Gt => q + 1
  | Eq => if Z.even q then q else q + 1
  end.

(** The integer nearest to [10 * m * 2^e], ties to even. *)
Definition nearest_tenth (m : positive) (e : Z) : Z :=
  if 0 <=? e then 10 * Z.pos m * 2 ^ e
  else div_half_even (10 * Z.pos m) (2 ^ (- e)).

(** [round(x, 1)] on a [float]: the exact binary value is rounded to the
    nearest multiple of [1/10], ties to even, and the decimal result is
    read back as a float; zeros, infinities and NaN are returned as they
    are, and a result that rounds to zero keeps the sign. *)
Definition round1 (x : float) : float :=
  match x with
  | S754_finite s m e =>
      let k := nearest_tenth m e in
      if k =? 0 then S754_zero s else tenths (if s then - k else k)
  | _ => x
  end.

(** A JSON number of a response: [int] or [float]. *)
Inductive number : Type :=
| Int (n : Z)
| Float (x : float).

(** [round(minutes / 60, 1)] *)
Definition hours_of_minutes (minutes : Z) : float :=
  round1 (int_truediv minutes 60).

(** [round((completed / total * 100) if total > 0 else 0, 1)]; [round] of
    the [int] [0] is the [int] [0]. *)
Definition completion_rate (completed total : Z) : number :=
  if 0 <? total
  then Float (round1 (float_mul_int (int_truediv completed total) 100))
  else Int 0.

(* ================================================================= *)
(** ** [datetime] *)

(** A [datetime] value, kept as its wall-clock reading in microseconds
    since 0001-01-01T00:00:00 and its [utcoffset()] in microseconds;
    [tzinfo = None] is a naive datetime. *)
Module datetime.
Record t := mk {
  wall : Z;
  tzinfo : option Z }.
End datetime.

(** [datetime.now(timezone.utc)] when the clock reads [now]. *)
Definition utcnow (now : Z) : datetime.t :=
  {| datetime.wall := now; datetime.tzinfo := Some 0 |}.

(** [a > b]: [None] is the [TypeError] raised when exactly one side is
    naive; two aware values are compared as instants. *)
Definition datetime_gt (a b : datetime.t) : option bool :=
  match datetime.tzinfo a, datetime.tzinfo b with
  | Some oa, Some ob =>
      Some (datetime.wall b - ob <? datetime.wall a - oa)
  | None, None => Some (datetime.wall b <? datetime.wall a)
  | _, _ => None
  end.

Definition is_leap (year : Z) : bool :=
  (year mod 4 =? 0) && (negb (year mod 100 =? 0) || (year mod 400 =? 0)).

Definition days_in_month (year month : Z) : Z :=
  if month =? 2 then (if is_leap year then 29 else 28)
  else if (month =? 4) || (month =? 6) || (month =? 9) || (month =? 11)
  then 30 else 31.

Definition days_before_year (year : Z) : Z :=
  let y := year - 1 in
  y * 365 + y / 4 - y / 100 + y / 400.

Definition days_before_month (year month : Z) : Z :=
  py_sum (days_in_month year <$> (Z.of_nat <$> seq 1 (Z.to_nat (month - 1)))).

(** [datetime(year, month, day, hour, minute, second, microsecond, tzinfo)],
    [None] for the [ValueError] of a field out of range. *)
Definition make_datetime (year month day hour minute second microsecond : Z)
    (tzinfo : option Z) : option datetime.t :=
  if (1 <=? year) && (year <=? 9999) && (1 <=? month) && (month <=? 12)
     && (1 <=? day) && (day <=? days_in_month year month)
     && (hour <? 24) && (minute <? 60) && (second <? 60)
  then
    let days := days_before_year year + days_before_month year month + day - 1 in
    Some {| datetime.wall :=
              (((days * 24 + hour) * 60 + minute) * 60 + second) * 1000000
              + microsecond;
            datetime.tzinfo := tzinfo |}
  else None.

Definition digit (c : ascii) : option Z :=
  let n := Z.of_N (N_of_ascii c) in
  if (48 <=? n) && (n <=? 57) then Some (n - 48) else None.

(** A non-empty run of decimal digits, read as a number. *)
Fixpoint digits_from (acc : Z) (cs : list ascii) : option Z :=
  match cs with
  | [] => Some acc
  | c :: cs =>
      match digit c with
      | Some d => digits_from (10 * acc + d) cs
      | None => None
      end
  end.

Definition digits (cs : list ascii) : option Z :=
  match cs with
  | [] => None
  | _ => digits_from 0 cs
  end.

(** [.fff] or [.ffffff], in microseconds. *)
Definition parse_fraction (cs : list ascii) : option Z :=
  match cs with
  | [_; _; _] => (fun n => n * 1000) <$> digits cs
  | [_; _; _; _; _; _] => digits cs
  | _ => None
  end.

(** [HH[:MM[:SS[.fff[fff]]]]] *)
Definition parse_hh_mm_ss_ff (cs : list ascii) : option (Z * Z * Z * Z) :=
  match cs with
  | [h1; h2] =>
      h ← digits [h1; h2]; Some (h, 0, 0, 0)
  | [h1; h2; ":"%char; m1; m2] =>
      h ← digits [h1; h2]; m ← digits [m1; m2]; Some (h, m, 0, 0)
  | h1 :: h2 :: ":"%char :: m1 :: m2 :: ":"%char :: s1 :: s2 :: rest =>
      h ← digits [h1; h2]; m ← digits [m1; m2]; s ← digits [s1; s2];
      match rest with
      | [] => Some (h, m, s, 0)
      | "."%char :: frac => us ← parse_fraction frac; Some (h, m, s, us)
      | _ => None
      end
  | _ => None
  end.

Definition is_sign (c : ascii) : bool :=
  Ascii.eqb c "+"%char || Ascii.eqb c "-"%char.

(** The text before the first sign character, and the sign with the text
    after it when there is one. *)
Fixpoint split_offset (cs : list ascii)
  : list ascii * option (ascii * list ascii) :=
  match cs with
  | [] => ([], None)
  | c :: cs' =>
      if is_sign c then ([], Some (c, cs'))
      else let '(t, o) := split_offset cs' in (c :: t, o)
  end.

(** [+HH:MM], [+HH:MM:SS] or [+HH:MM:SS.ffffff], as a [utcoffset()] in
    microseconds; an offset of a day or more is a [ValueError]. *)
Definition parse_offset (sign : ascii) (cs : list ascii) : option Z :=
  let n := length cs in
  if (n =? 5)%nat || (n =? 8)%nat || (n =? 15)%nat then
    '(h, m, s, us) ← parse_hh_mm_ss_ff cs;
    let td := ((h * 60 + m) * 60 + s) * 1000000 + us in
    if td <? 24 * 60 * 60 * 1000000
    then Some (if Ascii.eqb sign "-"%char then - td else td)
    else None
  else None.

(** [HH[:MM[:SS[.fff[fff]]]]][+HH:MM[:SS[.ffffff]]] *)
Definition parse_isoformat_time (cs : list ascii)
  : option (Z * Z * Z * Z * option Z) :=
  let '(t, o) := split_offset cs in
  '(h, m, s, us) ← parse_hh_mm_ss_ff t;
  match o with
  | None => Some (h, m, s, us, None)
  | Some (sign, tz) => off ← parse_offset sign tz; Some (h, m, s, us, Some off)
  end.

(** [datetime.fromisoformat(date_string)] on the format of Python 3.7 to
    3.10, [YYYY-MM-DD[*HH[:MM[:SS[.fff[fff]]]][+HH:MM[:SS[.ffffff]]]]]
    where [*] is any one character; [None] is [ValueError].  From Python
    3.11 on the function reads more strings (a fraction of any length, an
    offset without a colon, the basic format), and reads the strings of
    this format as before; a date without a time is read without an offset
    by every version.  What the overview does with the deadlines is
    therefore defined over the parser ([overview_by] below), and
    [overview] is the overview of this parser. *)
Definition fromisoformat (date_string : string) : option datetime.t :=
  match list_ascii_of_string date_string with
  | y1 :: y2 :: y3 :: y4 :: "-"%char :: m1 :: m2 :: "-"%char :: d1 :: d2 :: rest =>
      year ← digits [y1; y2; y3; y4];
      month ← digits [m1; m2];
      day ← digits [d1; d2];
      match rest with
      | [] => make_datetime year month day 0 0 0 0 None
      | _ :: tstr =>
          '(h, m, s, us, tz) ← parse_isoformat_time tstr;
          make_datetime year month day h m s us tz
      end
  | _ => None
  end.

(** [s.replace('Z', '+00:00')] *)
Fixpoint replace_Z (s : string) : string :=
  match s with
  | EmptyString => EmptyString
  | String c s' =>
      if Ascii.eqb c "Z"%char then ("+00:00" ++ replace_Z s')%string
      else String c (replace_Z s')
  end.

(** The [try] blocks of the overview, with [parse] for
    [datetime.fromisoformat]: the date is kept when it parses and compares
    greater than [now]; the bare [except] drops it when [fromisoformat]
    raises [ValueError] and when the comparison raises [TypeError]. *)
Definition parses_after_by (parse : string -> option datetime.t)
    (date : string) (now : Z) : bool :=
  match parse (replace_Z date) with
  | Some d =>
      match datetime_gt d (utcnow now) with
      | Some b => b
      | None => false
      end
  | None => false
  end.

Definition parses_after (date : string) (now : Z) : bool :=
  parses_after_by fromisoformat date now.

(* ================================================================= *)
(** ** Sorting and slicing *)

Section SortByKey.
Context {A : Type} (key : A -> string).

Fixpoint insert_by_key (x : A) (l : list A) : list A :=
  match l with
  | [] => [x]
  | y :: l' =>
      if String.leb (key x) (key y) then x :: l
      else y :: insert_by_key x l'
  end.

(** [sorted(l, key=key)] and [l.sort(key=key)]: ascending and stable (an
    element stays in front of the later ones of the same key). *)
Definition sort_by_key (l : list A) : list A := foldr insert_by_key [] l.

(** The orders of the keys, for the statements about sorted lists. *)
Definition key_le (a b : A) : Prop := String.leb (key a) (key b) = true.
Definition key_lt (a b : A) : Prop := String.ltb (key a) (key b) = true.
End SortByKey.

(** [l[-n:]] for [0 < n] *)
Definition last_n {A} (n : nat) (l : list A) : list A :=
  drop (length l - n) l.

(** [s[:10]] *)
Definition first10 (s : string) : string := substring 0 10 s.

(* ================================================================= *)
(** ** Analytics routes *)

(** An element of [upcoming_deadlines]; the key [project_name] exists in
    the entries of milestones only. *)
Module Deadline.
Record t := mk {
  type : string;
  name : string;
  deadline : string;
  project_id : string;
  project_name : option string }.
End Deadline.

Module Overview.
Record t := mk {
  total_projects : Z;
  active_projects : Z;
  completed_projects : Z;
  total_tasks : Z;
  completed_tasks : Z;
  in_progress_tasks : Z;
  todo_tasks : Z;
  total_time_hours : float;
  total_milestones : Z;
  completed_milestones : Z;
  upcoming_deadlines : list Deadline.t;
  task_completion_rate : number }.
End Overview.

Definition has_status (s : string) (t : Task.t) : Prop := Task.status t = s.
#[global] Instance has_status_dec s t : Decision (has_status s t).
Proof. unfold has_status. apply _. Defined.

(** The three nested loops that accumulate [total_time_minutes]. *)
Definition total_time_minutes (projects : list Project.t) : Z :=
  foldl (fun total p =>
    foldl (fun total t =>
      foldl (fun total te => total + TimeEntry.duration_minutes te)
            total (Task.time_entries t))
      total (Project.tasks p))
    0 projects.

(** What one turn of the loop over the projects appends to
    [upcoming_deadlines]. *)
Definition project_deadline_by (parse : string -> option datetime.t)
    (now : Z) (p : Project.t) : list Deadline.t :=
  match Project.deadline p with
  | Some d =>
      if negb (String.eqb d "") && parses_after_by parse d now
      then [ {| Deadline.type := "project";
                Deadline.name := Project.name p;
                Deadline.deadline := d;
                Deadline.project_id := Project.id p;
                Deadline.project_name := None |} ]
      else []
  | None => []
  end.

Definition milestone_deadline_by (parse : string -> option datetime.t)
    (now : Z) (p : Project.t) (m : Milestone.t) : list Deadline.t :=
  if negb (Milestone.completed m)
     && negb (String.eqb (Milestone.due_date m) "")
     && parses_after_by parse (Milestone.due_date m) now
  then [ {| Deadline.type := "milestone";
            Deadline.name := Milestone.title m;
            Deadline.deadline := Milestone.due_date m;
            Deadline.project_id := Project.id p;
            Deadline.project_name := Some (Project.name p) |} ]
  else [].

(** [upcoming_deadlines] when the loop over the projects ends. *)
Definition collect_deadlines_by (parse : string -> option datetime.t)
    (now : Z) (projects : list Project.t) : list Deadline.t :=
  foldl (fun upcoming p =>
    foldl (fun upcoming m =>
             upcoming ++ milestone_deadline_by parse now p m)%list
          (upcoming ++ project_deadline_by parse now p)%list
          (Project.milestones p))
    [] projects.

(** The body of [get_analytics_overview] after the query. *)
Definition overview_by (parse : string -> option datetime.t)
    (projects : list Project.t) (now : Z) : Overview.t :=
  let total_projects := len projects in
  let active_projects :=
    count_if (fun p => Project.status p = "active") projects in
  let completed_projects :=
    count_if (fun p => Project.status p = "completed") projects in
  let total_tasks := py_sum ((fun p => len (Project.tasks p)) <$> projects) in
  let completed_tasks :=
    py_sum ((fun p => count_if (has_status "done") (Project.tasks p))
              <$> projects) in
  let in_progress_tasks :=
    py_sum ((fun p => count_if (has_status "in_progress") (Project.tasks p))
              <$> projects) in
  let total_milestones :=
    py_sum ((fun p => len (Project.milestones p)) <$> projects) in
  let completed_milestones :=
    py_sum ((fun p =>
               count_if (fun m => Milestone.completed m = true)
                        (Project.milestones p)) <$> projects) in
  let upcoming_deadlines :=
    sort_by_key Deadline.deadline (collect_deadlines_by parse now projects) in
  {| Overview.total_projects := total_projects;
     Overview.active_projects := active_projects;
     Overview.completed_projects := completed_projects;
     Overview.total_tasks := total_tasks;
     Overview.completed_tasks := completed_tasks;
     Overview.in_progress_tasks := in_progress_tasks;
     Overview.todo_tasks := total_tasks - completed_tasks - in_progress_tasks;
     Overview.total_time_hours := hours_of_minutes (total_time_minutes projects);
     Overview.total_milestones := total_milestones;
     Overview.completed_milestones := completed_milestones;
     Overview.upcoming_deadlines := take 5 upcoming_deadlines;
     Overview.task_completion_rate :=
       completion_rate completed_tasks total_tasks |}.

Definition get_analytics_overview_by (parse : string -> option datetime.t)
    (owner : string) (now : Z) : Handler Overview.t :=
  let* projects := find_to_list (by_owner owner) 1000 in
  ret (overview_by parse projects now).

(** The overview and its parts under the parser [fromisoformat]. *)
Definition project_deadline (now : Z) (p : Project.t) : list Deadline.t :=
  project_deadline_by fromisoformat now p.

Definition milestone_deadline (now : Z) (p : Project.t) (m : Milestone.t)
  : list Deadline.t :=
  milestone_deadline_by fromisoformat now p m.

Definition collect_deadlines (now : Z) (projects : list Project.t)
  : list Deadline.t :=
  collect_deadlines_by fromisoformat now projects.

Definition overview (projects : list Project.t) (now : Z) : Overview.t :=
  overview_by fromisoformat projects now.

Definition get_analytics_overview (owner : string) (now : Z)
  : Handler Overview.t :=
  get_analytics_overview_by fromisoformat owner now.

Module ProjectTime.
Record t := mk {
  name : string;
  hours : float;
  color : string }.
End ProjectTime.

Module DailyTime.
Record t := mk {
  date : string;
  hours : float }.
End DailyTime.

Module TimeTracking.
Record t := mk {
  by_project : list ProjectTime.t;
  daily : list DailyTime.t }.
End TimeTracking.

(** One turn of the innermost loop of [get_time_tracking_analytics], on
    the pair of [project_minutes] and [daily_times]. *)
Definition track_entry (acc : Z * gmap string Z) (te : TimeEntry.t)
  : Z * gmap string Z :=
  let '(project_minutes, daily_times) := acc in
  let minutes := TimeEntry.duration_minutes te in
  let project_minutes := project_minutes + minutes in
  let date := first10 (TimeEntry.date te) in
  if negb (String.eqb date "")
  then (project_minutes,
        <[date := default 0 (daily_times !! date) + minutes]> daily_times)
  else (project_minutes, daily_times).

(** One turn of the loop over the projects, on the pair of
    [project_times] and [daily_times]. *)
Definition track_project (acc : list ProjectTime.t * gmap string Z)
    (p : Project.t) : list ProjectTime.t * gmap string Z :=
  let '(project_times, daily_times) := acc in
  let '(project_minutes, daily_times) :=
    foldl (fun acc t => foldl track_entry acc (Task.time_entries t))
          (0, daily_times) (Project.tasks p) in
  if 0 <? project_minutes
  then ((project_times ++
          [ {| ProjectTime.name := Project.name p;
               ProjectTime.hours := hours_of_minutes project_minutes;
               ProjectTime.color := Project.color p |} ])%list,
        daily_times)
  else (project_times, daily_times).

(** [sorted(daily_times.items())]: the keys of a dict are distinct, so the
    order of the pairs is the order of the dates. *)
Definition sorted_items (daily_times : gmap string Z) : list (string * Z) :=
  sort_by_key fst (map_to_list daily_times).

(** The body of [get_time_tracking_analytics] after the query. *)
Definition time_tracking (projects : list Project.t) : TimeTracking.t :=
  let '(project_times, daily_times) := foldl track_project ([], ∅) projects in
  let daily_list :=
    last_n 14
      ((fun '(date, minutes) =>
          {| DailyTime.date := date;
             DailyTime.hours := hours_of_minutes minutes |})
         <$> sorted_items daily_times) in
  {| TimeTracking.by_project := project_times;
     TimeTracking.daily := daily_list |}.

Definition get_time_tracking_analytics (owner : string)
  : Handler TimeTracking.t :=
  let* projects := find_to_list (by_owner owner) 1000 in
  ret (time_tracking projects).

(* ================================================================= *)
(** ** Vocabulary of the statements *)

(** [out] is a successful response that leaves the project selected by
    the filter at position [j] with [updated_at = now]. *)
Definition refreshes {A} (project_id owner now : string) (j : nat)
    (out : Response A * Db) : Prop :=
  exists r p',
    fst out = Return r
    /\ list_find (by_id_owner project_id owner) (snd out) = Some (j, p')
    /\ Project.updated_at p' = now.

(** The answer of a route whose filter selects no project. *)
Definition not_found {A} (db : Db) : Response A * Db :=
  (HTTPException 404 "Project not found", db).

(** *** Flat views of the nested documents *)

Definition Zsum (xs : list Z) : Z := foldr Z.add 0 xs.

(** Every task of the projects, in the order of the loops. *)
Definition all_tasks (projects : list Project.t) : list Task.t :=
  projects ≫= Project.tasks.

(** Every time entry of the tasks, in the order of the loops. *)
Definition entries_of (tasks : list Task.t) : list TimeEntry.t :=
  tasks ≫= Task.time_entries.

(** The sum of [duration_minutes] over the entries. *)
Definition minutes (entries : list TimeEntry.t) : Z :=
  Zsum (TimeEntry.duration_minutes <$> entries).

Definition project_minutes (p : Project.t) : Z :=
  minutes (entries_of (Project.tasks p)).

(** The row of [by_project] for a project. *)
Definition project_time (p : Project.t) : ProjectTime.t :=
  {| ProjectTime.name := Project.name p;
     ProjectTime.hours := hours_of_minutes (project_minutes p);
     ProjectTime.color := Project.color p |}.

(** The entry falls on the day [d]: [d] is the first ten characters of its
    date. *)
Definition on_date (d : string) (te : TimeEntry.t) : Prop :=
  first10 (TimeEntry.date te) = d.
#[global] Instance on_date_dec d te : Decision (on_date d te).
Proof. unfold on_date. apply _. Defined.

Definition date_lt (a b : DailyTime.t) : Prop :=
  String.ltb (DailyTime.date a) (DailyTime.date b) = true.

(** One turn of the innermost loop of the time tracking, on [daily_times]
    alone. *)
Definition track_daily (daily_times : gmap string Z) (te : TimeEntry.t)
  : gmap string Z :=
  snd (track_entry (0, daily_times) te).

(** The minutes of the day [d] over the entries, when [d] is not empty and
    some entry falls on it. *)
Definition bucket_of (entries : list TimeEntry.t) (d : string) : option Z :=
  if decide (d <> "" /\ Exists (on_date d) entries)
  then Some (minutes (filter (on_date d) entries))
  else None.

(** The row of [daily] for a date and its minutes. *)
Definition daily_time (item : string * Z) : DailyTime.t :=
  {| DailyTime.date := fst item;
     DailyTime.hours := hours_of_minutes (snd item) |}.

(** *** Sample data *)

Definition monday : TimeEntry.t :=
  {| TimeEntry.id := "e1";
     TimeEntry.description := "";
     TimeEntry.duration_minutes := 60;
     TimeEntry.date := "2024-01-01";
     TimeEntry.created_at := "2024-01-01T10:00:00+00:00" |}.

Definition tuesday : TimeEntry.t :=
  {| TimeEntry.id := "e2";
     TimeEntry.description := "";
     TimeEntry.duration_minutes := 30;
     TimeEntry.date := "2024-01-02";
     TimeEntry.created_at := "2024-01-02T10:00:00+00:00" |}.

Definition design : Task.t :=
  {| Task.id := "t1";
     Task.title := "Design";
     Task.description := "";
     Task.priority := "medium";
     Task.status := "done";
     Task.due_date := None;
     Task.estimated_hours := None;
     Task.time_entries := [monday; tuesday];
     Task.created_at := "2024-01-01T09:00:00+00:00";
     Task.completed_at := Some "2024-01-03T09:00:00+00:00" |}.

Definition beta : Milestone.t :=
  {| Milestone.id := "m1";
     Milestone.title := "Beta";
     Milestone.description := "";
     Milestone.due_date := "2030-01-01";
     Milestone.completed := false;
     Milestone.completed_at := None |}.

Definition launch : Project.t :=
  {| Project.id := "p1";
     Project.name := "Launch";
     Project.description := "";
     Project.color := "#4F46E5";
     Project.status := "active";
     Project.deadline := Some "2099-01-01";
     Project.owner_id := "alice";
     Project.tasks := [design];
     Project.milestones := [beta];
     Project.created_at := "2024-01-01T08:00:00+00:00";
     Project.updated_at := "2024-01-03T09:00:00+00:00" |}.

Definition garden : Project.t :=
  {| Project.id := "p2";
     Project.name := "Garden";
     Project.description := "";
     Project.color := "#10B981";
     Project.status := "on_hold";
     Project.deadline := None;
     Project.owner_id := "bob";
     Project.tasks := [];
     Project.milestones := [];
     Project.created_at := "2024-01-05T08:00:00+00:00";
     Project.updated_at := "2024-01-05T08:00:00+00:00" |}.

Definition sample_db : Db := [garden; launch].

(** The project number [n] of an owner with many projects; each holds
    the task [design] with its 90 minutes. *)
Definition numbered (n : nat) : Project.t :=
  {| Project.id := "p" +:+ pretty n;
     Project.name := "Launch";
     Project.description := "";
     Project.color := "#4F46E5";
     Project.status := "active";
     Project.deadline := None;
     Project.owner_id := "carol";
     Project.tasks := [design];
     Project.milestones := [];
     Project.created_at := "2024-01-01T08:00:00+00:00";
     Project.updated_at := "2024-01-03T09:00:00+00:00" |}.

Definition many_projects : Db := numbered <$> seq 0 1001.

(** An entry without a date, and an entry of negative duration. *)
Definition undated : TimeEntry.t :=
  {| TimeEntry.id := "e3";
     TimeEntry.description := "";
     TimeEntry.duration_minutes := 60;
     TimeEntry.date := "";
     TimeEntry.created_at := "2024-01-04T10:00:00+00:00" |}.

Definition refund : TimeEntry.t :=
  {| TimeEntry.id := "e4";
     TimeEntry.description := "";
     TimeEntry.duration_minutes := -30;
     TimeEntry.date := "2024-01-01";
     TimeEntry.created_at := "2024-01-04T11:00:00+00:00" |}.

Definition task_with (id : string) (entries : list TimeEntry.t) : Task.t :=
  {| Task.id := id;
     Task.title := "Write";
     Task.description := "";
     Task.priority := "medium";
     Task.status := "todo";
     Task.due_date := None;
     Task.estimated_hours := None;
     Task.time_entries := entries;
     Task.created_at := "2024-01-04T09:00:00+00:00";
     Task.completed_at := None |}.

Definition project_with (id name : string) (tasks : list Task.t) : Project.t :=
  {| Project.id := id;
     Project.name := name;
     Project.description := "";
     Project.color := "#4F46E5";
     Project.status := "active";
     Project.deadline := None;
     Project.owner_id := "dave";
     Project.tasks := tasks;
     Project.milestones := [];
     Project.created_at := "2024-01-04T08:00:00+00:00";
     Project.updated_at := "2024-01-04T11:00:00+00:00" |}.

Definition audit : Project.t := project_with "p3" "Audit" [task_with "t3" [refund]].
Definition notes : Project.t := project_with "p4" "Notes" [task_with "t4" [undated]].
Definition daves_db : Db := [audit; notes].

(** The instant of a timestamp with an offset, for a clock reading. *)
Definition instant (s : string) : Z :=
  match fromisoformat s with
  | Some d => datetime.wall d - default 0 (datetime.tzinfo d)
  | None => 0
  end.

(** [launch] with the given deadline and due date of its milestone. *)
Definition launch_due (deadline due_date : string) : Project.t :=
  {| Project.id := "p1";
     Project.name := "Launch";
     Project.description := "";
     Project.color := "#4F46E5";
     Project.status := "active";
     Project.deadline := Some deadline;
     Project.owner_id := "alice";
     Project.tasks := [design];
     Project.milestones :=
       [ {| Milestone.id := "m1";
            Milestone.title := "Beta";
            Milestone.description := "";
            Milestone.due_date := due_date;
            Milestone.completed := false;
            Milestone.completed_at := None |} ];
     Project.created_at := "2024-01-01T08:00:00+00:00";
     Project.updated_at := "2024-01-03T09:00:00+00:00" |}.

(** The body [{"name": name}]. *)
Definition rename (name : string) : ProjectUpdate.t :=
  {| ProjectUpdate.name := Some name;
     ProjectUpdate.description := None;
     ProjectUpdate.color := None;
     ProjectUpdate.deadline := None;
     ProjectUpdate.status := None |}.

(** A task with one entry on each of the fifteen days 2024-01-01 to
    2024-01-15, 60 minutes each. *)
Definition fortnight_and_a_day : list TimeEntry.t :=
  (fun day =>
     {| TimeEntry.id := "e" +:+ day;
        TimeEntry.description := "";
        TimeEntry.duration_minutes := 60;
        TimeEntry.date := "2024-01-" +:+ day +:+ "T08:00:00.000Z";
        TimeEntry.created_at := "2024-01-20T10:00:00+00:00" |})
  <$> ["15"; "03"; "02"; "01"; "04"; "05"; "06"; "07"; "08"; "09"; "10";
       "11"; "12"; "13"; "14"].

Definition no_patch : TaskUpdate.t :=
  {| TaskUpdate.title := None;
     TaskUpdate.description := None;
     TaskUpdate.priority := None;
     TaskUpdate.status := None;
     TaskUpdate.due_date := None;
     TaskUpdate.estimated_hours := None |}.

(** The body [{"status": status}]. *)
Definition status_patch (status : string) : TaskUpdate.t :=
  {| TaskUpdate.title := None;
     TaskUpdate.description := None;
     TaskUpdate.priority := None;
     TaskUpdate.status := Some status;
     TaskUpdate.due_date := None;
     TaskUpdate.estimated_hours := None |}.

(** The requests of the end-to-end scenario, from an empty collection:
    a project with a deadline, a task set to done, a milestone, and the
    overview read at [now]. *)
Definition end_to_end (now : Z) : Handler Overview.t :=
  create_project
    {| ProjectCreate.name := "Launch";
       ProjectCreate.description := None;
       ProjectCreate.color := "#4F46E5";
       ProjectCreate.deadline := Some "2099-01-01" |}
    "alice" "p1" "2024-01-01T08:00:00+00:00" ;;
  create_task "p1"
    {| TaskCreate.title := "Design";
       TaskCreate.description := None;
       TaskCreate.priority := "medium";
       TaskCreate.due_date := None;
       TaskCreate.estimated_hours := None |}
    "alice" "t1" "2024-01-01T09:00:00+00:00" "2024-01-01T09:00:00+00:00" ;;
  update_task "p1" "t1" (status_patch "done") "alice"
    "2024-01-03T09:00:00+00:00" "2024-01-03T09:00:00+00:00" ;;
  create_milestone "p1"
    {| MilestoneCreate.title := "Beta";
       MilestoneCreate.description := None;
       MilestoneCreate.due_date := "2030-01-01" |}
    "alice" "m1" "2024-01-03T10:00:00+00:00" ;;
  get_analytics_overview "alice" now.

(* ================================================================= *)
(** ** The documents the creating routes build *)

(** The [Project(...)] of [create_project]. *)
Definition new_project (project_data : ProjectCreate.t)
    (owner new_id now : string) : Project.t :=
  {| Project.id := new_id;
     Project.name := ProjectCreate.name project_data;
     Project.description := or_empty (ProjectCreate.description project_data);
     Project.color := ProjectCreate.color project_data;
     Project.status := "active";
     Project.deadline := ProjectCreate.deadline project_data;
     Project.owner_id := owner;
     Project.tasks := [];
     Project.milestones := [];
     Project.created_at := now;
     Project.updated_at := now |}.

(** The [Task(...)] of [create_task]. *)
Definition new_task (task_data : TaskCreate.t) (new_id created : string)
  : Task.t :=
  {| Task.id := new_id;
     Task.title := TaskCreate.title task_data;
     Task.description := or_empty (TaskCreate.description task_data);
     Task.priority := TaskCreate.priority task_data;
     Task.status := "todo";
     Task.due_date := TaskCreate.due_date task_data;
     Task.estimated_hours := TaskCreate.estimated_hours task_data;
     Task.time_entries := [];
     Task.created_at := created;
     Task.completed_at := None |}.

(** The [TimeEntry(...)] of [add_time_entry]. *)
Definition new_time_entry (time_data : TimeEntryCreate.t)
    (new_id created : string) : TimeEntry.t :=
  {| TimeEntry.id := new_id;
     TimeEntry.description := or_empty (TimeEntryCreate.description time_data);
     TimeEntry.duration_minutes := TimeEntryCreate.duration_minutes time_data;
     TimeEntry.date := TimeEntryCreate.date time_data;
     TimeEntry.created_at := created |}.

(** The [Milestone(...)] of [create_milestone]. *)
Definition new_milestone (milestone_data : MilestoneCreate.t)
    (new_id : string) : Milestone.t :=
  {| Milestone.id := new_id;
     Milestone.title := MilestoneCreate.title milestone_data;
     Milestone.description :=
       or_empty (MilestoneCreate.description milestone_data);
     Milestone.due_date := MilestoneCreate.due_date milestone_data;
     Milestone.completed := false;
     Milestone.completed_at := None |}.

(** The answer of a route that selects the project but finds no element
    of the given id in it. *)
Definition element_not_found {A} (detail : string) (db : Db)
  : Response A * Db :=
  (HTTPException 404 detail, db).

(* ================================================================= *)
(** ** The collection under a sequence of requests *)

(** A request to one of the routes that write to the collection, with
    the times and uuids the route draws while it serves the request. *)
Inductive Request : Type :=
| CreateProject (data : ProjectCreate.t) (owner new_id now : string)
| UpdateProject (project_id : string) (data : ProjectUpdate.t)
    (owner now : string)
| DeleteProject (project_id owner : string)
| CreateTask (project_id : string) (data : TaskCreate.t)
    (owner new_id created now : string)
| UpdateTask (project_id task_id : string) (data : TaskUpdate.t)
    (owner now now' : string)
| DeleteTask (project_id task_id owner now : string)
| AddTimeEntry (project_id task_id : string) (data : TimeEntryCreate.t)
    (owner new_id created now : string)
| DeleteTimeEntry (project_id task_id time_id owner now : string)
| CreateMilestone (project_id : string) (data : MilestoneCreate.t)
    (owner new_id now : string)
| UpdateMilestone (project_id milestone_id : string) (completed : bool)
    (owner now now' : string)
| DeleteMilestone (project_id milestone_id owner now : string).

(** The collection after the route has served the request, whatever it
    answered. *)
Definition serve (r : Request) (db : Db) : Db :=
  match r with
  | CreateProject data owner new_id now =>
      snd (create_project data owner new_id now db)
  | UpdateProject project_id data owner now =>
      snd (update_project project_id data owner now db)
  | DeleteProject project_id owner =>
      snd (delete_project project_id owner db)
  | CreateTask project_id data owner new_id created now =>
      snd (create_task project_id data owner new_id created now db)
  | UpdateTask project_id task_id data owner now now' =>
      snd (update_task project_id task_id data owner now now' db)
  | DeleteTask project_id task_id owner now =>
      snd (delete_task project_id task_id owner now db)
  | AddTimeEntry project_id task_id data owner new_id created now =>
      snd (add_time_entry project_id task_id data owner new_id created now db)
  | DeleteTimeEntry project_id task_id time_id owner now =>
      snd (delete_time_entry project_id task_id time_id owner now db)
  | CreateMilestone project_id data owner new_id now =>
      snd (create_milestone project_id data owner new_id now db)
  | UpdateMilestone project_id milestone_id completed owner now now' =>
      snd (update_milestone project_id milestone_id completed owner now now' db)
  | DeleteMilestone project_id milestone_id owner now =>
      snd (delete_milestone project_id milestone_id owner now db)
  end.

Definition task_ids (db : Db) : list string := Task.id <$> all_tasks db.

Definition milestone_ids (db : Db) : list string :=
  db ≫= (fun p => Milestone.id <$> Project.milestones p).

Definition time_entry_ids (db : Db) : list string :=
  TimeEntry.id <$> entries_of (all_tasks db).

(** The uuid a creating route draws is one that the collection does not
    hold yet for a document of that kind. *)
Definition fresh (r : Request) (db : Db) : Prop :=
  match r with
  | CreateProject _ _ new_id _ => new_id ∉ Project.id <$> db
  | CreateTask _ _ _ new_id _ _ => new_id ∉ task_ids db
  | AddTimeEntry _ _ _ _ new_id _ _ => new_id ∉ time_entry_ids db
  | CreateMilestone _ _ _ new_id _ => new_id ∉ milestone_ids db
  | _ => True
  end.

(** The collections the server can hold: it starts empty and serves
    requests, drawing fresh uuids. *)
Inductive reachable : Db -> Prop :=
| reachable_empty : reachable []
| reachable_serve (r : Request) (db : Db) :
    reachable db -> fresh r db -> reachable (serve r db).

(** The patch of a request that updates a task. *)
Definition patch_of (r : Request) : option TaskUpdate.t :=
  match r with
  | UpdateTask _ _ data _ _ _ => Some data
  | _ => None
  end.

(** What a route that works inside a project makes of the project, when
    the patches of task updates are among the [allowed] ones. *)
Inductive project_step (allowed : TaskUpdate.t -> Prop)
  : Project.t -> Project.t -> Prop :=
| step_update_project data now p :
    project_step allowed p (set_project_fields data now p)
| step_create_task data new_id created now p :
    new_id ∉ Task.id <$> Project.tasks p ->
    project_step allowed p (push_task (new_task data new_id created) now p)
| step_update_task task_id data now now' i task p :
    allowed data ->
    task_index task_id (Project.tasks p) = Some (i, task) ->
    project_step allowed p
      (set_tasks (<[i := apply_task_update data now task]> (Project.tasks p))
                 now' p)
| step_delete_task task_id now p :
    project_step allowed p (pull_task task_id now p)
| step_add_time_entry task_id data new_id created now i task p :
    task_index task_id (Project.tasks p) = Some (i, task) ->
    new_id ∉ TimeEntry.id <$> Task.time_entries task ->
    project_step allowed p
      (set_tasks
         (<[i := set_time_entries
                   (Task.time_entries task
                      ++ [new_time_entry data new_id created]) task]>
            (Project.tasks p)) now p)
| step_delete_time_entry task_id time_id now i task p :
    task_index task_id (Project.tasks p) = Some (i, task) ->
    project_step allowed p
      (set_tasks
         (<[i := set_time_entries
                   (filter (fun te => TimeEntry.id te <> time_id)
                           (Task.time_entries task)) task]>
            (Project.tasks p)) now p)
| step_create_milestone data new_id now p :
    new_id ∉ Milestone.id <$> Project.milestones p ->
    project_step allowed p (push_milestone (new_milestone data new_id) now p)
| step_update_milestone milestone_id completed now now' i m p :
    milestone_index milestone_id (Project.milestones p) = Some (i, m) ->
    project_step allowed p
      (set_milestones (<[i := set_completed completed now m]>
                         (Project.milestones p)) now' p)
| step_delete_milestone milestone_id now p :
    project_step allowed p (pull_milestone milestone_id now p).

(** What serving a request makes of the collection: nothing, one more
    project at the end, one project less, or one project changed in
    place. *)
Inductive db_step (allowed : TaskUpdate.t -> Prop) (db : Db) : Db -> Prop :=
| db_same : db_step allowed db db
| db_created data owner new_id now :
    new_id ∉ Project.id <$> db ->
    db_step allowed db (db ++ [new_project data owner new_id now])
| db_deleted j p :
    db !! j = Some p -> db_step allowed db (delete j db)
| db_changed j p p' :
    db !! j = Some p -> project_step allowed p p' ->
    db_step allowed db (<[j := p']> db).

(** *** Invariants of a project *)

(** The ids of the tasks and of the milestones of the project are
    distinct, and so are the ids of the time entries of each task. *)
Definition nested_ids_distinct (p : Project.t) : Prop :=
  NoDup (Task.id <$> Project.tasks p)
  /\ NoDup (Milestone.id <$> Project.milestones p)
  /\ Forall (fun t => NoDup (TimeEntry.id <$> Task.time_entries t))
            (Project.tasks p).

(** A task that is done has a completion time. *)
Definition done_has_time (t : Task.t) : Prop :=
  Task.status t = "done" -> Task.completed_at t <> None.

(** A task has a completion time only when it is done. *)
Definition time_only_when_done (t : Task.t) : Prop :=
  Task.completed_at t <> None -> Task.status t = "done".

(** A milestone has a completion time exactly when it is completed. *)
Definition milestone_consistent (m : Milestone.t) : Prop :=
  Milestone.completed m = true <-> Milestone.completed_at m <> None.

(** The patch does not set the empty status. *)
Definition no_empty_status (data : TaskUpdate.t) : Prop :=
  TaskUpdate.status data <> Some "".

(** The requests of the scenario [end_to_end]. *)
Definition scenario_requests : list Request :=
  [ CreateProject
      {| ProjectCreate.name := "Launch";
         ProjectCreate.description := None;
         ProjectCreate.color := "#4F46E5";
         ProjectCreate.deadline := Some "2099-01-01" |}
      "alice" "p1" "2024-01-01T08:00:00+00:00";
    CreateTask "p1"
      {| TaskCreate.title := "Design";
         TaskCreate.description := None;
         TaskCreate.priority := "medium";
         TaskCreate.due_date := None;
         TaskCreate.estimated_hours := None |}
      "alice" "t1" "2024-01-01T09:00:00+00:00" "2024-01-01T09:00:00+00:00";
    UpdateTask "p1" "t1" (status_patch "done") "alice"
      "2024-01-03T09:00:00+00:00" "2024-01-03T09:00:00+00:00";
    CreateMilestone "p1"
      {| MilestoneCreate.title := "Beta";
         MilestoneCreate.description := None;
         MilestoneCreate.due_date := "2030-01-01" |}
      "alice" "m1" "2024-01-03T10:00:00+00:00" ].

(** The collection after the scenario. *)
Definition scenario_db : Db :=
  foldl (fun db r => serve r db) [] scenario_requests.

(** The uuid that [create_project] draws is one that no project of the
    collection has; nothing is asked of the other requests. *)
Definition fresh_project (r : Request) (db : Db) : Prop :=
  match r with
  | CreateProject _ _ new_id _ => new_id ∉ Project.id <$> db
  | _ => True
  end.

(** The collections the server can hold when only the uuids of the
    projects are known to be new. *)
Inductive served : Db -> Prop :=
| served_empty : served []
| served_next (r : Request) (db : Db) :
    served db -> fresh_project r db -> served (serve r db).

Definition task_titled (title : string) : TaskCreate.t :=
  {| TaskCreate.title := title;
     TaskCreate.description := None;
     TaskCreate.priority := "medium";
     TaskCreate.due_date := None;
     TaskCreate.estimated_hours := None |}.

Definition project_named (name : string) : ProjectCreate.t :=
  {| ProjectCreate.name := name;
     ProjectCreate.description := None;
     ProjectCreate.color := "#4F46E5";
     ProjectCreate.deadline := None |}.

Definition minutes_on (duration_minutes : Z) (date : string)
  : TimeEntryCreate.t :=
  {| TimeEntryCreate.description := None;
     TimeEntryCreate.duration_minutes := duration_minutes;
     TimeEntryCreate.date := date |}.

Definition milestone_due (title due_date : string) : MilestoneCreate.t :=
  {| MilestoneCreate.title := title;
     MilestoneCreate.description := None;
     MilestoneCreate.due_date := due_date |}.

(** Two users at work: three projects, of which one is deleted, three
    tasks, two time entries on one task and two milestones in one project,
    with updates and removals in between. *)
Definition busy_requests : list Request :=
  [ CreateProject (project_named "Launch") "alice" "p1"
      "2024-01-01T08:00:00+00:00";
    CreateProject (project_named "Garden") "bob" "p2"
      "2024-01-01T08:05:00+00:00";
    CreateProject (project_named "Scratch") "alice" "p3"
      "2024-01-01T08:10:00+00:00";
    CreateTask "p1" (task_titled "Design") "alice" "t1"
      "2024-01-01T09:00:00+00:00" "2024-01-01T09:00:00+00:00";
    CreateTask "p1" (task_titled "Build") "alice" "t2"
      "2024-01-01T09:05:00+00:00" "2024-01-01T09:05:00+00:00";
    CreateTask "p2" (task_titled "Dig") "bob" "t3"
      "2024-01-01T09:10:00+00:00" "2024-01-01T09:10:00+00:00";
    CreateTask "p1" (task_titled "Ship") "alice" "t4"
      "2024-01-01T09:15:00+00:00" "2024-01-01T09:15:00+00:00";
    AddTimeEntry "p1" "t1" (minutes_on 45 "2024-01-02") "alice" "e1"
      "2024-01-02T10:00:00+00:00" "2024-01-02T10:00:00+00:00";
    AddTimeEntry "p1" "t1" (minutes_on 30 "2024-01-03") "alice" "e2"
      "2024-01-03T10:00:00+00:00" "2024-01-03T10:00:00+00:00";
    AddTimeEntry "p1" "t1" (minutes_on 15 "2024-01-03") "alice" "e3"
      "2024-01-03T11:00:00+00:00" "2024-01-03T11:00:00+00:00";
    CreateMilestone "p1" (milestone_due "Alpha" "2030-01-01") "alice" "m1"
      "2024-01-03T12:00:00+00:00";
    CreateMilestone "p1" (milestone_due "Beta" "2030-06-01") "alice" "m2"
      "2024-01-03T12:05:00+00:00";
    CreateMilestone "p1" (milestone_due "Gamma" "2031-01-01") "alice" "m3"
      "2024-01-03T12:10:00+00:00";
    UpdateTask "p1" "t1" (status_patch "done") "alice"
      "2024-01-04T09:00:00+00:00" "2024-01-04T09:00:00+00:00";
    UpdateMilestone "p1" "m1" true "alice"
      "2024-01-04T10:00:00+00:00" "2024-01-04T10:00:00+00:00";
    DeleteTimeEntry "p1" "t1" "e3" "alice" "2024-01-04T11:00:00+00:00";
    DeleteTask "p1" "t4" "alice" "2024-01-04T11:05:00+00:00";
    DeleteMilestone "p1" "m3" "alice" "2024-01-04T11:10:00+00:00";
    DeleteProject "p3" "alice" ].

Definition busy_db : Db := foldl (fun db r => serve r db) [] busy_requests.

(** After [busy_requests]: the id of the deleted project is drawn again,
    and a task of another project gets the id of a task that exists. *)
Definition crowded_requests : list Request :=
  busy_requests
  ++ [ CreateProject (project_named "Scratch again") "bob" "p3"
         "2024-01-05T08:00:00+00:00";
       CreateTask "p2" (task_titled "Design") "bob" "t1"
         "2024-01-05T09:00:00+00:00" "2024-01-05T09:00:00+00:00";
       UpdateProject "p1"
         {| ProjectUpdate.name := Some "Relaunch";
            ProjectUpdate.description := None;
            ProjectUpdate.color := None;
            ProjectUpdate.status := None;
            ProjectUpdate.deadline := None |}
         "alice" "2024-01-05T10:00:00+00:00" ].

Definition crowded_db : Db :=
  foldl (fun db r => serve r db) [] crowded_requests.

(* ================================================================= *)
(** ** Users and authentication *)

(** The documents of [db.users]; [password] holds the hash. *)
Module User.
Record t := mk {
  id : string;
  name : string;
  email : string;
  password : string;
  created_at : string }.
End User.

Module UserCreate.
Record t := mk {
  name : string;
  email : string;
  password : string }.
End UserCreate.

Module UserLogin.
Record t := mk {
  email : string;
  password : string }.
End UserLogin.

Module UserResponse.
Record t := mk {
  id : string;
  name : string;
  email : string;
  created_at : string }.
End UserResponse.

Module TokenResponse.
Record t := mk {
  access_token : string;
  token_type : string;
  user : UserResponse.t }.
End TokenResponse.

Abbreviation Users := (list User.t).

Definition ACCESS_TOKEN_EXPIRE_HOURS : Z := 24.

(** The profile a route answers for a user document: every field but the
    password. *)
Definition user_response (u : User.t) : UserResponse.t :=
  {| UserResponse.id := User.id u;
     UserResponse.name := User.name u;
     UserResponse.email := User.email u;
     UserResponse.created_at := User.created_at u |}.

(** The routes of authentication, over what the libraries do:
    [verify_password plain hashed] is [pwd_context.verify],
    [jwt_encode sub exp] is [jwt.encode] of the claims [sub] and [exp] under
    the secret key, and [jwt_decode token now] is [jwt.decode] at the time
    [now], followed by [payload.get("sub")]: [None] for a [JWTError].  The
    salted hash that [get_password_hash] draws is an argument of
    [register], like the uuid and the times (in microseconds, as for
    [utcnow]). *)
Section Auth.
Variable verify_password : string -> string -> bool.
Variable jwt_encode : string -> Z -> string.
Variable jwt_decode : string -> Z -> option (option string).

Definition create_access_token (sub : string) (now : Z) : string :=
  jwt_encode sub (now + ACCESS_TOKEN_EXPIRE_HOURS * 3600 * 1000000).

Definition get_current_user (token : string) (now : Z) (users : Users)
  : Response User.t * Users :=
  match jwt_decode token now with
  | None => (HTTPException 401 "Invalid token", users)
  | Some None => (HTTPException 401 "Invalid token", users)
  | Some (Some user_id) =>
      match list_find (fun u => User.id u = user_id) users with
      | None => (HTTPException 401 "User not found", users)
      | Some (_, user) => (Return user, users)
      end
  end.

Definition register (user_data : UserCreate.t)
    (user_id hashed_password created_at : string) (now : Z) (users : Users)
  : Response TokenResponse.t * Users :=
  match list_find (fun u => User.email u = UserCreate.email user_data) users
  with
  | Some _ => (HTTPException 400 "Email already registered", users)
  | None =>
      let user_doc :=
        {| User.id := user_id;
           User.name := UserCreate.name user_data;
           User.email := UserCreate.email user_data;
           User.password := hashed_password;
           User.created_at := created_at |} in
      (Return
         {| TokenResponse.access_token := create_access_token user_id now;
            TokenResponse.token_type := "bearer";
            TokenResponse.user :=
              {| UserResponse.id := user_id;
                 UserResponse.name := UserCreate.name user_data;
                 UserResponse.email := UserCreate.email user_data;
                 UserResponse.created_at := created_at |} |},
       users ++ [user_doc])
  end.

Definition login (user_data : UserLogin.t) (now : Z) (users : Users)
  : Response TokenResponse.t * Users :=
  match list_find (fun u => User.email u = UserLogin.email user_data) users
  with
  | None => (HTTPException 401 "Invalid credentials", users)
  | Some (_, user) =>
      if verify_password (UserLogin.password user_data) (User.password user)
      then
        (Return
           {| TokenResponse.access_token :=
                create_access_token (User.id user) now;
              TokenResponse.token_type := "bearer";
              TokenResponse.user := user_response user |},
         users)
      else (HTTPException 401 "Invalid credentials", users)
  end.

Definition get_me (current_user : User.t) : UserResponse.t :=
  user_response current_user.
End Auth.

(** Stand-ins for the libraries in the examples: the hash of a password
    is the password, and a token is its subject and never expires. *)
Definition plain_verify (plain hashed : string) : bool := String.eqb plain hashed.
Definition plain_encode (sub : string) (exp : Z) : string := sub.
Definition plain_decode (token : string) (now : Z) : option (option string) :=
  Some (Some token).

Definition ada : UserCreate.t :=
  {| UserCreate.name := "Ada";
     UserCreate.email := "ada@example.org";
     UserCreate.password := "s3cret" |}.

Definition ada_login : UserLogin.t :=
  {| UserLogin.email := "ada@example.org";
     UserLogin.password := "s3cret" |}.

Definition grace : UserCreate.t :=
  {| UserCreate.name := "Grace";
     UserCreate.email := "grace@example.org";
     UserCreate.password := "c0bol" |}.

(** A second account under the email of [ada]. *)
Definition impostor : UserCreate.t :=
  {| UserCreate.name := "Eve";
     UserCreate.email := "ada@example.org";
     UserCreate.password := "guess" |}.

(** The users after [ada] and [grace] have registered. *)
Definition two_users : Users :=
  [ {| User.id := "u1";
       User.name := "Ada";
       User.email := "ada@example.org";
       User.password := "s3cret";
       User.created_at := "2024-01-01T00:00:00+00:00" |};
    {| User.id := "u2";
       User.name := "Grace";
       User.email := "grace@example.org";
       User.password := "c0bol";
       User.created_at := "2024-01-02T00:00:00+00:00" |} ].

(* ================================================================= *)
(** * Properties *)

(** ** Looking up documents *)

Lemma sample_db_ids : NoDup (Project.id <$> sample_db).
Proof. refine (bool_decide_unpack _ _). vm_compute. exact I. Defined.

Lemma lookup_same_id (db : Db) (i j : nat) (p p' : Project.t) :
  NoDup (Project.id <$> db) ->
  db !! i = Some p -> db !! j = Some p' -> Project.id p = Project.id p' ->
  i = j.
Proof.
  intros Hnd Hi Hj Hid.
  eapply NoDup_lookup; [exact Hnd | |].
  - rewrite list_lookup_fmap, Hi. reflexivity.
  - rewrite list_lookup_fmap, Hj. simpl. now rewrite Hid.
Qed.

(** With distinct ids, the filter on the id alone and the filter on the
    id and the owner select the same document. *)
Lemma find_by_id_of_owner (db : Db) (project_id owner : string) j p :
  NoDup (Project.id <$> db) ->
  list_find (by_id_owner project_id owner) db = Some (j, p) ->
  list_find (by_id project_id) db = Some (j, p).
Proof.
  intros Hnd Hfind.
  apply list_find_Some in Hfind as (Hj & [Hid Hown] & _).
  apply list_find_Some. split; [exact Hj |]. split; [exact Hid |].
  intros k y Hk Hlt Hy. unfold by_id in Hy.
  assert (k = j) by (eapply lookup_same_id; eauto; congruence). lia.
Qed.

(** A project of another owner is not selected. *)
Lemma find_not_owned (db : Db) (p : Project.t) (owner : string) :
  NoDup (Project.id <$> db) -> p ∈ db -> Project.owner_id p <> owner ->
  list_find (by_id_owner (Project.id p) owner) db = None.
Proof.
  intros Hnd Hin Hown.
  apply list_find_None, Forall_forall. intros x Hx [Hid Hx_own].
  apply list_elem_of_lookup in Hin as [i Hi].
  apply list_elem_of_lookup in Hx as [k Hk].
  assert (k = i) by (eapply lookup_same_id; eauto).
  subst k. congruence.
Qed.

Lemma find_absent (db : Db) (project_id owner : string) :
  Forall (fun p => Project.id p <> project_id) db ->
  list_find (by_id_owner project_id owner) db = None.
Proof.
  intros Habs. apply list_find_None.
  eapply Forall_impl; [exact Habs |].
  intros x Hx [Hid _]. contradiction.
Qed.

(** After an update at its position that keeps the id and the owner, the
    filter selects the updated document. *)
Lemma find_after_update (db : Db) (project_id owner : string) j p p' :
  list_find (by_id_owner project_id owner) db = Some (j, p) ->
  Project.id p' = Project.id p -> Project.owner_id p' = Project.owner_id p ->
  list_find (by_id_owner project_id owner) (<[j := p']> db) = Some (j, p').
Proof.
  intros Hfind Hid Hown.
  apply list_find_Some in Hfind as (Hj & [Hpid Hpown] & Hfirst).
  apply list_find_Some. split; [| split].
  - apply list_lookup_insert_eq. eapply lookup_lt_Some; eauto.
  - split; congruence.
  - intros k y Hk Hlt. rewrite list_lookup_insert_ne in Hk by lia. eauto.
Qed.

(** ** Project ids stay distinct *)

Section KeepsIds.
Context (q : Project.t -> Prop) `{!forall p, Decision (q p)}.
Variable update : Project.t -> Project.t.
Hypothesis update_id : forall p, Project.id (update p) = Project.id p.

Lemma ids_insert (db : Db) (j : nat) (p : Project.t) :
  db !! j = Some p ->
  Project.id <$> <[j := update p]> db = Project.id <$> db.
Proof.
  intros Hj. rewrite list_fmap_insert, update_id.
  apply list_insert_id. now rewrite list_lookup_fmap, Hj.
Qed.

Lemma find_one_and_update_ids (return_document : bool) (db : Db) :
  Project.id <$> snd (find_one_and_update q update return_document db)
  = Project.id <$> db.
Proof.
  unfold find_one_and_update.
  destruct (list_find q db) as [[j p] |] eqn:Hfind; [| reflexivity].
  apply list_find_Some in Hfind as [Hj _]. simpl. now apply ids_insert.
Qed.

Lemma update_one_ids (db : Db) :
  Project.id <$> snd (update_one q update db) = Project.id <$> db.
Proof.
  unfold update_one.
  destruct (list_find q db) as [[j p] |] eqn:Hfind; [| reflexivity].
  apply list_find_Some in Hfind as [Hj _]. simpl. now apply ids_insert.
Qed.
End KeepsIds.

Lemma bind_ids {A B} (m : Handler A) (k : A -> Handler B) (db : Db) :
  Project.id <$> snd (m db) = Project.id <$> db ->
  (forall a db', Project.id <$> snd (k a db') = Project.id <$> db') ->
  Project.id <$> snd (bind m k db) = Project.id <$> db.
Proof.
  intros Hm Hk. unfold bind.
  destruct (m db) as [[a | c d] db']; simpl in *; [| exact Hm].
  now rewrite Hk.
Qed.

Ltac keeps_ids :=
  repeat first
    [ reflexivity
    | apply bind_ids; intros
    | apply find_one_and_update_ids; intros []; reflexivity
    | apply update_one_ids; intros []; reflexivity
    | match goal with
      | |- context [match ?x with _ => _ end] => destruct x
      end ].

(** The routes that work on an existing project leave the ids of the
    collection as they are; a new project keeps the ids distinct when its
    id is new, and a removal keeps them distinct. *)
Lemma routes_keep_ids (db : Db) (project_id owner : string) :
  (forall data now,
     Project.id <$> snd (update_project project_id data owner now db)
     = Project.id <$> db)
  /\ (forall data new_id created now,
     Project.id <$> snd (create_task project_id data owner new_id created now db)
     = Project.id <$> db)
  /\ (forall task_id data now now',
     Project.id <$> snd (update_task project_id task_id data owner now now' db)
     = Project.id <$> db)
  /\ (forall task_id now,
     Project.id <$> snd (delete_task project_id task_id owner now db)
     = Project.id <$> db)
  /\ (forall task_id data new_id created now,
     Project.id
       <$> snd (add_time_entry project_id task_id data owner new_id created
                  now db)
     = Project.id <$> db)
  /\ (forall task_id time_id now,
     Project.id
       <$> snd (delete_time_entry project_id task_id time_id owner now db)
     = Project.id <$> db)
  /\ (forall data new_id now,
     Project.id <$> snd (create_milestone project_id data owner new_id now db)
     = Project.id <$> db)
  /\ (forall milestone_id completed now now',
     Project.id
       <$> snd (update_milestone project_id milestone_id completed owner now
                  now' db)
     = Project.id <$> db)
  /\ (forall milestone_id now,
     Project.id <$> snd (delete_milestone project_id milestone_id owner now db)
     = Project.id <$> db).
Proof.
  repeat split; intros;
    unfold update_project, create_task, update_task, delete_task,
      add_time_entry, delete_time_entry, create_milestone, update_milestone,
      delete_milestone, find_one, raise, ret;
    keeps_ids.
Qed.

Lemma create_project_keeps_ids_distinct (db : Db) (data : ProjectCreate.t)
    (owner new_id now : string) :
  NoDup (Project.id <$> db) -> new_id ∉ Project.id <$> db ->
  NoDup (Project.id <$> snd (create_project data owner new_id now db)).
Proof.
  intros Hnd Hnew. simpl. rewrite fmap_app. simpl.
  apply NoDup_app. split; [exact Hnd |]. split.
  - intros x Hx Hx'. apply list_elem_of_singleton in Hx'. now subst x.
  - apply NoDup_singleton.
Qed.

Lemma delete_project_keeps_ids_distinct (db : Db) (project_id owner : string) :
  NoDup (Project.id <$> db) ->
  NoDup (Project.id <$> snd (delete_project project_id owner db)).
Proof.
  intros Hnd. unfold delete_project, bind, delete_one.
  destruct (list_find _ db) as [[j p] |]; simpl; [| exact Hnd].
  rewrite list_fmap_delete.
  eapply sublist_NoDup; [exact Hnd | apply sublist_delete].
Qed.

(** ** Every route answers 404 when the filter selects nothing *)

Section NotFound.
Variables (db : Db) (project_id owner : string).
Hypothesis Hnone : list_find (by_id_owner project_id owner) db = None.

Lemma get_project_not_found : get_project project_id owner db = not_found db.
Proof. unfold get_project, bind, find_one. now rewrite Hnone. Qed.

Lemma update_project_not_found data now :
  update_project project_id data owner now db = not_found db.
Proof. unfold update_project, bind, find_one_and_update. now rewrite Hnone. Qed.

Lemma delete_project_not_found :
  delete_project project_id owner db = not_found db.
Proof. unfold delete_project, bind, delete_one. now rewrite Hnone. Qed.

Lemma create_task_not_found data new_id created now :
  create_task project_id data owner new_id created now db = not_found db.
Proof. unfold create_task, bind, find_one_and_update. now rewrite Hnone. Qed.

Lemma update_task_not_found task_id data now now' :
  update_task project_id task_id data owner now now' db = not_found db.
Proof. unfold update_task, bind, find_one. now rewrite Hnone. Qed.

Lemma delete_task_not_found task_id now :
  delete_task project_id task_id owner now db = not_found db.
Proof. unfold delete_task, bind, find_one_and_update. now rewrite Hnone. Qed.

Lemma add_time_entry_not_found task_id data new_id created now :
  add_time_entry project_id task_id data owner new_id created now db
  = not_found db.
Proof. unfold add_time_entry, bind, find_one. now rewrite Hnone. Qed.

Lemma delete_time_entry_not_found task_id time_id now :
  delete_time_entry project_id task_id time_id owner now db = not_found db.
Proof. unfold delete_time_entry, bind, find_one. now rewrite Hnone. Qed.

Lemma create_milestone_not_found data new_id now :
  create_milestone project_id data owner new_id now db = not_found db.
Proof. unfold create_milestone, bind, find_one_and_update. now rewrite Hnone. Qed.

Lemma update_milestone_not_found milestone_id completed now now' :
  update_milestone project_id milestone_id completed owner now now' db
  = not_found db.
Proof. unfold update_milestone, bind, find_one. now rewrite Hnone. Qed.

Lemma delete_milestone_not_found milestone_id now :
  delete_milestone project_id milestone_id owner now db = not_found db.
Proof. unfold delete_milestone, bind, find_one_and_update. now rewrite Hnone. Qed.
End NotFound.

(** ** Ownership isolation *)

Lemma filter_all {A} (P : A -> Prop) `{!forall x, Decision (P x)} (l : list A) :
  Forall P l -> filter P l = l.
Proof.
  induction 1 as [| x l Hx _ IH]; [reflexivity |].
  rewrite filter_cons_True by exact Hx. now rewrite IH.
Qed.

(** C3. In a collection whose project ids are distinct, let [P] be a
    project that [B] does not own.  [B]'s [get_project] on the id of [P]
    answers 404 "Project not found" and changes nothing, which is the
    answer it gives on a collection that holds no project of that id; every
    other route that takes a project id answers the same way, and the
    listing of [B]'s projects does not contain [P]. *)
Theorem ownership_isolation (db : Db) (P : Project.t) (B : string) :
  NoDup (Project.id <$> db) -> P ∈ db -> Project.owner_id P <> B ->
  let pid := Project.id P in
  get_project pid B db = (HTTPException 404 "Project not found", db)
  /\ (forall db0, Forall (fun p => Project.id p <> pid) db0 ->
        fst (get_project pid B db0) = fst (get_project pid B db))
  /\ (forall data now, update_project pid data B now db = not_found db)
  /\ delete_project pid B db = not_found db
  /\ (forall data new_id created now,
        create_task pid data B new_id created now db = not_found db)
  /\ (forall task_id data now now',
        update_task pid task_id data B now now' db = not_found db)
  /\ (forall task_id now, delete_task pid task_id B now db = not_found db)
  /\ (forall task_id data new_id created now,
        add_time_entry pid task_id data B new_id created now db = not_found db)
  /\ (forall task_id time_id now,
        delete_time_entry pid task_id time_id B now db = not_found db)
  /\ (forall data new_id now,
        create_milestone pid data B new_id now db = not_found db)
  /\ (forall milestone_id completed now now',
        update_milestone pid milestone_id completed B now now' db
        = not_found db)
  /\ (forall milestone_id now,
        delete_milestone pid milestone_id B now db = not_found db)
  /\ (forall projects, fst (get_projects B db) = Return projects ->
        P ∉ projects).
Proof.
  intros Hnd Hin Hown pid.
  pose proof (find_not_owned db P B Hnd Hin Hown) as Hnone. fold pid in Hnone.
  repeat split; intros.
  - now apply get_project_not_found.
  - rewrite (get_project_not_found db pid B Hnone).
    rewrite (get_project_not_found db0 pid B (find_absent db0 pid B H)).
    reflexivity.
  - now apply update_project_not_found.
  - now apply delete_project_not_found.
  - now apply create_task_not_found.
  - now apply update_task_not_found.
  - now apply delete_task_not_found.
  - now apply add_time_entry_not_found.
  - now apply delete_time_entry_not_found.
  - now apply create_milestone_not_found.
  - now apply update_milestone_not_found.
  - now apply delete_milestone_not_found.
  - unfold get_projects, find_to_list in H. simpl in H. injection H as <-.
    intros Hmem. apply subseteq_take in Hmem.
    apply list_elem_of_filter in Hmem as [Hmem _]. contradiction.
Qed.

Lemma ownership_isolation_witness :
  get_project "p1" "bob" sample_db
  = (HTTPException 404 "Project not found", sample_db)
  /\ delete_project "p1" "bob" sample_db = not_found sample_db.
Proof.
  destruct (ownership_isolation sample_db launch "bob")
    as (Hget & _ & _ & Hdel & _).
  - exact sample_db_ids.
  - apply list_elem_of_lookup_2 with 1%nat. reflexivity.
  - simpl. discriminate.
  - split; [exact Hget | exact Hdel].
Defined.

(** ** Partial update of a project *)

(** C6. [update_project] on a project the filter selects answers the
    updated document and stores it in place of the old one: each of
    [name], [description], [color], [deadline] and [status] takes the value
    of the patch when the patch holds one and keeps its value when the
    patch holds [None], [updated_at] is the current time, and every other
    field and every other document is as before.  When the filter selects
    nothing (no such project, or not the caller's) the answer is 404 and
    the collection is unchanged. *)
Theorem update_project_patch (db : Db) (project_id owner now : string)
    (data : ProjectUpdate.t) :
  (forall j p, list_find (by_id_owner project_id owner) db = Some (j, p) ->
     exists p',
       update_project project_id data owner now db
       = (Return p', <[j := p']> db)
       /\ Project.name p' = match ProjectUpdate.name data with
                            | Some v => v | None => Project.name p end
       /\ Project.description p' = match ProjectUpdate.description data with
                                   | Some v => v
                                   | None => Project.description p end
       /\ Project.color p' = match ProjectUpdate.color data with
                             | Some v => v | None => Project.color p end
       /\ Project.deadline p' = match ProjectUpdate.deadline data with
                                | Some v => Some v
                                | None => Project.deadline p end
       /\ Project.status p' = match ProjectUpdate.status data with
                              | Some v => v | None => Project.status p end
       /\ Project.updated_at p' = now
       /\ Project.id p' = Project.id p
       /\ Project.owner_id p' = Project.owner_id p
       /\ Project.tasks p' = Project.tasks p
       /\ Project.milestones p' = Project.milestones p
       /\ Project.created_at p' = Project.created_at p)
  /\ (Forall (fun p => ~ (Project.id p = project_id
                          /\ Project.owner_id p = owner)) db ->
      update_project project_id data owner now db
      = (HTTPException 404 "Project not found", db)).
Proof.
  split.
  - intros j p Hfind. exists (set_project_fields data now p).
    split.
    + unfold update_project, bind, find_one_and_update. now rewrite Hfind.
    + destruct data as [n d c dl s]; simpl.
      destruct n, d, c, dl, s; repeat split; reflexivity.
  - intros Hnone. apply update_project_not_found.
    now apply list_find_None.
Qed.

Lemma update_project_patch_witness :
  (exists p',
     update_project "p1" (rename "Relaunch") "alice"
       "2024-02-01T00:00:00+00:00" sample_db
     = (Return p', <[1%nat := p']> sample_db)
     /\ Project.name p' = "Relaunch"
     /\ Project.updated_at p' = "2024-02-01T00:00:00+00:00")
  /\ update_project "p1" (rename "Relaunch") "bob"
       "2024-02-01T00:00:00+00:00" sample_db
     = (HTTPException 404 "Project not found", sample_db).
Proof.
  split.
  - destruct (update_project_patch sample_db "p1" "alice"
                "2024-02-01T00:00:00+00:00" (rename "Relaunch"))
      as [Hfound _].
    destruct (Hfound 1%nat launch)
      as (p' & Hrun & Hname & _ & _ & _ & _ & Hnow & _); [reflexivity |].
    exists p'. split; [exact Hrun |]. split; [exact Hname | exact Hnow].
  - destruct (update_project_patch sample_db "p1" "bob"
                "2024-02-01T00:00:00+00:00" (rename "Relaunch"))
      as [_ Hnone].
    apply Hnone. repeat constructor; simpl; intros [? ?]; discriminate.
Defined.

(** ** Removal of a task or milestone *)

(** C5. On a project the filter selects, [delete_task] with an id that
    no task of the project has answers "Task deleted" and stores the
    project with the same tasks (and a new [updated_at]); [delete_milestone]
    does the same for milestones.  When the filter selects nothing (no such
    project, or not the caller's) both answer 404 "Project not found" and
    change nothing. *)
Theorem delete_absent_element (db : Db) (project_id owner now : string) :
  (forall j p task_id,
     list_find (by_id_owner project_id owner) db = Some (j, p) ->
     Forall (fun t => Task.id t <> task_id) (Project.tasks p) ->
     delete_task project_id task_id owner now db
     = (Return "Task deleted", <[j := set_updated_at now p]> db))
  /\ (forall j p milestone_id,
     list_find (by_id_owner project_id owner) db = Some (j, p) ->
     Forall (fun m => Milestone.id m <> milestone_id) (Project.milestones p) ->
     delete_milestone project_id milestone_id owner now db
     = (Return "Milestone deleted", <[j := set_updated_at now p]> db))
  /\ (Forall (fun p => ~ (Project.id p = project_id
                          /\ Project.owner_id p = owner)) db ->
      forall element_id,
        delete_task project_id element_id owner now db
        = (HTTPException 404 "Project not found", db)
        /\ delete_milestone project_id element_id owner now db
           = (HTTPException 404 "Project not found", db)).
Proof.
  split; [| split].
  - intros j p task_id Hfind Habs.
    unfold delete_task, bind, find_one_and_update. rewrite Hfind. simpl.
    unfold pull_task. now rewrite filter_all.
  - intros j p milestone_id Hfind Habs.
    unfold delete_milestone, bind, find_one_and_update. rewrite Hfind. simpl.
    unfold pull_milestone. now rewrite filter_all.
  - intros Habs element_id.
    assert (Hnone : list_find (by_id_owner project_id owner) db = None)
      by now apply list_find_None.
    split.
    + now apply delete_task_not_found.
    + now apply delete_milestone_not_found.
Qed.

Lemma delete_absent_element_witness :
  delete_milestone "p1" "no-such-milestone" "alice"
    "2024-02-01T00:00:00+00:00" sample_db
  = (Return "Milestone deleted",
     <[1%nat := set_updated_at "2024-02-01T00:00:00+00:00" launch]> sample_db)
  /\ delete_milestone "p1" "m1" "bob" "2024-02-01T00:00:00+00:00" sample_db
     = (HTTPException 404 "Project not found", sample_db)
  /\ delete_task "no-such-project" "t1" "alice"
       "2024-02-01T00:00:00+00:00" sample_db
     = (HTTPException 404 "Project not found", sample_db).
Proof.
  split; [| split].
  - destruct (delete_absent_element sample_db "p1" "alice"
                "2024-02-01T00:00:00+00:00") as (_ & Hm & _).
    apply Hm; [reflexivity |].
    repeat constructor; simpl; discriminate.
  - destruct (delete_absent_element sample_db "p1" "bob"
                "2024-02-01T00:00:00+00:00") as (_ & _ & Hnone).
    apply (Hnone ltac:(repeat constructor; simpl; intros [? ?]; discriminate)
                 "m1").
  - destruct (delete_absent_element sample_db "no-such-project" "alice"
                "2024-02-01T00:00:00+00:00") as (_ & _ & Hnone).
    apply (Hnone ltac:(repeat constructor; simpl; intros [? ?]; discriminate)
                 "t1").
Defined.

(** ** Partial update of a task *)

Ltac run_handler :=
  unfold update_project, create_task, update_task, delete_task,
    add_time_entry, delete_time_entry, create_milestone, update_milestone,
    delete_milestone, bind, find_one, find_one_and_update, update_one, ret.

(** What a route reads back after an update in place: the project that
    was written is the one that [get_project] answers to its owner. *)
Lemma get_project_after_update (db : Db) (project_id owner : string)
    (j : nat) (p p' : Project.t) :
  list_find (by_id_owner project_id owner) db = Some (j, p) ->
  Project.id p' = Project.id p -> Project.owner_id p' = Project.owner_id p ->
  (<[j := p']> db) !! j = Some p'
  /\ (forall k, k <> j -> (<[j := p']> db) !! k = db !! k)
  /\ get_project project_id owner (<[j := p']> db)
     = (Return p', <[j := p']> db).
Proof.
  intros Hfind Hid Hown.
  pose proof (find_after_update _ _ _ _ _ _ Hfind Hid Hown) as Hfind'.
  apply list_find_Some in Hfind as (Hj & _).
  split; [| split].
  - apply list_lookup_insert_eq. eapply lookup_lt_Some; eauto.
  - intros k Hk. apply list_lookup_insert_ne. congruence.
  - unfold get_project, bind, find_one, ret. now rewrite Hfind'.
Qed.

(** What [update_task] does to a located task of a selected project (ids
    distinct).  It answers the merged task and stores it: the project at
    the same place of the collection holds the merged task at the task's
    position and the other tasks as they were, has its [updated_at]
    refreshed, and is what [get_project] answers afterwards; the other
    projects are as they were.  In the merged task [completed_at] is [now]
    when the patch sets the status ["done"] and the status was not ["done"]
    before; it is [None] when the patch sets a status that is neither
    ["done"] nor the empty string; it is unchanged when the patch holds no
    status, holds the empty string, or holds ["done"] for a task that was
    ["done"] already.  Every other field takes the value of the patch when
    the patch holds one and is unchanged otherwise. *)
Theorem update_task_completed_at (db : Db)
    (project_id task_id owner now now' : string) (data : TaskUpdate.t)
    (j i : nat) (p : Project.t) (task : Task.t) :
  NoDup (Project.id <$> db) ->
  list_find (by_id_owner project_id owner) db = Some (j, p) ->
  task_index task_id (Project.tasks p) = Some (i, task) ->
  exists task' p',
    update_task project_id task_id data owner now now' db
    = (Return task', <[j := p']> db)
    /\ p' = set_tasks (<[i := task']> (Project.tasks p)) now' p
    /\ (<[j := p']> db) !! j = Some p'
    /\ (forall k, k <> j -> (<[j := p']> db) !! k = db !! k)
    /\ get_project project_id owner (<[j := p']> db)
       = (Return p', <[j := p']> db)
    /\ Project.tasks p' !! i = Some task'
    /\ (forall k, k <> i -> Project.tasks p' !! k = Project.tasks p !! k)
    /\ length (Project.tasks p') = length (Project.tasks p)
    /\ Project.milestones p' = Project.milestones p
    /\ Project.updated_at p' = now'
    /\ (TaskUpdate.status data = Some "done" -> Task.status task <> "done" ->
        Task.completed_at task' = Some now)
    /\ (forall s, TaskUpdate.status data = Some s -> s <> "done" -> s <> "" ->
        Task.completed_at task' = None)
    /\ (TaskUpdate.status data = None ->
        Task.completed_at task' = Task.completed_at task)
    /\ (TaskUpdate.status data = Some "" ->
        Task.completed_at task' = Task.completed_at task)
    /\ (TaskUpdate.status data = Some "done" -> Task.status task = "done" ->
        Task.completed_at task' = Task.completed_at task)
    /\ Task.title task' = match TaskUpdate.title data with
                          | Some v => v | None => Task.title task end
    /\ Task.description task' = match TaskUpdate.description data with
                                | Some v => v
                                | None => Task.description task end
    /\ Task.priority task' = match TaskUpdate.priority data with
                             | Some v => v | None => Task.priority task end
    /\ Task.status task' = match TaskUpdate.status data with
                           | Some v => v | None => Task.status task end
    /\ Task.due_date task' = match TaskUpdate.due_date data with
                             | Some v => Some v
                             | None => Task.due_date task end
    /\ Task.estimated_hours task' =
         match TaskUpdate.estimated_hours data with
         | Some v => Some v
         | None => Task.estimated_hours task end
    /\ Task.id task' = Task.id task
    /\ Task.time_entries task' = Task.time_entries task
    /\ Task.created_at task' = Task.created_at task.
Proof.
  intros Hnd Hfind Htask.
  set (task' := apply_task_update data now task).
  set (p' := set_tasks (<[i := task']> (Project.tasks p)) now' p).
  exists task', p'.
  assert (Hi : Project.tasks p !! i = Some task).
  { unfold task_index in Htask.
    now apply list_find_Some in Htask as (Hi & _). }
  destruct (get_project_after_update db project_id owner j p p' Hfind
              eq_refl eq_refl) as (Hstored & Hothers & Hget).
  split.
  { run_handler. rewrite Hfind. simpl. rewrite Htask. simpl.
    now rewrite (find_by_id_of_owner _ _ _ _ _ Hnd Hfind). }
  split; [reflexivity |]. split; [exact Hstored |].
  split; [exact Hothers |]. split; [exact Hget |].
  split.
  { simpl. apply list_lookup_insert_eq. eapply lookup_lt_Some; eauto. }
  split.
  { intros k Hk. simpl. apply list_lookup_insert_ne. congruence. }
  split; [simpl; apply length_insert |].
  split; [reflexivity |]. split; [reflexivity |].
  subst task'. unfold apply_task_update, completed_at_update; simpl.
  repeat split; try (destruct data as [t d pr s du e]; simpl;
                     destruct t, d, pr, s, du, e; reflexivity).
  + intros -> Hold. simpl.
    rewrite (bool_decide_eq_true_2 _ Hold). reflexivity.
  + intros s -> Hdone Hempty. simpl.
    rewrite bool_decide_eq_false_2 by congruence. simpl.
    assert (Hne : String.eqb s "" = false) by now apply String.eqb_neq.
    rewrite Hne. simpl.
    rewrite bool_decide_eq_true_2 by congruence. reflexivity.
  + intros ->. reflexivity.
  + intros ->. reflexivity.
  + intros -> Hold. simpl.
    rewrite (bool_decide_eq_false_2 (Task.status task <> "done"))
      by (intros H; now apply H).
    reflexivity.
Qed.

Lemma update_task_completed_at_witness :
  exists task' p' db',
    update_task "p1" "t1" (status_patch "in_progress") "alice"
      "2024-02-01T00:00:00+00:00" "2024-02-01T00:00:01+00:00" sample_db
    = (Return task', db')
    /\ db' !! 1%nat = Some p'
    /\ Project.tasks p' !! 0%nat = Some task'
    /\ Task.status task' = "in_progress"
    /\ Task.completed_at task' = None.
Proof.
  destruct (update_task_completed_at sample_db "p1" "t1" "alice"
              "2024-02-01T00:00:00+00:00" "2024-02-01T00:00:01+00:00"
              (status_patch "in_progress") 1 0 launch design)
    as (task' & p' & Hrun & _ & Hstored & _ & _ & Htask & _ & _ & _ & _ & _
        & Hclear & _ & _ & _ & _ & _ & _ & Hstatus & _).
  - exact sample_db_ids.
  - reflexivity.
  - reflexivity.
  - exists task', p'. eexists. split; [exact Hrun |].
    split; [exact Hstored |]. split; [exact Htask |].
    split; [exact Hstatus |].
    apply (Hclear "in_progress"); [reflexivity | discriminate | discriminate].
Defined.

(** C1.  The code does not keep the rule that a supplied status other
    than ["done"] clears [completed_at].  On a located task of a selected
    project (ids distinct) that has a [completed_at], a patch whose status
    is the empty string is merged like any supplied value, so the task gets
    the status [""], which is not ["done"]; but the guard that clears
    [completed_at] reads the empty string as no status, so the task keeps
    its [completed_at].  This is the task that [update_task] answers, the
    task that it stores at the task's position, and the task that
    [get_project] shows afterwards. *)
Theorem update_task_empty_status_keeps_completed_at (db : Db)
    (project_id task_id owner now now' : string) (data : TaskUpdate.t)
    (j i : nat) (p : Project.t) (task : Task.t) (completed_at : string) :
  NoDup (Project.id <$> db) ->
  list_find (by_id_owner project_id owner) db = Some (j, p) ->
  task_index task_id (Project.tasks p) = Some (i, task) ->
  TaskUpdate.status data = Some "" ->
  Task.completed_at task = Some completed_at ->
  exists task' p' db',
    update_task project_id task_id data owner now now' db
    = (Return task', db')
    /\ db' !! j = Some p'
    /\ Project.tasks p' !! i = Some task'
    /\ get_project project_id owner db' = (Return p', db')
    /\ Task.status task' = ""
    /\ Task.status task' <> "done"
    /\ Task.completed_at task' = Some completed_at
    /\ Task.completed_at task' <> None.
Proof.
  intros Hnd Hfind Htask Hempty Hdone.
  set (task' := apply_task_update data now task).
  set (p' := set_tasks (<[i := task']> (Project.tasks p)) now' p).
  exists task', p', (<[j := p']> db).
  assert (Hi : Project.tasks p !! i = Some task).
  { unfold task_index in Htask.
    now apply list_find_Some in Htask as (Hi & _). }
  destruct (get_project_after_update db project_id owner j p p' Hfind
              eq_refl eq_refl) as (Hstored & _ & Hget).
  assert (Hstatus : Task.status task' = "").
  { subst task'. simpl. now rewrite Hempty. }
  assert (Hkept : Task.completed_at task' = Some completed_at).
  { subst task'. simpl. unfold completed_at_update.
    rewrite Hempty. simpl. exact Hdone. }
  split.
  { run_handler. rewrite Hfind. simpl. rewrite Htask. simpl.
    now rewrite (find_by_id_of_owner _ _ _ _ _ Hnd Hfind). }
  split; [exact Hstored |].
  split.
  { simpl. apply list_lookup_insert_eq. eapply lookup_lt_Some; eauto. }
  split; [exact Hget |]. split; [exact Hstatus |].
  split; [rewrite Hstatus; discriminate |].
  split; [exact Hkept |]. rewrite Hkept. discriminate.
Qed.

Lemma update_task_empty_status_keeps_completed_at_witness :
  exists task' p' db',
    update_task "p1" "t1" (status_patch "") "alice"
      "2024-02-01T00:00:00+00:00" "2024-02-01T00:00:01+00:00" sample_db
    = (Return task', db')
    /\ db' !! 1%nat = Some p'
    /\ Project.tasks p' !! 0%nat = Some task'
    /\ get_project "p1" "alice" db' = (Return p', db')
    /\ Task.status task' = ""
    /\ Task.completed_at task' = Some "2024-01-03T09:00:00+00:00".
Proof.
  destruct (update_task_empty_status_keeps_completed_at sample_db "p1" "t1"
              "alice" "2024-02-01T00:00:00+00:00" "2024-02-01T00:00:01+00:00"
              (status_patch "") 1 0 launch design
              "2024-01-03T09:00:00+00:00")
    as (task' & p' & db' & Hrun & Hstored & Htask & Hget & Hstatus & _
        & Hkept & _).
  - exact sample_db_ids.
  - reflexivity.
  - reflexivity.
  - reflexivity.
  - reflexivity.
  - exists task', p', db'. auto 10.
Defined.

(** ** Completion toggle of a milestone *)

(** C4. On a located milestone of a selected project (ids distinct),
    [update_milestone] answers the milestone with [completed] set to the
    boolean of the request and [completed_at] set to [now] when that
    boolean is true and to [None] when it is false, whatever the milestone
    held before; the other fields of the milestone are unchanged.  It
    stores what it answers: afterwards the project, at the same place of
    the collection and as [get_project] answers it, holds that milestone
    at the milestone's position, the other milestones and the tasks as
    they were, and a refreshed [updated_at]; the other projects are as they
    were. *)
Theorem update_milestone_toggle (db : Db)
    (project_id milestone_id owner now now' : string) (completed : bool)
    (j i : nat) (p : Project.t) (m : Milestone.t) :
  NoDup (Project.id <$> db) ->
  list_find (by_id_owner project_id owner) db = Some (j, p) ->
  milestone_index milestone_id (Project.milestones p) = Some (i, m) ->
  exists m' p',
    update_milestone project_id milestone_id completed owner now now' db
    = (Return m', <[j := p']> db)
    /\ p' = set_milestones (<[i := m']> (Project.milestones p)) now' p
    /\ (<[j := p']> db) !! j = Some p'
    /\ (forall k, k <> j -> (<[j := p']> db) !! k = db !! k)
    /\ get_project project_id owner (<[j := p']> db)
       = (Return p', <[j := p']> db)
    /\ Project.milestones p' !! i = Some m'
    /\ (forall k, k <> i ->
          Project.milestones p' !! k = Project.milestones p !! k)
    /\ length (Project.milestones p') = length (Project.milestones p)
    /\ Project.tasks p' = Project.tasks p
    /\ Project.updated_at p' = now'
    /\ Milestone.completed m' = completed
    /\ Milestone.completed_at m' = (if completed then Some now else None)
    /\ Milestone.id m' = Milestone.id m
    /\ Milestone.title m' = Milestone.title m
    /\ Milestone.description m' = Milestone.description m
    /\ Milestone.due_date m' = Milestone.due_date m.
Proof.
  intros Hnd Hfind Hm.
  set (m' := set_completed completed now m).
  set (p' := set_milestones (<[i := m']> (Project.milestones p)) now' p).
  exists m', p'.
  assert (Hi : Project.milestones p !! i = Some m).
  { unfold milestone_index in Hm. now apply list_find_Some in Hm as (Hi & _). }
  destruct (get_project_after_update db project_id owner j p p' Hfind
              eq_refl eq_refl) as (Hstored & Hothers & Hget).
  split.
  { run_handler. rewrite Hfind. simpl. rewrite Hm. simpl.
    now rewrite (find_by_id_of_owner _ _ _ _ _ Hnd Hfind). }
  split; [reflexivity |]. split; [exact Hstored |].
  split; [exact Hothers |]. split; [exact Hget |].
  split.
  { simpl. apply list_lookup_insert_eq. eapply lookup_lt_Some; eauto. }
  split.
  { intros k Hk. simpl. apply list_lookup_insert_ne. congruence. }
  split; [simpl; apply length_insert |].
  repeat split.
Qed.

Lemma update_milestone_toggle_witness :
  exists m' p' db',
    update_milestone "p1" "m1" true "alice"
      "2024-02-01T00:00:00+00:00" "2024-02-01T00:00:01+00:00" sample_db
    = (Return m', db')
    /\ db' !! 1%nat = Some p'
    /\ get_project "p1" "alice" db' = (Return p', db')
    /\ Project.milestones p' !! 0%nat = Some m'
    /\ Milestone.completed m' = true
    /\ Milestone.completed_at m' = Some "2024-02-01T00:00:00+00:00".
Proof.
  destruct (update_milestone_toggle sample_db "p1" "m1" "alice"
              "2024-02-01T00:00:00+00:00" "2024-02-01T00:00:01+00:00"
              true 1 0 launch beta)
    as (m' & p' & Hrun & _ & Hstored & _ & Hget & Hm & _ & _ & _ & _ & Hc
        & Hat & _).
  - exact sample_db_ids.
  - reflexivity.
  - reflexivity.
  - exists m', p'. eexists. split; [exact Hrun |]. auto 10.
Defined.

(** ** [updated_at] *)

Lemma refreshes_intro {A} (db : Db) (project_id owner now : string) j p
    (r : A) (p' : Project.t) :
  list_find (by_id_owner project_id owner) db = Some (j, p) ->
  Project.id p' = Project.id p -> Project.owner_id p' = Project.owner_id p ->
  Project.updated_at p' = now ->
  refreshes project_id owner now j (Return r, <[j := p']> db).
Proof.
  intros Hfind Hid Hown Hnow. exists r, p'. simpl.
  split; [reflexivity |]. split; [| exact Hnow].
  eapply find_after_update; eauto.
Qed.

(** C9. Let the filter select a project of a collection with distinct
    ids.  Each mutating route, called at time [now], succeeds and leaves
    that project with [updated_at = now]: the update of the project's
    fields; the creation, the update (of a located task) and the removal of
    a task; the creation and the removal of a time entry (of a located
    task); the creation, the toggle (of a located milestone) and the
    removal of a milestone. *)
Theorem mutations_refresh_updated_at (db : Db)
    (project_id owner now : string) (j : nat) (p : Project.t) :
  NoDup (Project.id <$> db) ->
  list_find (by_id_owner project_id owner) db = Some (j, p) ->
  let refreshed {A} (out : Response A * Db) :=
    refreshes project_id owner now j out in
  (forall data, refreshed (update_project project_id data owner now db))
  /\ (forall data new_id created,
        refreshed (create_task project_id data owner new_id created now db))
  /\ (forall task_id data now0 i task,
        task_index task_id (Project.tasks p) = Some (i, task) ->
        refreshed (update_task project_id task_id data owner now0 now db))
  /\ (forall task_id, refreshed (delete_task project_id task_id owner now db))
  /\ (forall task_id data new_id created i task,
        task_index task_id (Project.tasks p) = Some (i, task) ->
        refreshed
          (add_time_entry project_id task_id data owner new_id created now db))
  /\ (forall task_id time_id i task,
        task_index task_id (Project.tasks p) = Some (i, task) ->
        refreshed (delete_time_entry project_id task_id time_id owner now db))
  /\ (forall data new_id,
        refreshed (create_milestone project_id data owner new_id now db))
  /\ (forall milestone_id completed now0 i m,
        milestone_index milestone_id (Project.milestones p) = Some (i, m) ->
        refreshed
          (update_milestone project_id milestone_id completed owner now0 now db))
  /\ (forall milestone_id,
        refreshed (delete_milestone project_id milestone_id owner now db)).
Proof.
  intros Hnd Hfind refreshed. subst refreshed.
  pose proof (find_by_id_of_owner _ _ _ _ _ Hnd Hfind) as Hid.
  repeat split; intros; run_handler; rewrite Hfind; simpl;
    try (match goal with H : _ = Some (_, _) |- _ => rewrite H end; simpl;
         rewrite Hid; simpl);
    eapply refreshes_intro; eauto.
Qed.

Lemma mutations_refresh_updated_at_witness :
  refreshes "p1" "alice" "2024-02-01T00:00:00+00:00" 1
    (delete_time_entry "p1" "t1" "e1" "alice" "2024-02-01T00:00:00+00:00"
       sample_db).
Proof.
  destruct (mutations_refresh_updated_at sample_db "p1" "alice"
              "2024-02-01T00:00:00+00:00" 1 launch)
    as (_ & _ & _ & _ & _ & Hdel & _).
  - exact sample_db_ids.
  - reflexivity.
  - apply (Hdel "t1" "e1" 0%nat design). reflexivity.
Defined.

(** ** Sums and counts of the overview *)

Lemma foldl_add (a : Z) (xs : list Z) : foldl Z.add a xs = a + Zsum xs.
Proof.
  revert a. induction xs as [| x xs IH]; intros a; simpl.
  - lia.
  - rewrite IH. unfold Zsum. simpl. lia.
Qed.

Lemma Zsum_cons (x : Z) (xs : list Z) : Zsum (x :: xs) = x + Zsum xs.
Proof. reflexivity. Qed.

Lemma py_sum_Zsum (xs : list Z) : py_sum xs = Zsum xs.
Proof. unfold py_sum. rewrite foldl_add. lia. Qed.

Lemma Zsum_app (xs ys : list Z) : Zsum (xs ++ ys) = Zsum xs + Zsum ys.
Proof. unfold Zsum. induction xs as [| x xs IH]; simpl; lia. Qed.

Lemma Zsum_ones {A} (xs : list A) : Zsum ((fun _ => 1) <$> xs) = len xs.
Proof.
  unfold len. induction xs as [| x xs IH]; [reflexivity |].
  change (Zsum ((fun _ => 1) <$> x :: xs))
    with (1 + Zsum ((fun _ : A => 1) <$> xs)).
  rewrite IH. simpl length. lia.
Qed.

Lemma count_if_len {A} (P : A -> Prop) `{!forall x, Decision (P x)}
    (xs : list A) :
  count_if P xs = len (filter P xs).
Proof. unfold count_if. rewrite py_sum_Zsum. apply Zsum_ones. Qed.

Lemma len_app {A} (xs ys : list A) : len (xs ++ ys) = len xs + len ys.
Proof. unfold len. rewrite length_app. lia. Qed.

(** Summing a per-project count is counting over the flattened tasks. *)
Lemma sum_over_projects (f : list Task.t -> Z) (projects : list Project.t) :
  f [] = 0 -> (forall xs ys, f (xs ++ ys) = f xs + f ys) ->
  py_sum ((fun p => f (Project.tasks p)) <$> projects)
  = f (all_tasks projects).
Proof.
  intros Hnil Happ. rewrite py_sum_Zsum. unfold all_tasks.
  induction projects as [| p ps IH].
  - simpl. now rewrite Hnil.
  - rewrite fmap_cons, Zsum_cons, IH.
    change ((p :: ps) ≫= Project.tasks)
      with (Project.tasks p ++ (ps ≫= Project.tasks)).
    now rewrite Happ.
Qed.

Lemma minutes_app (xs ys : list TimeEntry.t) :
  minutes (xs ++ ys) = minutes xs + minutes ys.
Proof. unfold minutes. now rewrite fmap_app, Zsum_app. Qed.

Lemma entries_of_app (xs ys : list Task.t) :
  entries_of (xs ++ ys) = entries_of xs ++ entries_of ys.
Proof. unfold entries_of. apply bind_app. Qed.

Lemma all_tasks_app (xs ys : list Project.t) :
  all_tasks (xs ++ ys) = all_tasks xs ++ all_tasks ys.
Proof. unfold all_tasks. apply bind_app. Qed.

Lemma minutes_cons (e : TimeEntry.t) (es : list TimeEntry.t) :
  minutes (e :: es) = TimeEntry.duration_minutes e + minutes es.
Proof. reflexivity. Qed.

Lemma minutes_nil : minutes [] = 0.
Proof. reflexivity. Qed.

Lemma foldl_entries (a : Z) (es : list TimeEntry.t) :
  foldl (fun total te => total + TimeEntry.duration_minutes te) a es
  = a + minutes es.
Proof.
  revert a. induction es as [| e es IH]; intros a.
  - rewrite minutes_nil. simpl. lia.
  - rewrite minutes_cons. simpl. rewrite IH. lia.
Qed.

Lemma foldl_tasks (a : Z) (ts : list Task.t) :
  foldl (fun total t =>
           foldl (fun total te => total + TimeEntry.duration_minutes te)
                 total (Task.time_entries t)) a ts
  = a + minutes (entries_of ts).
Proof.
  revert a. induction ts as [| t ts IH]; intros a.
  - change (entries_of []) with (@nil TimeEntry.t). rewrite minutes_nil.
    simpl. lia.
  - change (entries_of (t :: ts))
      with (Task.time_entries t ++ entries_of ts).
    rewrite minutes_app. simpl. rewrite IH, foldl_entries. lia.
Qed.

(** The nested loops add up the minutes of every entry of every task of
    every scanned project. *)
Lemma total_time_minutes_flat (projects : list Project.t) :
  total_time_minutes projects = minutes (entries_of (all_tasks projects)).
Proof.
  unfold total_time_minutes.
  enough (H : forall a,
    foldl (fun total p =>
      foldl (fun total t =>
        foldl (fun total te => total + TimeEntry.duration_minutes te)
              total (Task.time_entries t))
        total (Project.tasks p)) a projects
    = a + minutes (entries_of (all_tasks projects)))
    by (rewrite H; lia).
  induction projects as [| p ps IH]; intros a.
  - change (entries_of (all_tasks [])) with (@nil TimeEntry.t).
    rewrite minutes_nil. simpl. lia.
  - change (all_tasks (p :: ps)) with (Project.tasks p ++ all_tasks ps).
    rewrite entries_of_app, minutes_app. simpl. rewrite IH, foldl_tasks. lia.
Qed.

(** C7, as the code has it.  The overview answers figures of the
    projects the query returns, the first 1000 of the owner's projects in
    the order of the collection.  Over all tasks of these projects:
    [total_tasks] is their number, [completed_tasks] and
    [in_progress_tasks] the numbers of those with status ["done"] and
    ["in_progress"], [todo_tasks] is total - completed - in progress,
    [total_time_hours] is the sum of [duration_minutes] over all their
    time entries, divided by 60 and rounded to one decimal, and
    [task_completion_rate] is completed / total * 100 rounded to one
    decimal, or the integer 0 when there is no task. *)
Theorem overview_figures (db : Db) (owner : string) (now : Z) :
  let projects := take 1000 (filter (by_owner owner) db) in
  let tasks := all_tasks projects in
  exists r,
    get_analytics_overview owner now db = (Return r, db)
    /\ Overview.total_tasks r = len tasks
    /\ Overview.completed_tasks r = len (filter (has_status "done") tasks)
    /\ Overview.in_progress_tasks r
       = len (filter (has_status "in_progress") tasks)
    /\ Overview.todo_tasks r
       = Overview.total_tasks r - Overview.completed_tasks r
         - Overview.in_progress_tasks r
    /\ Overview.total_time_hours r
       = round1 (int_truediv (minutes (entries_of tasks)) 60)
    /\ Overview.task_completion_rate r
       = if decide (Overview.total_tasks r = 0) then Int 0
         else Float (round1 (float_mul_int
                               (int_truediv (Overview.completed_tasks r)
                                            (Overview.total_tasks r)) 100)).
Proof.
  intros projects tasks. exists (overview projects now).
  split; [reflexivity |]. simpl.
  assert (Htotal : py_sum ((fun p => len (Project.tasks p)) <$> projects)
                   = len tasks).
  { apply (sum_over_projects len); [reflexivity | apply len_app]. }
  assert (Hcount : forall s,
            py_sum ((fun p => count_if (has_status s) (Project.tasks p))
                      <$> projects)
            = len (filter (has_status s) tasks)).
  { intros s.
    rewrite (sum_over_projects (fun ts => count_if (has_status s) ts)).
    - apply count_if_len.
    - reflexivity.
    - intros xs ys. rewrite !count_if_len, filter_app. apply len_app. }
  rewrite Htotal, !Hcount, total_time_minutes_flat.
  repeat split.
  unfold completion_rate.
  destruct (decide (len tasks = 0)) as [-> | Hne]; [reflexivity |].
  assert (Hpos : (0 <? len tasks) = true)
    by (apply Z.ltb_lt; unfold len in *; lia).
  now rewrite Hpos.
Qed.

(** C7, where the statement of the specification fails: the query
    returns at most 1000
    projects.  An owner of 1001 projects, each with one finished task of 90
    minutes, is told of 1000 tasks and 1500.0 hours, while her projects
    hold 1001 tasks and 90090 minutes. *)
Lemma overview_stops_at_1000_projects :
  exists r,
    get_analytics_overview "carol" 0 many_projects = (Return r, many_projects)
    /\ filter (by_owner "carol") many_projects = many_projects
    /\ NoDup (Project.id <$> many_projects)
    /\ len (all_tasks many_projects) = 1001
    /\ minutes (entries_of (all_tasks many_projects)) = 90090
    /\ Overview.total_projects r = 1000
    /\ Overview.total_tasks r = 1000
    /\ Overview.completed_tasks r = 1000
    /\ Overview.total_time_hours r = tenths 15000
    /\ Overview.total_time_hours r <> hours_of_minutes 90090.
Proof.
  eexists. split; [reflexivity |].
  split; [vm_compute; reflexivity |].
  split; [refine (bool_decide_unpack _ _); vm_compute; exact I |].
  split; [vm_compute; reflexivity |].
  split; [vm_compute; reflexivity |].
  split; [vm_compute; reflexivity |].
  split; [vm_compute; reflexivity |].
  split; [vm_compute; reflexivity |].
  split; [vm_compute; reflexivity |].
  vm_compute. discriminate.
Qed.

(** ** The order of strings and the stable sort *)

Lemma compare_refl (s : string) : String.compare s s = Eq.
Proof.
  induction s as [| c s IH]; simpl; [reflexivity |].
  unfold Ascii.compare. now rewrite N.compare_refl.
Qed.

Lemma compare_lt_trans (a b c : string) :
  String.compare a b = Lt -> String.compare b c = Lt ->
  String.compare a c = Lt.
Proof.
  revert b c. induction a as [| x a IH]; intros [| y b] [| z c]; simpl;
    try discriminate; try reflexivity.
  intros Hab Hbc.
  destruct (Ascii.compare x y) eqn:Hxy; try discriminate.
  - apply Ascii.compare_eq_iff in Hxy. subst y.
    destruct (Ascii.compare x z); try discriminate; eauto.
  - destruct (Ascii.compare y z) eqn:Hyz; try discriminate.
    + apply Ascii.compare_eq_iff in Hyz. subst z. now rewrite Hxy.
    + assert (Hxz : Ascii.compare x z = Lt).
      { unfold Ascii.compare in *. rewrite N.compare_lt_iff in *. lia. }
      now rewrite Hxz.
Qed.

Lemma leb_cases (a b : string) :
  String.leb a b = true <-> String.ltb a b = true \/ a = b.
Proof.
  unfold String.leb, String.ltb. split.
  - destruct (String.compare a b) eqn:Hc; try discriminate; auto.
    right. now apply String.compare_eq_iff.
  - intros [H | ->]; [| now rewrite compare_refl].
    destruct (String.compare a b); try discriminate; reflexivity.
Qed.

Lemma ltb_trans (a b c : string) :
  String.ltb a b = true -> String.ltb b c = true -> String.ltb a c = true.
Proof.
  unfold String.ltb. intros Hab Hbc.
  rewrite (compare_lt_trans a b c); [reflexivity | |].
  - destruct (String.compare a b); try discriminate; reflexivity.
  - destruct (String.compare b c); try discriminate; reflexivity.
Qed.

Lemma leb_trans (a b c : string) :
  String.leb a b = true -> String.leb b c = true -> String.leb a c = true.
Proof.
  rewrite !leb_cases. intros [Hab | ->] [Hbc | ->]; auto.
  left. eapply ltb_trans; eauto.
Qed.

Lemma leb_false_flip (a b : string) :
  String.leb a b = false -> String.leb b a = true.
Proof.
  intros H. destruct (String.leb_total a b) as [H' | H']; congruence.
Qed.

Lemma ltb_irrefl (a : string) : String.ltb a a = false.
Proof. unfold String.ltb. now rewrite compare_refl. Qed.

Section SortFacts.
Context {A : Type} (key : A -> string).

Lemma insert_by_key_perm (x : A) (l : list A) :
  insert_by_key key x l ≡ₚ x :: l.
Proof.
  induction l as [| y l IH]; simpl; [reflexivity |].
  destruct (String.leb (key x) (key y)); [reflexivity |].
  rewrite IH. apply Permutation_swap.
Qed.

Lemma sort_by_key_perm (l : list A) : sort_by_key key l ≡ₚ l.
Proof.
  induction l as [| x l IH]; simpl; [reflexivity |].
  rewrite insert_by_key_perm. now rewrite IH.
Qed.

(** The sort is stable: the elements of one key keep their order. *)
Lemma insert_by_key_stable (k : string) (x : A) (l : list A) :
  filter (fun y => key y = k) (insert_by_key key x l)
  = filter (fun y => key y = k) (x :: l).
Proof.
  induction l as [| y l IH]; simpl; [reflexivity |].
  destruct (String.leb (key x) (key y)) eqn:Hxy; [reflexivity |].
  rewrite (filter_cons _ y), IH, !filter_cons.
  destruct (decide (key x = k)) as [Hx | Hx]; [| reflexivity].
  destruct (decide (key y = k)) as [Hy | Hy]; [| reflexivity].
  exfalso. rewrite Hx, Hy in Hxy.
  assert (String.leb k k = true) by (apply leb_cases; now right).
  congruence.
Qed.

Lemma sort_by_key_stable (k : string) (l : list A) :
  filter (fun y => key y = k) (sort_by_key key l)
  = filter (fun y => key y = k) l.
Proof.
  induction l as [| x l IH]; simpl; [reflexivity |].
  rewrite insert_by_key_stable, !filter_cons, IH. reflexivity.
Qed.

Lemma insert_by_key_sorted (x : A) (l : list A) :
  StronglySorted (key_le key) l -> StronglySorted (key_le key) (insert_by_key key x l).
Proof.
  induction l as [| y l IH]; simpl; intros Hs.
  - repeat constructor.
  - apply StronglySorted_cons in Hs as [Hy Hs].
    destruct (String.leb (key x) (key y)) eqn:Hxy.
    + apply StronglySorted_cons. split.
      * constructor; [exact Hxy |].
        eapply Forall_impl; [exact Hy |].
        intros z Hz. unfold key_le in *. eapply leb_trans; eauto.
      * apply StronglySorted_cons. split; assumption.
    + apply StronglySorted_cons. split; [| now apply IH].
      rewrite insert_by_key_perm. constructor; [| exact Hy].
      now apply leb_false_flip.
Qed.

Lemma sort_by_key_sorted (l : list A) :
  StronglySorted (key_le key) (sort_by_key key l).
Proof.
  induction l as [| x l IH]; simpl; [constructor |].
  now apply insert_by_key_sorted.
Qed.

(** Distinct keys come out in strictly ascending order. *)
Lemma sorted_distinct_strict (l : list A) :
  StronglySorted (key_le key) l -> NoDup (key <$> l) -> StronglySorted (key_lt key) l.
Proof.
  induction l as [| x l IH]; intros Hs Hnd; [constructor |].
  apply StronglySorted_cons in Hs as [Hx Hs].
  rewrite fmap_cons in Hnd. apply NoDup_cons in Hnd as [Hnotin Hnd].
  apply StronglySorted_cons. split; [| now apply IH].
  apply Forall_forall. intros y Hy.
  rewrite Forall_forall in Hx. specialize (Hx y Hy).
  apply leb_cases in Hx as [Hlt | Heq]; [exact Hlt |].
  exfalso. apply Hnotin. rewrite Heq. now apply list_elem_of_fmap_2.
Qed.

Lemma sort_by_key_strict (l : list A) :
  NoDup (key <$> l) -> StronglySorted (key_lt key) (sort_by_key key l).
Proof.
  intros Hnd. apply sorted_distinct_strict.
  - apply sort_by_key_sorted.
  - now rewrite sort_by_key_perm.
Qed.
End SortFacts.

(** ** The loops of the time tracking *)

Lemma track_entry_split (project_minutes : Z) (daily_times : gmap string Z)
    (te : TimeEntry.t) :
  track_entry (project_minutes, daily_times) te
  = (project_minutes + TimeEntry.duration_minutes te,
     track_daily daily_times te).
Proof.
  unfold track_daily, track_entry.
  destruct (negb (String.eqb (first10 (TimeEntry.date te)) "")); reflexivity.
Qed.

Lemma foldl_track_entry (a : Z) (m : gmap string Z) (es : list TimeEntry.t) :
  foldl track_entry (a, m) es = (a + minutes es, foldl track_daily m es).
Proof.
  revert a m. induction es as [| e es IH]; intros a m.
  - rewrite minutes_nil. simpl. f_equal. lia.
  - rewrite minutes_cons. cbn [foldl]. rewrite track_entry_split, IH.
    f_equal. lia.
Qed.

Lemma foldl_track_tasks (a : Z) (m : gmap string Z) (ts : list Task.t) :
  foldl (fun acc t => foldl track_entry acc (Task.time_entries t)) (a, m) ts
  = (a + minutes (entries_of ts), foldl track_daily m (entries_of ts)).
Proof.
  revert a m. induction ts as [| t ts IH]; intros a m.
  - change (entries_of []) with (@nil TimeEntry.t). rewrite minutes_nil.
    simpl. f_equal. lia.
  - change (entries_of (t :: ts)) with (Task.time_entries t ++ entries_of ts).
    rewrite minutes_app. cbn [foldl].
    rewrite foldl_track_entry, IH. f_equal; [lia | now rewrite foldl_app].
Qed.

Lemma track_project_split (project_times : list ProjectTime.t)
    (m : gmap string Z) (p : Project.t) :
  track_project (project_times, m) p
  = (project_times
       ++ (project_time <$> filter (fun p => 0 < project_minutes p) [p]),
     foldl track_daily m (entries_of (Project.tasks p))).
Proof.
  unfold track_project. rewrite foldl_track_tasks.
  change (0 + minutes (entries_of (Project.tasks p))) with (project_minutes p).
  rewrite filter_cons, filter_nil.
  destruct (decide (0 < project_minutes p)) as [Hpos | Hneg].
  - apply Z.ltb_lt in Hpos. rewrite Hpos. reflexivity.
  - apply Z.ltb_nlt in Hneg. rewrite Hneg. simpl. now rewrite app_nil_r.
Qed.

Lemma foldl_track_project (project_times : list ProjectTime.t)
    (m : gmap string Z) (ps : list Project.t) :
  foldl track_project (project_times, m) ps
  = (project_times
       ++ (project_time <$> filter (fun p => 0 < project_minutes p) ps),
     foldl track_daily m (entries_of (all_tasks ps))).
Proof.
  revert project_times m. induction ps as [| p ps IH]; intros pt m.
  - simpl. now rewrite app_nil_r.
  - change (all_tasks (p :: ps)) with (Project.tasks p ++ all_tasks ps).
    rewrite entries_of_app, foldl_app. cbn [foldl].
    rewrite track_project_split, IH. f_equal.
    rewrite <- app_assoc, <- fmap_app. f_equal. f_equal.
    change (p :: ps) with ([p] ++ ps). now rewrite filter_app.
Qed.

Lemma first10_nonempty_date (te : TimeEntry.t) :
  first10 (TimeEntry.date te) = "" <-> TimeEntry.date te = "".
Proof.
  unfold first10. destruct (TimeEntry.date te); simpl; split; congruence.
Qed.

Lemma bucket_of_snoc_other (es : list TimeEntry.t) (te : TimeEntry.t)
    (d : string) :
  ~ (d <> "" /\ on_date d te) ->
  bucket_of (es ++ [te]) d = bucket_of es d.
Proof.
  intros Hnot. unfold bucket_of.
  destruct (decide (d = "")) as [-> | Hd].
  - rewrite !decide_False by (intros [H _]; now apply H). reflexivity.
  - assert (Hte : ~ on_date d te) by tauto.
    rewrite filter_app, filter_cons_False, filter_nil, app_nil_r by exact Hte.
    destruct (decide (d <> "" /\ Exists (on_date d) es)) as [[_ Hex] | Hno].
    + rewrite decide_True; [reflexivity |].
      split; [exact Hd |]. apply Exists_app. now left.
    + rewrite decide_False; [reflexivity |].
      intros [_ Hex]. apply Exists_app in Hex as [Hex | Hex]; [tauto |].
      apply Exists_cons in Hex as [Hex | Hex]; [tauto |].
      now apply Exists_nil in Hex.
Qed.

Lemma bucket_of_snoc_same (es : list TimeEntry.t) (te : TimeEntry.t) :
  first10 (TimeEntry.date te) <> "" ->
  bucket_of (es ++ [te]) (first10 (TimeEntry.date te))
  = Some (default 0 (bucket_of es (first10 (TimeEntry.date te)))
          + TimeEntry.duration_minutes te).
Proof.
  intros Hd. set (d := first10 (TimeEntry.date te)) in *.
  assert (Hte : on_date d te) by reflexivity.
  unfold bucket_of at 1.
  rewrite decide_True.
  2:{ split; [exact Hd |]. apply Exists_app. right. now constructor. }
  rewrite filter_app, filter_cons_True, filter_nil by exact Hte.
  rewrite minutes_app, minutes_cons, minutes_nil. f_equal.
  unfold bucket_of.
  destruct (decide (d <> "" /\ Exists (on_date d) es)) as [_ | Hno]; simpl.
  - lia.
  - assert (Hall : Forall (fun x => ~ on_date d x) es).
    { apply Forall_forall. intros x Hx Hon. apply Hno.
      split; [exact Hd |]. apply Exists_exists. eauto. }
    assert (Hnil : filter (on_date d) es = []).
    { clear -Hall. induction Hall as [| x l Hx _ IH]; [reflexivity |].
      now rewrite filter_cons_False. }
    rewrite Hnil, minutes_nil. lia.
Qed.

(** After the loops, [daily_times] maps every non-empty day on which an
    entry falls to the minutes of that day, and nothing else. *)
Lemma daily_times_lookup (es : list TimeEntry.t) (d : string) :
  foldl track_daily ∅ es !! d = bucket_of es d.
Proof.
  revert d. induction es as [| te es IH] using rev_ind; intros d.
  - simpl. rewrite lookup_empty. unfold bucket_of.
    rewrite decide_False; [reflexivity |].
    intros [_ Hex]. now apply Exists_nil in Hex.
  - rewrite foldl_snoc. unfold track_daily at 1, track_entry.
    destruct (String.eqb (first10 (TimeEntry.date te)) "") eqn:Hdate; simpl.
    + apply String.eqb_eq in Hdate.
      rewrite bucket_of_snoc_other; [apply IH |].
      intros [Hd Hon]. unfold on_date in Hon. congruence.
    + apply String.eqb_neq in Hdate.
      destruct (decide (first10 (TimeEntry.date te) = d)) as [<- | Hne].
      * rewrite lookup_insert_eq, IH. now rewrite bucket_of_snoc_same.
      * rewrite lookup_insert_ne by exact Hne.
        rewrite bucket_of_snoc_other; [apply IH |].
        intros [_ Hon]. now apply Hne.
Qed.

Lemma sorted_items_elem (m : gmap string Z) (d : string) (v : Z) :
  (d, v) ∈ sorted_items m <-> m !! d = Some v.
Proof.
  unfold sorted_items. rewrite sort_by_key_perm.
  apply elem_of_map_to_list.
Qed.

Lemma sorted_items_strict (m : gmap string Z) :
  StronglySorted (key_lt fst) (sorted_items m).
Proof. apply sort_by_key_strict, NoDup_fst_map_to_list. Qed.

Lemma time_tracking_unfold (projects : list Project.t) :
  time_tracking projects
  = {| TimeTracking.by_project :=
         project_time <$> filter (fun p => 0 < project_minutes p) projects;
       TimeTracking.daily :=
         last_n 14
           (daily_time <$>
              sorted_items
                (foldl track_daily ∅ (entries_of (all_tasks projects)))) |}.
Proof.
  unfold time_tracking. rewrite foldl_track_project. simpl.
  f_equal. f_equal. apply list_fmap_ext. now intros i [d v].
Qed.

(** C8, as the code has it.  The report covers the projects the query
    returns, the first 1000 of the owner's projects in the order of the
    collection.  (a) [by_project] has, in that order, one row for each of
    these projects whose minutes, summed over all time entries of all its
    tasks, are positive: the project's name, these minutes as hours rounded
    to one decimal, and its color.  (b) [daily] is the last 14 rows of a
    list of buckets that is strictly ascending by date and has exactly one
    row for each non-empty string that is the first ten characters of the
    date of some entry, with the minutes of the entries of that date as
    hours rounded to one decimal; it has 14 rows, or all the buckets when
    there are fewer, and every bucket left out has an earlier date than
    every bucket in it. *)
Theorem time_tracking_report (db : Db) (owner : string) :
  let projects := take 1000 (filter (by_owner owner) db) in
  let entries := entries_of (all_tasks projects) in
  exists r buckets,
    get_time_tracking_analytics owner db = (Return r, db)
    /\ TimeTracking.by_project r
       = project_time <$> filter (fun p => 0 < project_minutes p) projects
    /\ TimeTracking.daily r = last_n 14 buckets
    /\ length (TimeTracking.daily r) = Nat.min 14 (length buckets)
    /\ StronglySorted date_lt buckets
    /\ (forall a b,
          a ∈ take (length buckets - 14) buckets ->
          b ∈ TimeTracking.daily r -> date_lt a b)
    /\ (forall d h,
          {| DailyTime.date := d; DailyTime.hours := h |} ∈ buckets
          <-> d <> "" /\ Exists (on_date d) entries
              /\ h = hours_of_minutes (minutes (filter (on_date d) entries))).
Proof.
  intros projects entries.
  exists (time_tracking projects),
         (daily_time <$> sorted_items (foldl track_daily ∅ entries)).
  split; [reflexivity |].
  rewrite time_tracking_unfold.
  cbn [TimeTracking.by_project TimeTracking.daily].
  assert (Hsorted : StronglySorted date_lt
            (daily_time <$> sorted_items (foldl track_daily ∅ entries))).
  { eapply StronglySorted_fmap; [| apply sorted_items_strict].
    intros x y Hxy. exact Hxy. }
  split; [reflexivity |]. split; [reflexivity |].
  split; [unfold last_n; rewrite length_drop; subst entries; lia |].
  split; [exact Hsorted |]. split.
  - intros a b Ha Hb. unfold last_n in Hb.
    eapply (StronglySorted_app_1_elem_of date_lt); [| exact Ha | exact Hb].
    now rewrite take_drop.
  - intros d h. rewrite list_elem_of_fmap. split.
    + intros [[d' v] [Heq Hin]]. injection Heq as -> ->. simpl in *.
      apply sorted_items_elem in Hin.
      rewrite daily_times_lookup in Hin. unfold bucket_of in Hin.
      destruct (decide (d' <> "" /\ Exists (on_date d') entries))
        as [[Hd Hex] |]; [| discriminate].
      injection Hin as <-. auto.
    + intros (Hd & Hex & ->).
      exists (d, minutes (filter (on_date d) entries)).
      split; [reflexivity |].
      apply sorted_items_elem. rewrite daily_times_lookup.
      unfold bucket_of. now rewrite decide_True.
Qed.

(** C8, where the statement of the specification fails, in three
    places.  A project whose
    minutes are negative, so not zero, has no row in [by_project]; an entry
    whose date is empty falls into no bucket of [daily]; and an owner of
    1001 projects with time on each gets 1000 rows. *)
Lemma time_tracking_omissions :
  (exists r,
     get_time_tracking_analytics "dave" daves_db = (Return r, daves_db)
     /\ filter (by_owner "dave") daves_db = [audit; notes]
     /\ project_minutes audit = -30
     /\ TimeTracking.by_project r
        = [ {| ProjectTime.name := "Notes";
               ProjectTime.hours := tenths 10;
               ProjectTime.color := "#4F46E5" |} ]
     /\ entries_of (all_tasks daves_db) = [refund; undated]
     /\ TimeTracking.daily r
        = [ {| DailyTime.date := "2024-01-01";
               DailyTime.hours := tenths (-5) |} ])
  /\ (exists r,
        get_time_tracking_analytics "carol" many_projects
        = (Return r, many_projects)
        /\ filter (fun p => 0 < project_minutes p)
                  (filter (by_owner "carol") many_projects)
           = many_projects
        /\ length many_projects = 1001%nat
        /\ length (TimeTracking.by_project r) = 1000%nat).
Proof.
  split.
  - eexists. split; [reflexivity |].
    repeat split; vm_compute; reflexivity.
  - eexists. split; [reflexivity |].
    repeat split; vm_compute; reflexivity.
Qed.

(** ** Entries without a date *)






(** ** Upcoming deadlines *)

(** A date without a time, and any timestamp without an offset, parses to
    a naive [datetime]; compared with the aware [now] it is dropped. *)
Lemma naive_never_after_by (parse : string -> option datetime.t)
    (date : string) (d : datetime.t) (now : Z) :
  parse (replace_Z date) = Some d -> datetime.tzinfo d = None ->
  parses_after_by parse date now = false.
Proof.
  intros Hparse Hnaive. unfold parses_after_by, datetime_gt.
  now rewrite Hparse, Hnaive.
Qed.

Lemma naive_never_after (date : string) (d : datetime.t) (now : Z) :
  fromisoformat (replace_Z date) = Some d -> datetime.tzinfo d = None ->
  parses_after date now = false.
Proof. apply naive_never_after_by. Qed.

Lemma foldl_append {A B} (f : B -> list A) (a : list A) (xs : list B) :
  foldl (fun acc x => acc ++ f x) a xs = a ++ (xs ≫= f).
Proof.
  revert a. induction xs as [| x xs IH]; intros a.
  - simpl. now rewrite app_nil_r.
  - cbn [foldl]. rewrite IH.
    change ((x :: xs) ≫= f) with (f x ++ (xs ≫= f)).
    now rewrite app_assoc.
Qed.

(** The loop collects, project by project, the project's own deadline
    and then those of its milestones. *)
Lemma collect_deadlines_by_flat (parse : string -> option datetime.t)
    (now : Z) (projects : list Project.t) :
  collect_deadlines_by parse now projects
  = projects ≫= (fun p =>
      project_deadline_by parse now p
      ++ (Project.milestones p ≫= milestone_deadline_by parse now p)).
Proof.
  unfold collect_deadlines_by.
  rewrite <- (app_nil_l (projects ≫= _)). generalize (@nil Deadline.t).
  induction projects as [| p ps IH]; intros acc.
  - simpl. now rewrite app_nil_r.
  - cbn [foldl]. rewrite foldl_append, IH.
    change ((p :: ps) ≫= ?f) with (f p ++ (ps ≫= f)).
    now rewrite !app_assoc.
Qed.

Lemma collect_deadlines_flat (now : Z) (projects : list Project.t) :
  collect_deadlines now projects
  = projects ≫= (fun p =>
      project_deadline now p
      ++ (Project.milestones p ≫= milestone_deadline now p)).
Proof. apply collect_deadlines_by_flat. Qed.

(** The entry that the loop appends for the deadline [deadline] of the
    project [p]. *)
Lemma project_deadline_by_elem (parse : string -> option datetime.t)
    (now : Z) (p : Project.t) (d : Deadline.t) :
  d ∈ project_deadline_by parse now p
  <-> exists deadline,
        Project.deadline p = Some deadline
        /\ deadline <> ""
        /\ parses_after_by parse deadline now = true
        /\ d = {| Deadline.type := "project";
                  Deadline.name := Project.name p;
                  Deadline.deadline := deadline;
                  Deadline.project_id := Project.id p;
                  Deadline.project_name := None |}.
Proof.
  unfold project_deadline_by.
  destruct (Project.deadline p) as [dl |].
  - destruct (String.eqb dl "") eqn:Hempty; simpl.
    + apply String.eqb_eq in Hempty. rewrite elem_of_nil. split; [tauto |].
      intros (deadline & Heq & Hne & _). congruence.
    + apply String.eqb_neq in Hempty.
      destruct (parses_after_by parse dl now) eqn:Hafter.
      * rewrite list_elem_of_singleton. split.
        -- intros ->. exists dl. auto.
        -- intros (deadline & Heq & _ & _ & ->). congruence.
      * rewrite elem_of_nil. split; [tauto |].
        intros (deadline & Heq & _ & Hparsed & _). congruence.
  - rewrite elem_of_nil. split; [tauto |].
    intros (deadline & Heq & _). discriminate.
Qed.

(** The entry that the loop appends for the milestone [m] of the project
    [p]. *)
Lemma milestone_deadline_by_elem (parse : string -> option datetime.t)
    (now : Z) (p : Project.t) (m : Milestone.t) (d : Deadline.t) :
  d ∈ milestone_deadline_by parse now p m
  <-> Milestone.completed m = false
      /\ Milestone.due_date m <> ""
      /\ parses_after_by parse (Milestone.due_date m) now = true
      /\ d = {| Deadline.type := "milestone";
                Deadline.name := Milestone.title m;
                Deadline.deadline := Milestone.due_date m;
                Deadline.project_id := Project.id p;
                Deadline.project_name := Some (Project.name p) |}.
Proof.
  unfold milestone_deadline_by.
  destruct (Milestone.completed m); simpl.
  - rewrite elem_of_nil. split; [tauto |]. intros (H & _). discriminate.
  - destruct (String.eqb (Milestone.due_date m) "") eqn:Hempty; simpl.
    + apply String.eqb_eq in Hempty. rewrite elem_of_nil. split; [tauto |].
      intros (_ & Hne & _). congruence.
    + apply String.eqb_neq in Hempty.
      destruct (parses_after_by parse (Milestone.due_date m) now) eqn:Hafter.
      * rewrite list_elem_of_singleton. split; [intros ->; auto |].
        now intros (_ & _ & _ & ->).
      * rewrite elem_of_nil. split; [tauto |].
        intros (_ & _ & Hparsed & _). congruence.
Qed.

Lemma collect_deadlines_by_elem (parse : string -> option datetime.t)
    (now : Z) (projects : list Project.t) (d : Deadline.t) :
  d ∈ collect_deadlines_by parse now projects
  <-> exists p,
        p ∈ projects
        /\ (d ∈ project_deadline_by parse now p
            \/ exists m, m ∈ Project.milestones p
                 /\ d ∈ milestone_deadline_by parse now p m).
Proof.
  rewrite collect_deadlines_by_flat, list_elem_of_bind.
  split; intros (p & H1 & H2).
  - exists p. split; [exact H2 |].
    apply elem_of_app in H1 as [H1 | H1]; [now left | right].
    apply list_elem_of_bind in H1 as (m & Hd & Hm). eauto.
  - exists p. split; [| exact H1]. apply elem_of_app.
    destruct H2 as [H2 | (m & Hm & Hd)]; [now left | right].
    apply list_elem_of_bind. eauto.
Qed.

(** The first [n] of a sorted list: an element of the list is among them,
    or there are [n] of them and none of them is greater. *)
Lemma take_sorted_smallest {A} (R : A -> A -> Prop) (n : nat) (l : list A)
    (x : A) :
  StronglySorted R l -> x ∈ l ->
  x ∈ take n l
  \/ (length (take n l) = n /\ forall y, y ∈ take n l -> R y x).
Proof.
  intros Hsorted Hx. rewrite <- (take_drop n l) in Hx, Hsorted.
  apply elem_of_app in Hx as [Hx | Hx]; [now left | right].
  split.
  - rewrite length_take. apply Nat.min_l.
    destruct (le_lt_dec n (length l)) as [Hle | Hlt]; [exact Hle |].
    rewrite drop_ge in Hx by lia. now apply elem_of_nil in Hx.
  - intros y Hy. eapply StronglySorted_app_1_elem_of; eauto.
Qed.

(** What the overview lists: at most five entries, ascending by the
    deadline string, each with a date that parsed to a timestamp with an
    offset later than [now]. *)
Lemma upcoming_deadlines_by_listed (parse : string -> option datetime.t)
    (now : Z) (projects : list Project.t) :
  let listed :=
    Overview.upcoming_deadlines (overview_by parse projects now) in
  (length listed <= 5)%nat
  /\ StronglySorted (key_le Deadline.deadline) listed
  /\ Forall (fun d => parses_after_by parse (Deadline.deadline d) now = true)
            listed.
Proof.
  simpl. split; [| split].
  - rewrite length_take. lia.
  - eapply StronglySorted_app_1_l. rewrite take_drop.
    apply sort_by_key_sorted.
  - apply Forall_take. rewrite sort_by_key_perm.
    apply Forall_forall. intros d Hd.
    apply collect_deadlines_by_elem in Hd as (p & _ & [Hd | (m & _ & Hd)]).
    + apply project_deadline_by_elem in Hd as (dl & _ & _ & Hafter & ->).
      exact Hafter.
    + apply milestone_deadline_by_elem in Hd as (_ & _ & Hafter & ->).
      exact Hafter.
Qed.

Lemma upcoming_deadlines_listed (now : Z) (projects : list Project.t) :
  let listed := Overview.upcoming_deadlines (overview projects now) in
  (length listed <= 5)%nat
  /\ StronglySorted (key_le Deadline.deadline) listed
  /\ Forall (fun d => parses_after (Deadline.deadline d) now = true) listed.
Proof. apply upcoming_deadlines_by_listed. Qed.

(** C2 on the scenario of the specification.  The deadline
    2099-01-01 and the due date 2030-01-01 both parse, and whatever the
    current time is, the overview after the scenario counts the task and
    its completion and lists no upcoming deadline, neither the project nor
    the milestone. *)
Theorem date_only_deadlines_not_listed (now : Z) :
  exists r db,
    end_to_end now [] = (Return r, db)
    /\ is_Some (fromisoformat "2099-01-01")
    /\ is_Some (fromisoformat "2030-01-01")
    /\ Overview.total_tasks r = 1
    /\ Overview.completed_tasks r = 1
    /\ Overview.task_completion_rate r = Float (float_of_int 100)
    /\ Overview.upcoming_deadlines r = [].
Proof.
  eexists. eexists. split; [vm_compute; reflexivity |].
  repeat split; try (vm_compute; reflexivity); vm_compute; eauto.
Qed.

(** The same project with timestamps that carry an offset is listed, the
    milestone of 2030 before the project of 2099. *)
Example aware_deadlines_listed :
  Overview.upcoming_deadlines
    (overview [launch_due "2099-01-01T00:00:00.000Z" "2030-01-01T00:00:00+00:00"]
              (instant "2026-01-01T00:00:00+00:00"))
  = [ {| Deadline.type := "milestone";
         Deadline.name := "Beta";
         Deadline.deadline := "2030-01-01T00:00:00+00:00";
         Deadline.project_id := "p1";
         Deadline.project_name := Some "Launch" |};
      {| Deadline.type := "project";
         Deadline.name := "Launch";
         Deadline.deadline := "2099-01-01T00:00:00.000Z";
         Deadline.project_id := "p1";
         Deadline.project_name := None |} ].
Proof. vm_compute. reflexivity. Qed.

(** ** The examples of the specification *)

(** 60 minutes on 2024-01-01 and 30 minutes on 2024-01-02: 1.5 hours for
    the project, 1.0 and 0.5 hours for the two days. *)
Example time_tracking_two_days :
  time_tracking [launch]
  = {| TimeTracking.by_project :=
         [ {| ProjectTime.name := "Launch";
              ProjectTime.hours := tenths 15;
              ProjectTime.color := "#4F46E5" |} ];
       TimeTracking.daily :=
         [ {| DailyTime.date := "2024-01-01"; DailyTime.hours := tenths 10 |};
           {| DailyTime.date := "2024-01-02"; DailyTime.hours := tenths 5 |} ]
    |}.
Proof. vm_compute. reflexivity. Qed.

(** With entries on fifteen days, the first day is not in [daily]. *)
Example fifteenth_day_drops_the_first :
  DailyTime.date
    <$> TimeTracking.daily
          (time_tracking [project_with "p5" "Diary"
                            [task_with "t5" fortnight_and_a_day]])
  = ["2024-01-02"; "2024-01-03"; "2024-01-04"; "2024-01-05"; "2024-01-06";
     "2024-01-07"; "2024-01-08"; "2024-01-09"; "2024-01-10"; "2024-01-11";
     "2024-01-12"; "2024-01-13"; "2024-01-14"; "2024-01-15"].
Proof. vm_compute. reflexivity. Qed.

(** Done, then in progress, then done again: [completed_at] is set,
    cleared and set to the later reading. *)
Example done_in_progress_done :
  (let* a := update_task "p1" "t1" (status_patch "in_progress") "alice"
               "2024-02-01T00:00:00+00:00" "2024-02-01T00:00:00+00:00" in
   let* b := update_task "p1" "t1" (status_patch "done") "alice"
               "2024-02-02T00:00:00+00:00" "2024-02-02T00:00:00+00:00" in
   ret (Task.completed_at design, Task.completed_at a, Task.completed_at b))
    sample_db
  = (Return (Some "2024-01-03T09:00:00+00:00", None,
             Some "2024-02-02T00:00:00+00:00"),
     [garden;
      set_tasks
        [apply_task_update (status_patch "done") "2024-02-02T00:00:00+00:00"
           (apply_task_update (status_patch "in_progress")
              "2024-02-01T00:00:00+00:00" design)]
        "2024-02-02T00:00:00+00:00" launch]).
Proof. vm_compute. reflexivity. Qed.

(* ================================================================= *)
(** * Further properties of the routes *)

(** ** What each route does to a selected project *)

Section Runs.
Variables (db : Db) (project_id owner : string) (j : nat) (p : Project.t).
Hypothesis Hfind : list_find (by_id_owner project_id owner) db = Some (j, p).

Lemma update_project_run data now :
  update_project project_id data owner now db
  = (Return (set_project_fields data now p),
     <[j := set_project_fields data now p]> db).
Proof. run_handler. now rewrite Hfind. Qed.

Lemma delete_project_run :
  delete_project project_id owner db = (Return "Project deleted", delete j db).
Proof. unfold delete_project, bind, delete_one. now rewrite Hfind. Qed.

Lemma create_task_run data new_id created now :
  create_task project_id data owner new_id created now db
  = (Return (new_task data new_id created),
     <[j := push_task (new_task data new_id created) now p]> db).
Proof. run_handler. now rewrite Hfind. Qed.

Lemma delete_task_run task_id now :
  delete_task project_id task_id owner now db
  = (Return "Task deleted", <[j := pull_task task_id now p]> db).
Proof. run_handler. now rewrite Hfind. Qed.

Lemma create_milestone_run data new_id now :
  create_milestone project_id data owner new_id now db
  = (Return (new_milestone data new_id),
     <[j := push_milestone (new_milestone data new_id) now p]> db).
Proof. run_handler. now rewrite Hfind. Qed.

Lemma delete_milestone_run milestone_id now :
  delete_milestone project_id milestone_id owner now db
  = (Return "Milestone deleted", <[j := pull_milestone milestone_id now p]> db).
Proof. run_handler. now rewrite Hfind. Qed.

Lemma update_task_missing task_id data now now' :
  task_index task_id (Project.tasks p) = None ->
  update_task project_id task_id data owner now now' db
  = element_not_found "Task not found" db.
Proof. intros Hnone. run_handler. rewrite Hfind. simpl. now rewrite Hnone. Qed.

Lemma add_time_entry_missing task_id data new_id created now :
  task_index task_id (Project.tasks p) = None ->
  add_time_entry project_id task_id data owner new_id created now db
  = element_not_found "Task not found" db.
Proof. intros Hnone. run_handler. rewrite Hfind. simpl. now rewrite Hnone. Qed.

Lemma delete_time_entry_missing task_id time_id now :
  task_index task_id (Project.tasks p) = None ->
  delete_time_entry project_id task_id time_id owner now db
  = element_not_found "Task not found" db.
Proof. intros Hnone. run_handler. rewrite Hfind. simpl. now rewrite Hnone. Qed.

Lemma update_milestone_missing milestone_id completed now now' :
  milestone_index milestone_id (Project.milestones p) = None ->
  update_milestone project_id milestone_id completed owner now now' db
  = element_not_found "Milestone not found" db.
Proof. intros Hnone. run_handler. rewrite Hfind. simpl. now rewrite Hnone. Qed.

Hypothesis Hids : NoDup (Project.id <$> db).

Lemma update_task_run task_id data now now' i task :
  task_index task_id (Project.tasks p) = Some (i, task) ->
  update_task project_id task_id data owner now now' db
  = (Return (apply_task_update data now task),
     <[j := set_tasks (<[i := apply_task_update data now task]>
                         (Project.tasks p)) now' p]> db).
Proof.
  intros Htask. run_handler. rewrite Hfind. simpl. rewrite Htask. simpl.
  now rewrite (find_by_id_of_owner _ _ _ _ _ Hids Hfind).
Qed.

Lemma add_time_entry_run task_id data new_id created now i task :
  task_index task_id (Project.tasks p) = Some (i, task) ->
  add_time_entry project_id task_id data owner new_id created now db
  = (Return (new_time_entry data new_id created),
     <[j := set_tasks
              (<[i := set_time_entries
                        (Task.time_entries task
                           ++ [new_time_entry data new_id created]) task]>
                 (Project.tasks p)) now p]> db).
Proof.
  intros Htask. run_handler. rewrite Hfind. simpl. rewrite Htask. simpl.
  now rewrite (find_by_id_of_owner _ _ _ _ _ Hids Hfind).
Qed.

Lemma delete_time_entry_run task_id time_id now i task :
  task_index task_id (Project.tasks p) = Some (i, task) ->
  delete_time_entry project_id task_id time_id owner now db
  = (Return "Time entry deleted",
     <[j := set_tasks
              (<[i := set_time_entries
                        (filter (fun te => TimeEntry.id te <> time_id)
                                (Task.time_entries task)) task]>
                 (Project.tasks p)) now p]> db).
Proof.
  intros Htask. run_handler. rewrite Hfind. simpl. rewrite Htask. simpl.
  now rewrite (find_by_id_of_owner _ _ _ _ _ Hids Hfind).
Qed.

Lemma update_milestone_run milestone_id completed now now' i m :
  milestone_index milestone_id (Project.milestones p) = Some (i, m) ->
  update_milestone project_id milestone_id completed owner now now' db
  = (Return (set_completed completed now m),
     <[j := set_milestones (<[i := set_completed completed now m]>
                              (Project.milestones p)) now' p]> db).
Proof.
  intros Hm. run_handler. rewrite Hfind. simpl. rewrite Hm. simpl.
  now rewrite (find_by_id_of_owner _ _ _ _ _ Hids Hfind).
Qed.
End Runs.

(** ** Creating, reading and deleting a project *)

Lemma find_appended (db : Db) (p : Project.t) :
  Project.id p ∉ Project.id <$> db ->
  list_find (by_id_owner (Project.id p) (Project.owner_id p)) (db ++ [p])
  = Some (length db, p).
Proof.
  intros Hnew. apply list_find_Some. split; [| split].
  - rewrite lookup_app_r by lia. now rewrite Nat.sub_diag.
  - split; reflexivity.
  - intros k q Hk Hlt [Hid _]. apply Hnew.
    rewrite lookup_app_l in Hk by exact Hlt.
    rewrite <- Hid. apply list_elem_of_fmap_2.
    eapply list_elem_of_lookup_2; eauto.
Qed.

(** X1.  A project created under an id that no project has is the
    last document of the collection, belongs to the caller, is active and
    empty, and carries one time as [created_at] and [updated_at];
    [get_project] by its owner answers exactly the document that
    [create_project] answered, and answers 404 to everyone else. *)
Theorem create_project_then_get (db : Db) (data : ProjectCreate.t)
    (owner new_id now : string) :
  new_id ∉ Project.id <$> db ->
  exists p db',
    create_project data owner new_id now db = (Return p, db')
    /\ db' = db ++ [p]
    /\ get_project new_id owner db' = (Return p, db')
    /\ (forall other, other <> owner ->
          get_project new_id other db' = not_found db')
    /\ Project.id p = new_id /\ Project.owner_id p = owner
    /\ Project.status p = "active"
    /\ Project.tasks p = [] /\ Project.milestones p = []
    /\ Project.created_at p = now /\ Project.updated_at p = now.
Proof.
  intros Hnew. exists (new_project data owner new_id now).
  exists (db ++ [new_project data owner new_id now]).
  split; [reflexivity |]. split; [reflexivity |].
  pose proof (find_appended db (new_project data owner new_id now) Hnew)
    as Hfind.
  simpl in Hfind. split; [| split].
  - unfold get_project, bind, find_one. now rewrite Hfind.
  - intros other Hother. apply get_project_not_found.
    apply list_find_None, Forall_app. split.
    + apply Forall_forall. intros q Hq [Hid _]. apply Hnew.
      rewrite <- Hid. now apply list_elem_of_fmap_2.
    + repeat constructor. intros [_ Hown]. simpl in Hown. congruence.
  - repeat split.
Qed.

Lemma create_project_then_get_witness :
  exists p,
    get_project "p9" "erin"
      (snd (create_project
              {| ProjectCreate.name := "Survey";
                 ProjectCreate.description := None;
                 ProjectCreate.color := "#000000";
                 ProjectCreate.deadline := None |}
              "erin" "p9" "2024-03-01T00:00:00+00:00" sample_db))
    = (Return p, sample_db ++ [p]).
Proof.
  destruct (create_project_then_get sample_db
              {| ProjectCreate.name := "Survey";
                 ProjectCreate.description := None;
                 ProjectCreate.color := "#000000";
                 ProjectCreate.deadline := None |}
              "erin" "p9" "2024-03-01T00:00:00+00:00")
    as (p & db' & Hrun & -> & Hget & _).
  - refine (bool_decide_unpack _ _). vm_compute. exact I.
  - exists p. rewrite Hrun. exact Hget.
Defined.

(** X2.  Creating a project under a new id and deleting it gives back
    the collection as it was. *)
Theorem create_then_delete_project (db : Db) (data : ProjectCreate.t)
    (owner new_id now : string) :
  new_id ∉ Project.id <$> db ->
  (create_project data owner new_id now ;; delete_project new_id owner) db
  = (Return "Project deleted", db).
Proof.
  intros Hnew.
  pose proof (find_appended db (new_project data owner new_id now) Hnew)
    as Hfind.
  simpl in Hfind.
  change ((create_project data owner new_id now ;;
           delete_project new_id owner) db)
    with (delete_project new_id owner
            (db ++ [new_project data owner new_id now])).
  rewrite (delete_project_run _ _ _ _ _ Hfind).
  f_equal. rewrite delete_middle. apply app_nil_r.
Qed.

Lemma create_then_delete_project_witness :
  (create_project
     {| ProjectCreate.name := "Survey";
        ProjectCreate.description := None;
        ProjectCreate.color := "#000000";
        ProjectCreate.deadline := None |}
     "erin" "p9" "2024-03-01T00:00:00+00:00" ;;
   delete_project "p9" "erin") sample_db
  = (Return "Project deleted", sample_db).
Proof.
  apply create_then_delete_project.
  refine (bool_decide_unpack _ _). vm_compute. exact I.
Defined.

Lemma elem_of_delete_ids (db : Db) (j : nat) (p q : Project.t) :
  NoDup (Project.id <$> db) -> db !! j = Some p -> q ∈ delete j db ->
  q ∈ db /\ Project.id q <> Project.id p.
Proof.
  intros Hnd Hj Hq. apply list_elem_of_lookup in Hq as [k Hk].
  destruct (decide (k < j)%nat) as [Hlt | Hge].
  - rewrite list_lookup_delete_lt in Hk by exact Hlt. split.
    + eapply list_elem_of_lookup_2; eauto.
    + intros Hid. assert (k = j) by (eapply lookup_same_id; eauto). lia.
  - rewrite list_lookup_delete_ge in Hk by lia. split.
    + eapply list_elem_of_lookup_2; eauto.
    + intros Hid. assert (S k = j) by (eapply lookup_same_id; eauto). lia.
Qed.

(** X3.  With distinct ids, deleting a selected project removes that
    document, with everything nested in it, and no other: no project of
    its id remains, every project of another id remains, and afterwards
    [get_project] and a second [delete_project] answer 404. *)
Theorem delete_project_removes (db : Db) (project_id owner : string)
    (j : nat) (p : Project.t) :
  NoDup (Project.id <$> db) ->
  list_find (by_id_owner project_id owner) db = Some (j, p) ->
  exists db',
    delete_project project_id owner db = (Return "Project deleted", db')
    /\ db' = delete j db
    /\ (forall q, q ∈ db' -> q ∈ db /\ Project.id q <> project_id)
    /\ (forall q, q ∈ db -> Project.id q <> project_id -> q ∈ db')
    /\ (forall anyone, get_project project_id anyone db' = not_found db')
    /\ delete_project project_id owner db' = not_found db'.
Proof.
  intros Hnd Hfind. exists (delete j db).
  pose proof Hfind as Hfound.
  apply list_find_Some in Hfound as (Hj & [Hid _] & _).
  assert (Hgone : forall q, q ∈ delete j db ->
            q ∈ db /\ Project.id q <> project_id).
  { intros q Hq. rewrite <- Hid. eapply elem_of_delete_ids; eauto. }
  assert (Hnone : forall anyone,
            list_find (by_id_owner project_id anyone) (delete j db) = None).
  { intros anyone. apply list_find_None, Forall_forall.
    intros q Hq [Hq_id _]. now apply (Hgone q Hq). }
  split; [exact (delete_project_run _ _ _ _ _ Hfind) |].
  split; [reflexivity |].
  split; [exact Hgone |]. split; [| split].
  - intros q Hq Hne. apply list_elem_of_lookup in Hq as [k Hk].
    assert (k <> j) by (intros ->; rewrite Hj in Hk; congruence).
    destruct (decide (k < j)%nat) as [Hlt | Hge].
    + apply list_elem_of_lookup_2 with k.
      now rewrite list_lookup_delete_lt.
    + apply list_elem_of_lookup_2 with (pred k).
      rewrite list_lookup_delete_ge by lia.
      now replace (S (pred k)) with k by lia.
  - intros anyone. now apply get_project_not_found.
  - now apply delete_project_not_found.
Qed.

Lemma delete_project_removes_witness :
  delete_project "p1" "alice" sample_db = (Return "Project deleted", [garden])
  /\ get_project "p1" "alice" [garden] = not_found [garden].
Proof.
  destruct (delete_project_removes sample_db "p1" "alice" 1 launch)
    as (db' & Hrun & -> & _ & _ & Hget & _).
  - exact sample_db_ids.
  - reflexivity.
  - split; [exact Hrun | exact (Hget "alice")].
Defined.

(** ** Elements that are not there *)

Lemma task_index_None (task_id : string) (tasks : list Task.t) :
  task_index task_id tasks = None
  <-> Forall (fun t => Task.id t <> task_id) tasks.
Proof. unfold task_index. apply list_find_None. Qed.

Lemma milestone_index_None (milestone_id : string)
    (milestones : list Milestone.t) :
  milestone_index milestone_id milestones = None
  <-> Forall (fun m => Milestone.id m <> milestone_id) milestones.
Proof. unfold milestone_index. apply list_find_None. Qed.

(** X4.  On a selected project that has no task of the given id, the
    update of the task and the creation and the removal of a time entry
    answer 404 "Task not found"; with no milestone of the given id, the
    toggle answers 404 "Milestone not found".  The collection, with the
    project's [updated_at], is unchanged. *)
Theorem missing_element_is_404 (db : Db) (project_id owner : string)
    (j : nat) (p : Project.t) :
  list_find (by_id_owner project_id owner) db = Some (j, p) ->
  (forall task_id,
     Forall (fun t => Task.id t <> task_id) (Project.tasks p) ->
     (forall data now now',
        update_task project_id task_id data owner now now' db
        = (HTTPException 404 "Task not found", db))
     /\ (forall data new_id created now,
           add_time_entry project_id task_id data owner new_id created now db
           = (HTTPException 404 "Task not found", db))
     /\ (forall time_id now,
           delete_time_entry project_id task_id time_id owner now db
           = (HTTPException 404 "Task not found", db)))
  /\ (forall milestone_id,
        Forall (fun m => Milestone.id m <> milestone_id)
               (Project.milestones p) ->
        forall completed now now',
          update_milestone project_id milestone_id completed owner now now' db
          = (HTTPException 404 "Milestone not found", db)).
Proof.
  intros Hfind. split.
  - intros task_id Habs. apply task_index_None in Habs.
    split; [| split]; intros.
    + eapply update_task_missing; eauto.
    + eapply add_time_entry_missing; eauto.
    + eapply delete_time_entry_missing; eauto.
  - intros milestone_id Habs completed now now'.
    apply milestone_index_None in Habs.
    eapply update_milestone_missing; eauto.
Qed.

Lemma missing_element_is_404_witness :
  update_task "p1" "t7" no_patch "alice" "2024-02-01T00:00:00+00:00"
    "2024-02-01T00:00:00+00:00" sample_db
  = (HTTPException 404 "Task not found", sample_db)
  /\ update_milestone "p1" "m7" true "alice" "2024-02-01T00:00:00+00:00"
       "2024-02-01T00:00:00+00:00" sample_db
     = (HTTPException 404 "Milestone not found", sample_db).
Proof.
  destruct (missing_element_is_404 sample_db "p1" "alice" 1 launch)
    as [Htask Hmilestone]; [reflexivity |].
  split.
  - apply (Htask "t7"). repeat constructor. simpl. discriminate.
  - apply (Hmilestone "m7"). repeat constructor. simpl. discriminate.
Defined.

(** ** Creating and removing a task *)

(** X5.  [create_task] on a selected project appends the new task to the
    project's tasks and changes no other task and no milestone.  The task
    starts with status "todo", no [completed_at] and no time entries.
    Every task that could be located by its id before is located at the
    same position afterwards, and the new task is located by its id when
    no task of the project had that id. *)
Theorem create_task_appends (db : Db) (project_id owner : string)
    (data : TaskCreate.t) (new_id created now : string)
    (j : nat) (p : Project.t) :
  list_find (by_id_owner project_id owner) db = Some (j, p) ->
  exists task p',
    create_task project_id data owner new_id created now db
    = (Return task, <[j := p']> db)
    /\ Project.tasks p' = Project.tasks p ++ [task]
    /\ Project.milestones p' = Project.milestones p
    /\ Task.id task = new_id
    /\ Task.status task = "todo"
    /\ Task.completed_at task = None
    /\ Task.time_entries task = []
    /\ Task.created_at task = created
    /\ (forall old_id i t,
          task_index old_id (Project.tasks p) = Some (i, t) ->
          task_index old_id (Project.tasks p') = Some (i, t))
    /\ (new_id ∉ Task.id <$> Project.tasks p ->
        task_index new_id (Project.tasks p')
        = Some (length (Project.tasks p), task)).
Proof.
  intros Hfind.
  exists (new_task data new_id created),
         (push_task (new_task data new_id created) now p).
  split; [now apply create_task_run |].
  repeat split.
  - intros old_id i t Hold. unfold task_index in *. simpl.
    now apply list_find_app_l.
  - intros Hnew. unfold task_index. simpl.
    rewrite list_find_app_r.
    + simpl. rewrite decide_True by reflexivity. reflexivity.
    + apply list_find_None, Forall_forall. intros t Ht Hid. apply Hnew.
      rewrite <- Hid. now apply list_elem_of_fmap_2.
Qed.

Lemma create_task_appends_witness :
  exists task p',
    create_task "p1"
      {| TaskCreate.title := "Build";
         TaskCreate.description := None;
         TaskCreate.priority := "high";
         TaskCreate.due_date := None;
         TaskCreate.estimated_hours := None |}
      "alice" "t2" "2024-02-01T00:00:00+00:00" "2024-02-01T00:00:00+00:00"
      sample_db
    = (Return task, <[1%nat := p']> sample_db)
    /\ Project.tasks p' = [design; task]
    /\ task_index "t2" (Project.tasks p') = Some (1%nat, task).
Proof.
  destruct (create_task_appends sample_db "p1" "alice"
              {| TaskCreate.title := "Build";
                 TaskCreate.description := None;
                 TaskCreate.priority := "high";
                 TaskCreate.due_date := None;
                 TaskCreate.estimated_hours := None |}
              "t2" "2024-02-01T00:00:00+00:00" "2024-02-01T00:00:00+00:00"
              1 launch)
    as (task & p' & Hrun & Htasks & _ & _ & _ & _ & _ & _ & _ & Hnew);
    [reflexivity |].
  exists task, p'. split; [exact Hrun |]. split; [exact Htasks |].
  apply Hnew. refine (bool_decide_unpack _ _). vm_compute. exact I.
Defined.

Lemma filter_filter_same {A} (P : A -> Prop) `{!forall x, Decision (P x)}
    (l : list A) :
  filter P (filter P l) = filter P l.
Proof.
  apply filter_all, Forall_forall. intros x Hx.
  now apply list_elem_of_filter in Hx as [Hx _].
Qed.

(** X6.  [delete_task] on a selected project removes every task of the
    given id and keeps the other tasks in their order and the milestones.
    Afterwards the id locates no task, an update of it answers 404 "Task
    not found", and a second removal at the same time leaves the
    collection as the first one left it. *)
Theorem delete_task_removes (db : Db) (project_id task_id owner now : string)
    (j : nat) (p : Project.t) :
  list_find (by_id_owner project_id owner) db = Some (j, p) ->
  exists p' db',
    delete_task project_id task_id owner now db = (Return "Task deleted", db')
    /\ db' = <[j := p']> db
    /\ Project.tasks p'
       = filter (fun t => Task.id t <> task_id) (Project.tasks p)
    /\ Project.milestones p' = Project.milestones p
    /\ task_index task_id (Project.tasks p') = None
    /\ (forall data n n',
          update_task project_id task_id data owner n n' db'
          = (HTTPException 404 "Task not found", db'))
    /\ delete_task project_id task_id owner now db'
       = (Return "Task deleted", db').
Proof.
  intros Hfind. exists (pull_task task_id now p), (<[j := pull_task task_id now p]> db).
  assert (Hfind' : list_find (by_id_owner project_id owner)
                     (<[j := pull_task task_id now p]> db)
                   = Some (j, pull_task task_id now p))
    by (eapply find_after_update; eauto).
  assert (Hgone : task_index task_id (Project.tasks (pull_task task_id now p))
                  = None).
  { apply task_index_None, Forall_forall. intros t Ht. simpl in Ht.
    now apply list_elem_of_filter in Ht as [Ht _]. }
  split; [now apply delete_task_run |]. split; [reflexivity |].
  split; [reflexivity |]. split; [reflexivity |]. split; [exact Hgone |].
  split.
  - intros data n n'. eapply update_task_missing; eauto.
  - rewrite (delete_task_run _ _ _ _ _ Hfind'). f_equal.
    rewrite list_insert_insert_eq. f_equal.
    unfold pull_task, set_tasks. simpl. now rewrite filter_filter_same.
Qed.

Lemma delete_task_removes_witness :
  exists p',
    delete_task "p1" "t1" "alice" "2024-02-01T00:00:00+00:00" sample_db
    = (Return "Task deleted", [garden; p'])
    /\ Project.tasks p' = [].
Proof.
  destruct (delete_task_removes sample_db "p1" "t1" "alice"
              "2024-02-01T00:00:00+00:00" 1 launch)
    as (p' & db' & Hrun & -> & Htasks & _); [reflexivity |].
  exists p'. split; [exact Hrun | exact Htasks].
Defined.

(** ** Time entries and the minutes of the collection *)

Lemma minutes_entries_of (ts : list Task.t) :
  minutes (entries_of ts)
  = Zsum ((fun t => minutes (Task.time_entries t)) <$> ts).
Proof.
  induction ts as [| t ts IH]; [reflexivity |].
  change (entries_of (t :: ts)) with (Task.time_entries t ++ entries_of ts).
  now rewrite minutes_app, fmap_cons, Zsum_cons, IH.
Qed.

Lemma total_time_minutes_sum (db : Db) :
  total_time_minutes db = Zsum (project_minutes <$> db).
Proof.
  rewrite total_time_minutes_flat.
  induction db as [| p db IH]; [reflexivity |].
  change (all_tasks (p :: db)) with (Project.tasks p ++ all_tasks db).
  now rewrite entries_of_app, minutes_app, fmap_cons, Zsum_cons, IH.
Qed.

(** Replacing one term of a sum. *)
Lemma Zsum_insert {A} (f : A -> Z) (l : list A) (i : nat) (x y : A) :
  l !! i = Some x ->
  Zsum (f <$> <[i := y]> l) = Zsum (f <$> l) - f x + f y.
Proof.
  intros Hi.
  assert (Hl : Zsum (f <$> l)
               = Zsum (f <$> take i l) + (f x + Zsum (f <$> drop (S i) l))).
  { rewrite <- (take_drop_middle l i x Hi) at 1.
    now rewrite fmap_app, fmap_cons, Zsum_app, Zsum_cons. }
  rewrite insert_take_drop by (eapply lookup_lt_Some; eauto).
  rewrite fmap_app, fmap_cons, Zsum_app, Zsum_cons, Hl. lia.
Qed.

Lemma task_index_lookup (task_id : string) (tasks : list Task.t) i task :
  task_index task_id tasks = Some (i, task) ->
  tasks !! i = Some task /\ Task.id task = task_id.
Proof.
  unfold task_index. intros H.
  apply list_find_Some in H as (Hi & Hid & _). auto.
Qed.

(** X7.  [add_time_entry] on a located task appends the new entry to the
    entries of that task and leaves the task's other fields and the other
    tasks as they are; the minutes of the project and the minutes of the
    whole collection grow by the entry's [duration_minutes]. *)
Theorem add_time_entry_adds_minutes (db : Db)
    (project_id task_id owner : string) (data : TimeEntryCreate.t)
    (new_id created now : string) (j i : nat) (p : Project.t) (task : Task.t) :
  NoDup (Project.id <$> db) ->
  list_find (by_id_owner project_id owner) db = Some (j, p) ->
  task_index task_id (Project.tasks p) = Some (i, task) ->
  exists entry task' p' db',
    add_time_entry project_id task_id data owner new_id created now db
    = (Return entry, db')
    /\ db' = <[j := p']> db
    /\ Project.tasks p' = <[i := task']> (Project.tasks p)
    /\ Task.time_entries task' = Task.time_entries task ++ [entry]
    /\ Task.id task' = Task.id task
    /\ Task.title task' = Task.title task
    /\ Task.description task' = Task.description task
    /\ Task.priority task' = Task.priority task
    /\ Task.status task' = Task.status task
    /\ Task.due_date task' = Task.due_date task
    /\ Task.estimated_hours task' = Task.estimated_hours task
    /\ Task.created_at task' = Task.created_at task
    /\ Task.completed_at task' = Task.completed_at task
    /\ Project.milestones p' = Project.milestones p
    /\ TimeEntry.id entry = new_id
    /\ TimeEntry.duration_minutes entry = TimeEntryCreate.duration_minutes data
    /\ TimeEntry.date entry = TimeEntryCreate.date data
    /\ project_minutes p'
       = project_minutes p + TimeEntryCreate.duration_minutes data
    /\ total_time_minutes db'
       = total_time_minutes db + TimeEntryCreate.duration_minutes data.
Proof.
  intros Hnd Hfind Htask.
  set (entry := new_time_entry data new_id created).
  set (task' := set_time_entries (Task.time_entries task ++ [entry]) task).
  set (p' := set_tasks (<[i := task']> (Project.tasks p)) now p).
  exists entry, task', p', (<[j := p']> db).
  pose proof (task_index_lookup _ _ _ _ Htask) as [Hi _].
  pose proof Hfind as Hfound.
  apply list_find_Some in Hfound as (Hj & _ & _).
  assert (Hp : project_minutes p'
               = project_minutes p + TimeEntryCreate.duration_minutes data).
  { unfold project_minutes. simpl. rewrite !minutes_entries_of.
    rewrite (Zsum_insert _ _ _ task) by exact Hi. simpl.
    rewrite minutes_app, minutes_cons, minutes_nil. simpl. lia. }
  split; [eapply add_time_entry_run; eauto |].
  repeat split; try exact Hp.
  rewrite !total_time_minutes_sum.
  rewrite (Zsum_insert _ _ _ p) by exact Hj. lia.
Qed.

Lemma add_time_entry_adds_minutes_witness :
  exists entry db',
    add_time_entry "p1" "t1"
      {| TimeEntryCreate.description := None;
         TimeEntryCreate.duration_minutes := 45;
         TimeEntryCreate.date := "2024-01-03" |}
      "alice" "e9" "2024-02-01T00:00:00+00:00" "2024-02-01T00:00:00+00:00"
      sample_db
    = (Return entry, db')
    /\ total_time_minutes db' = total_time_minutes sample_db + 45.
Proof.
  destruct (add_time_entry_adds_minutes sample_db "p1" "t1" "alice"
              {| TimeEntryCreate.description := None;
                 TimeEntryCreate.duration_minutes := 45;
                 TimeEntryCreate.date := "2024-01-03" |}
              "e9" "2024-02-01T00:00:00+00:00" "2024-02-01T00:00:00+00:00"
              1 0 launch design)
    as (entry & task' & p' & db' & Hrun & _ & _ & _ & _ & _ & _ & _ & _ & _
        & _ & _ & _ & _ & _ & _ & _ & _ & Htotal).
  - exact sample_db_ids.
  - reflexivity.
  - reflexivity.
  - exists entry, db'. split; [exact Hrun | exact Htotal].
Defined.

Lemma minutes_filter_split (P : TimeEntry.t -> Prop)
    `{!forall x, Decision (P x)} (es : list TimeEntry.t) :
  minutes es = minutes (filter P es) + minutes (filter (fun e => ~ P e) es).
Proof.
  induction es as [| e es IH]; [reflexivity |].
  rewrite !filter_cons, minutes_cons.
  destruct (decide (P e)) as [HP | HP].
  - rewrite decide_False by tauto. rewrite minutes_cons. lia.
  - rewrite decide_True by exact HP. rewrite minutes_cons. lia.
Qed.

(** X8.  [delete_time_entry] on a located task removes every entry of
    the given id from that task and keeps the other entries in their order;
    the other fields of the task and the other tasks are as before.  When
    the task has no entry of that id the route still succeeds and the task
    is unchanged.  The minutes of the collection drop by the minutes of the
    removed entries. *)
Theorem delete_time_entry_removes (db : Db)
    (project_id task_id time_id owner now : string)
    (j i : nat) (p : Project.t) (task : Task.t) :
  NoDup (Project.id <$> db) ->
  list_find (by_id_owner project_id owner) db = Some (j, p) ->
  task_index task_id (Project.tasks p) = Some (i, task) ->
  exists task' p' db',
    delete_time_entry project_id task_id time_id owner now db
    = (Return "Time entry deleted", db')
    /\ db' = <[j := p']> db
    /\ Project.tasks p' = <[i := task']> (Project.tasks p)
    /\ Task.time_entries task'
       = filter (fun te => TimeEntry.id te <> time_id) (Task.time_entries task)
    /\ Task.id task' = Task.id task
    /\ Task.title task' = Task.title task
    /\ Task.description task' = Task.description task
    /\ Task.priority task' = Task.priority task
    /\ Task.status task' = Task.status task
    /\ Task.due_date task' = Task.due_date task
    /\ Task.estimated_hours task' = Task.estimated_hours task
    /\ Task.created_at task' = Task.created_at task
    /\ Task.completed_at task' = Task.completed_at task
    /\ Project.milestones p' = Project.milestones p
    /\ (Forall (fun te => TimeEntry.id te <> time_id) (Task.time_entries task)
        -> task' = task /\ Project.tasks p' = Project.tasks p)
    /\ total_time_minutes db'
       = total_time_minutes db
         - minutes (filter (fun te => TimeEntry.id te = time_id)
                           (Task.time_entries task)).
Proof.
  intros Hnd Hfind Htask.
  set (task' := set_time_entries
                  (filter (fun te => TimeEntry.id te <> time_id)
                          (Task.time_entries task)) task).
  set (p' := set_tasks (<[i := task']> (Project.tasks p)) now p).
  exists task', p', (<[j := p']> db).
  pose proof (task_index_lookup _ _ _ _ Htask) as [Hi _].
  pose proof Hfind as Hfound.
  apply list_find_Some in Hfound as (Hj & _ & _).
  split; [eapply delete_time_entry_run; eauto |].
  repeat split.
  - subst task'. rewrite filter_all by assumption. now destruct task.
  - simpl. subst task'. rewrite filter_all by assumption.
    apply list_insert_id. rewrite Hi. now destruct task.
  - rewrite !total_time_minutes_sum.
    rewrite (Zsum_insert _ _ _ p) by exact Hj.
    unfold project_minutes. simpl. rewrite !minutes_entries_of.
    rewrite (Zsum_insert _ _ _ task) by exact Hi. simpl.
    rewrite (minutes_filter_split (fun te => TimeEntry.id te = time_id)
               (Task.time_entries task)).
    lia.
Qed.

Lemma delete_time_entry_removes_witness :
  exists db',
    delete_time_entry "p1" "t1" "e1" "alice" "2024-02-01T00:00:00+00:00"
      sample_db
    = (Return "Time entry deleted", db')
    /\ total_time_minutes db' = total_time_minutes sample_db - 60.
Proof.
  destruct (delete_time_entry_removes sample_db "p1" "t1" "e1" "alice"
              "2024-02-01T00:00:00+00:00" 1 0 launch design)
    as (task' & p' & db' & Hrun & _ & _ & _ & _ & _ & _ & _ & _ & _ & _ & _
        & _ & _ & _ & Htotal).
  - exact sample_db_ids.
  - reflexivity.
  - reflexivity.
  - exists db'. split; [exact Hrun | exact Htotal].
Defined.

(** ** Every request is a step of the collection *)

Lemma fresh_task_in_project (db : Db) (j : nat) (p : Project.t)
    (new_id : string) :
  new_id ∉ task_ids db -> db !! j = Some p ->
  new_id ∉ Task.id <$> Project.tasks p.
Proof.
  intros Hnew Hj Hin. apply Hnew.
  apply list_elem_of_fmap in Hin as (t & -> & Ht).
  apply list_elem_of_fmap_2. unfold all_tasks.
  apply list_elem_of_bind. exists p. split; [exact Ht |].
  eapply list_elem_of_lookup_2; eauto.
Qed.

Lemma fresh_milestone_in_project (db : Db) (j : nat) (p : Project.t)
    (new_id : string) :
  new_id ∉ milestone_ids db -> db !! j = Some p ->
  new_id ∉ Milestone.id <$> Project.milestones p.
Proof.
  intros Hnew Hj Hin. apply Hnew. unfold milestone_ids.
  apply list_elem_of_bind. exists p. split; [exact Hin |].
  eapply list_elem_of_lookup_2; eauto.
Qed.

Lemma fresh_entry_in_task (db : Db) (j i : nat) (p : Project.t)
    (task : Task.t) (new_id : string) :
  new_id ∉ time_entry_ids db -> db !! j = Some p ->
  Project.tasks p !! i = Some task ->
  new_id ∉ TimeEntry.id <$> Task.time_entries task.
Proof.
  intros Hnew Hj Hi Hin. apply Hnew.
  apply list_elem_of_fmap in Hin as (te & -> & Hte).
  apply list_elem_of_fmap_2. unfold entries_of, all_tasks.
  apply list_elem_of_bind. exists task. split; [exact Hte |].
  apply list_elem_of_bind. exists p. split.
  - eapply list_elem_of_lookup_2; eauto.
  - eapply list_elem_of_lookup_2; eauto.
Qed.

Lemma serve_step (allowed : TaskUpdate.t -> Prop) (r : Request) (db : Db) :
  (forall data, patch_of r = Some data -> allowed data) ->
  NoDup (Project.id <$> db) -> fresh r db -> db_step allowed db (serve r db).
Proof.
  intros Hallowed Hnd Hfresh.
  destruct r as [data owner new_id now
                | pid data owner now
                | pid owner
                | pid data owner new_id created now
                | pid tid data owner now now'
                | pid tid owner now
                | pid tid data owner new_id created now
                | pid tid time_id owner now
                | pid data owner new_id now
                | pid mid completed owner now now'
                | pid mid owner now];
    simpl in *;
    try (now apply db_created);
    destruct (list_find (by_id_owner pid owner) db) as [[j p] |] eqn:Hfind;
    try (pose proof Hfind as Hfound;
         apply list_find_Some in Hfound as (Hj & _ & _)).
  - rewrite (update_project_run _ _ _ _ _ Hfind).
    eapply db_changed; [exact Hj | constructor].
  - rewrite update_project_not_found by exact Hfind. constructor.
  - rewrite (delete_project_run _ _ _ _ _ Hfind). eapply db_deleted; eauto.
  - rewrite delete_project_not_found by exact Hfind. constructor.
  - rewrite (create_task_run _ _ _ _ _ Hfind).
    eapply db_changed; [exact Hj |]. constructor.
    eapply fresh_task_in_project; eauto.
  - rewrite create_task_not_found by exact Hfind. constructor.
  - destruct (task_index tid (Project.tasks p)) as [[i task] |] eqn:Htask.
    + rewrite (update_task_run _ _ _ _ _ Hfind Hnd _ _ _ _ _ _ Htask).
      eapply db_changed; [exact Hj |]. econstructor; [| exact Htask].
      now apply Hallowed.
    + rewrite (update_task_missing _ _ _ _ _ Hfind _ _ _ _ Htask).
      constructor.
  - rewrite update_task_not_found by exact Hfind. constructor.
  - rewrite (delete_task_run _ _ _ _ _ Hfind).
    eapply db_changed; [exact Hj | constructor].
  - rewrite delete_task_not_found by exact Hfind. constructor.
  - destruct (task_index tid (Project.tasks p)) as [[i task] |] eqn:Htask.
    + rewrite (add_time_entry_run _ _ _ _ _ Hfind Hnd _ _ _ _ _ _ _ Htask).
      eapply db_changed; [exact Hj |]. econstructor; [exact Htask |].
      apply task_index_lookup in Htask as [Hi _].
      eapply fresh_entry_in_task; eauto.
    + rewrite (add_time_entry_missing _ _ _ _ _ Hfind _ _ _ _ _ Htask).
      constructor.
  - rewrite add_time_entry_not_found by exact Hfind. constructor.
  - destruct (task_index tid (Project.tasks p)) as [[i task] |] eqn:Htask.
    + rewrite (delete_time_entry_run _ _ _ _ _ Hfind Hnd _ _ _ _ _ Htask).
      eapply db_changed; [exact Hj |]. econstructor; eauto.
    + rewrite (delete_time_entry_missing _ _ _ _ _ Hfind _ _ _ Htask).
      constructor.
  - rewrite delete_time_entry_not_found by exact Hfind. constructor.
  - rewrite (create_milestone_run _ _ _ _ _ Hfind).
    eapply db_changed; [exact Hj |]. constructor.
    eapply fresh_milestone_in_project; eauto.
  - rewrite create_milestone_not_found by exact Hfind. constructor.
  - destruct (milestone_index mid (Project.milestones p))
      as [[i m] |] eqn:Hm.
    + rewrite (update_milestone_run _ _ _ _ _ Hfind Hnd _ _ _ _ _ _ Hm).
      eapply db_changed; [exact Hj |]. econstructor; eauto.
    + rewrite (update_milestone_missing _ _ _ _ _ Hfind _ _ _ _ Hm).
      constructor.
  - rewrite update_milestone_not_found by exact Hfind. constructor.
  - rewrite (delete_milestone_run _ _ _ _ _ Hfind).
    eapply db_changed; [exact Hj | constructor].
  - rewrite delete_milestone_not_found by exact Hfind. constructor.
Qed.

(** A step in a project keeps its id, its owner and its creation time. *)
Lemma project_step_identity allowed (p p' : Project.t) :
  project_step allowed p p' ->
  Project.id p' = Project.id p
  /\ Project.owner_id p' = Project.owner_id p
  /\ Project.created_at p' = Project.created_at p.
Proof. destruct 1; repeat split. Qed.

Lemma db_step_ids_distinct allowed (db db' : Db) :
  db_step allowed db db' -> NoDup (Project.id <$> db) -> NoDup (Project.id <$> db').
Proof.
  intros Hstep Hnd. destruct Hstep as [| data owner new_id now Hnew
                                       | j p Hj | j p p' Hj Hp].
  - exact Hnd.
  - rewrite fmap_app. apply NoDup_app. split; [exact Hnd |]. split.
    + intros x Hx Hx'. apply list_elem_of_singleton in Hx'. now subst x.
    + apply NoDup_singleton.
  - rewrite list_fmap_delete.
    eapply sublist_NoDup; [exact Hnd | apply sublist_delete].
  - apply project_step_identity in Hp as (Hid & _).
    rewrite list_fmap_insert, Hid.
    rewrite list_insert_id; [exact Hnd |].
    now rewrite list_lookup_fmap, Hj.
Qed.

(** A property of projects that new projects have and steps keep holds
    for every project of a collection after a step. *)
Lemma db_step_Forall allowed (ok : Project.t -> Prop) (db db' : Db) :
  (forall data owner new_id now, ok (new_project data owner new_id now)) ->
  (forall p p', project_step allowed p p' -> ok p -> ok p') ->
  db_step allowed db db' -> Forall ok db -> Forall ok db'.
Proof.
  intros Hnew Hkeep Hstep Hall.
  destruct Hstep as [| data owner new_id now _ | j p Hj | j p p' Hj Hp].
  - exact Hall.
  - apply Forall_app. split; [exact Hall |]. repeat constructor. apply Hnew.
  - now apply Forall_delete.
  - apply Forall_insert; [exact Hall |].
    eapply Hkeep; [exact Hp |]. eapply Forall_lookup_1; eauto.
Qed.

(** ** Invariants of the reachable collections *)

Lemma fmap_insert_same {A B} (f : A -> B) (l : list A) (i : nat) (x y : A) :
  l !! i = Some x -> f y = f x -> f <$> <[i := y]> l = f <$> l.
Proof.
  intros Hi Hf. rewrite list_fmap_insert, Hf.
  apply list_insert_id. now rewrite list_lookup_fmap, Hi.
Qed.

Lemma NoDup_fmap_filter {A B} (f : A -> B) (P : A -> Prop)
    `{!forall x, Decision (P x)} (l : list A) :
  NoDup (f <$> l) -> NoDup (f <$> filter P l).
Proof.
  intros Hnd. eapply sublist_NoDup; [exact Hnd |].
  apply fmap_sublist, sublist_filter.
Qed.

Lemma NoDup_fmap_snoc {A B} (f : A -> B) (l : list A) (x : A) :
  NoDup (f <$> l) -> f x ∉ f <$> l -> NoDup (f <$> (l ++ [x])).
Proof.
  intros Hnd Hnew. rewrite fmap_app. apply NoDup_app.
  split; [exact Hnd |]. split; [| apply NoDup_singleton].
  intros y Hy Hy'. apply list_elem_of_singleton in Hy'. now subst y.
Qed.

Lemma Forall_filter_keep {A} (Q P : A -> Prop) `{!forall x, Decision (P x)}
    (l : list A) :
  Forall Q l -> Forall Q (filter P l).
Proof.
  intros Hall. apply Forall_forall. intros x Hx.
  apply list_elem_of_filter in Hx as [_ Hx].
  rewrite Forall_forall in Hall. auto.
Qed.

Lemma step_nested_ids_distinct allowed (p p' : Project.t) :
  project_step allowed p p' ->
  nested_ids_distinct p -> nested_ids_distinct p'.
Proof.
  intros Hstep (Ht & Hm & He).
  destruct Hstep as [data now p
                    | data new_id created now p Hnew
                    | tid data now now' i task p _ Htask
                    | tid now p
                    | tid data new_id created now i task p Htask Hnew
                    | tid time_id now i task p Htask
                    | data new_id now p Hnew
                    | mid completed now now' i m p Hmil
                    | mid now p];
    unfold nested_ids_distinct; simpl.
  - auto.
  - split; [now apply NoDup_fmap_snoc |]. split; [exact Hm |].
    apply Forall_app. split; [exact He |]. repeat constructor.
  - apply task_index_lookup in Htask as [Hi _].
    rewrite (fmap_insert_same Task.id _ _ task) by (exact Hi || reflexivity).
    split; [exact Ht |]. split; [exact Hm |].
    apply Forall_insert; [exact He |]. simpl.
    eapply (Forall_lookup_1 _ _ _ _ He Hi).
  - split; [now apply NoDup_fmap_filter |]. split; [exact Hm |].
    now apply Forall_filter_keep.
  - apply task_index_lookup in Htask as [Hi _].
    rewrite (fmap_insert_same Task.id _ _ task) by (exact Hi || reflexivity).
    split; [exact Ht |]. split; [exact Hm |].
    apply Forall_insert; [exact He |]. simpl.
    apply NoDup_fmap_snoc; [| exact Hnew].
    eapply (Forall_lookup_1 _ _ _ _ He Hi).
  - apply task_index_lookup in Htask as [Hi _].
    rewrite (fmap_insert_same Task.id _ _ task) by (exact Hi || reflexivity).
    split; [exact Ht |]. split; [exact Hm |].
    apply Forall_insert; [exact He |]. simpl.
    apply NoDup_fmap_filter.
    eapply (Forall_lookup_1 _ _ _ _ He Hi).
  - split; [exact Ht |]. split; [| exact He].
    now apply NoDup_fmap_snoc.
  - unfold milestone_index in Hmil.
    apply list_find_Some in Hmil as (Hi & _ & _).
    rewrite (fmap_insert_same Milestone.id _ _ m)
      by (exact Hi || reflexivity).
    auto.
  - split; [exact Ht |]. split; [| exact He].
    now apply NoDup_fmap_filter.
Qed.

(** The merge of a patch keeps "done has a completion time". *)
Lemma apply_task_update_done_has_time (data : TaskUpdate.t) (now : string)
    (task : Task.t) :
  done_has_time task -> done_has_time (apply_task_update data now task).
Proof.
  unfold done_has_time, apply_task_update, completed_at_update. simpl.
  intros Hok Hdone.
  destruct (TaskUpdate.status data) as [s |] eqn:Hs; simpl in *;
    [| now apply Hok].
  subst s. repeat case_bool_decide; simpl; try congruence.
  apply Hok. destruct (decide (Task.status task = "done")); tauto.
Qed.

(** The merge of a patch that does not set the empty status keeps "a
    completion time only when done". *)
Lemma apply_task_update_time_only_when_done (data : TaskUpdate.t)
    (now : string) (task : Task.t) :
  no_empty_status data ->
  time_only_when_done task ->
  time_only_when_done (apply_task_update data now task).
Proof.
  unfold no_empty_status, time_only_when_done, apply_task_update,
    completed_at_update. simpl.
  intros Hne Hok.
  destruct (TaskUpdate.status data) as [s |] eqn:Hs; simpl;
    [| exact Hok].
  destruct (decide (s = "done")) as [-> | Hdone]; [reflexivity |].
  assert (Hs' : String.eqb s "" = false)
    by (apply String.eqb_neq; congruence).
  rewrite Hs'. repeat case_bool_decide; simpl; try congruence.
Qed.

Lemma step_tasks_Forall allowed (ok : Task.t -> Prop) (p p' : Project.t) :
  (forall data new_id created, ok (new_task data new_id created)) ->
  (forall data now task, allowed data -> ok task ->
     ok (apply_task_update data now task)) ->
  (forall entries task, ok task -> ok (set_time_entries entries task)) ->
  project_step allowed p p' ->
  Forall ok (Project.tasks p) -> Forall ok (Project.tasks p').
Proof.
  intros Hnew Hupd Hent Hstep Hall.
  destruct Hstep as [data now p
                    | data new_id created now p Hfresh
                    | tid data now now' i task p Hallow Htask
                    | tid now p
                    | tid data new_id created now i task p Htask Hfresh
                    | tid time_id now i task p Htask
                    | data new_id now p Hfresh
                    | mid completed now now' i m p Hmil
                    | mid now p];
    simpl; try exact Hall.
  - apply Forall_app. split; [exact Hall |]. repeat constructor. apply Hnew.
  - apply task_index_lookup in Htask as [Hi _].
    apply Forall_insert; [exact Hall |]. apply Hupd; [exact Hallow |].
    eapply Forall_lookup_1; eauto.
  - now apply Forall_filter_keep.
  - apply task_index_lookup in Htask as [Hi _].
    apply Forall_insert; [exact Hall |]. apply Hent.
    eapply Forall_lookup_1; eauto.
  - apply task_index_lookup in Htask as [Hi _].
    apply Forall_insert; [exact Hall |]. apply Hent.
    eapply Forall_lookup_1; eauto.
Qed.

Lemma step_milestones_consistent allowed (p p' : Project.t) :
  project_step allowed p p' ->
  Forall milestone_consistent (Project.milestones p) ->
  Forall milestone_consistent (Project.milestones p').
Proof.
  intros Hstep Hall.
  destruct Hstep as [data now p
                    | data new_id created now p Hfresh
                    | tid data now now' i task p Hallow Htask
                    | tid now p
                    | tid data new_id created now i task p Htask Hfresh
                    | tid time_id now i task p Htask
                    | data new_id now p Hfresh
                    | mid completed now now' i m p Hmil
                    | mid now p];
    simpl; try exact Hall.
  - apply Forall_app. split; [exact Hall |].
    constructor; [| constructor].
    unfold milestone_consistent. simpl. split; [discriminate | tauto].
  - apply Forall_insert; [exact Hall |].
    unfold milestone_consistent. simpl.
    destruct completed; split; try discriminate; tauto.
  - now apply Forall_filter_keep.
Qed.

(** Everything the reachable collections have in common. *)
Lemma reachable_invariants (db : Db) :
  reachable db ->
  NoDup (Project.id <$> db)
  /\ Forall nested_ids_distinct db
  /\ Forall (fun p => Forall done_has_time (Project.tasks p)) db
  /\ Forall (fun p => Forall milestone_consistent (Project.milestones p)) db.
Proof.
  induction 1 as [| r db Hreach (Hids & Hnested & Hdone & Hmil) Hfresh].
  - repeat split; constructor.
  - pose proof (serve_step (fun _ => True) r db (fun _ _ => I) Hids Hfresh)
      as Hstep.
    split; [eapply db_step_ids_distinct; eauto |].
    split; [| split].
    + eapply db_step_Forall; [| | exact Hstep | exact Hnested].
      * intros. repeat split; constructor.
      * intros p p' Hp. eapply step_nested_ids_distinct; eauto.
    + eapply db_step_Forall; [| | exact Hstep | exact Hdone].
      * intros. constructor.
      * intros p p' Hp. eapply step_tasks_Forall; [| | | exact Hp].
        -- intros. unfold done_has_time. simpl. discriminate.
        -- intros. now apply apply_task_update_done_has_time.
        -- intros entries task Hok. exact Hok.
    + eapply db_step_Forall; [| | exact Hstep | exact Hmil].
      * intros. constructor.
      * intros p p' Hp. eapply step_milestones_consistent; eauto.
Qed.

Lemma scenario_reachable : reachable scenario_db.
Proof.
  unfold scenario_db, scenario_requests. cbn [foldl].
  repeat (apply reachable_serve;
          [| refine (bool_decide_unpack _ _); vm_compute; exact I]).
  apply reachable_empty.
Defined.

Lemma serve_keeps_project_ids (r : Request) (db : Db) :
  fresh_project r db ->
  NoDup (Project.id <$> db) -> NoDup (Project.id <$> serve r db).
Proof.
  intros Hfresh Hnd.
  destruct r as [data owner new_id now | project_id data owner now
                 | project_id owner
                 | project_id data owner new_id created now
                 | project_id task_id data owner now now'
                 | project_id task_id owner now
                 | project_id task_id data owner new_id created now
                 | project_id task_id time_id owner now
                 | project_id data owner new_id now
                 | project_id milestone_id completed owner now now'
                 | project_id milestone_id owner now];
    simpl in *;
    try (destruct (routes_keep_ids db project_id owner)
           as (H1 & H2 & H3 & H4 & H5 & H6 & H7 & H8 & H9)).
  - unfold create_project, bind, insert_one, ret. simpl.
    rewrite fmap_app. apply NoDup_app. split; [exact Hnd |]. split.
    + intros x Hx Hx'. apply list_elem_of_singleton in Hx'. now subst x.
    + apply NoDup_singleton.
  - now rewrite H1.
  - unfold delete_project, bind, delete_one.
    destruct (list_find _ db) as [[k q] |]; simpl; [| exact Hnd].
    rewrite list_fmap_delete.
    eapply sublist_NoDup; [exact Hnd | apply sublist_delete].
  - now rewrite H2.
  - now rewrite H3.
  - now rewrite H4.
  - now rewrite H5.
  - now rewrite H6.
  - now rewrite H7.
  - now rewrite H8.
  - now rewrite H9.
Qed.

Lemma crowded_served : served crowded_db.
Proof.
  unfold crowded_db, crowded_requests, busy_requests. cbn [foldl app].
  repeat (apply served_next;
          [| refine (bool_decide_unpack _ _); vm_compute; exact I]).
  apply served_empty.
Defined.

(** X9.  Whatever requests the server has served since the collection
    was empty, no two projects of the collection share an id, provided
    that each uuid drawn for a new project was the id of no project then;
    nothing is asked of the uuids of tasks, time entries and milestones,
    and the id of a deleted project may be drawn again. *)
Theorem reachable_project_ids_distinct (db : Db) :
  served db -> NoDup (Project.id <$> db).
Proof.
  induction 1 as [| r db _ IH Hfresh]; [constructor |].
  now apply serve_keeps_project_ids.
Qed.

Lemma reachable_project_ids_distinct_witness :
  Project.id <$> crowded_db = ["p1"; "p2"; "p3"]
  /\ NoDup (Project.id <$> crowded_db).
Proof.
  split; [vm_compute; reflexivity |].
  apply reachable_project_ids_distinct. exact crowded_served.
Defined.

(** X10.  In every collection the server can reach, the tasks of a
    project have distinct ids, its milestones have distinct ids, and the
    time entries of a task have distinct ids. *)
Theorem reachable_nested_ids_distinct (db : Db) (p : Project.t) :
  reachable db -> p ∈ db ->
  NoDup (Task.id <$> Project.tasks p)
  /\ NoDup (Milestone.id <$> Project.milestones p)
  /\ (forall t, t ∈ Project.tasks p ->
        NoDup (TimeEntry.id <$> Task.time_entries t)).
Proof.
  intros Hreach Hp.
  apply reachable_invariants in Hreach as (_ & Hnested & _).
  rewrite Forall_forall in Hnested.
  destruct (Hnested p Hp) as (Ht & Hm & He).
  split; [exact Ht |]. split; [exact Hm |].
  now rewrite Forall_forall in He.
Qed.


Lemma busy_reachable : reachable busy_db.
Proof.
  unfold busy_db, busy_requests. cbn [foldl].
  repeat (apply reachable_serve;
          [| refine (bool_decide_unpack _ _); vm_compute; exact I]).
  apply reachable_empty.
Defined.

Lemma reachable_nested_ids_distinct_witness :
  exists p t,
    busy_db !! 0%nat = Some p
    /\ Project.tasks p !! 0%nat = Some t
    /\ Task.id <$> Project.tasks p = ["t1"; "t2"]
    /\ Milestone.id <$> Project.milestones p = ["m1"; "m2"]
    /\ TimeEntry.id <$> Task.time_entries t = ["e1"; "e2"]
    /\ NoDup (Task.id <$> Project.tasks p)
    /\ NoDup (Milestone.id <$> Project.milestones p)
    /\ NoDup (TimeEntry.id <$> Task.time_entries t).
Proof.
  eexists. eexists.
  split; [vm_compute; reflexivity |].
  split; [vm_compute; reflexivity |].
  split; [vm_compute; reflexivity |].
  split; [vm_compute; reflexivity |].
  split; [vm_compute; reflexivity |].
  match goal with
  | |- NoDup (Task.id <$> Project.tasks ?p) /\ _ /\
       NoDup (TimeEntry.id <$> Task.time_entries ?t) =>
      destruct (reachable_nested_ids_distinct busy_db p busy_reachable)
        as (Ht & Hm & He);
      [| split; [exact Ht |]; split; [exact Hm |]; apply (He t)]
  end.
  - apply list_elem_of_lookup_2 with 0%nat. vm_compute. reflexivity.
  - apply list_elem_of_lookup_2 with 0%nat. vm_compute. reflexivity.
Defined.

(** X11.  In every collection the server can reach, a task whose status
    is "done" has a [completed_at]. *)
Theorem reachable_done_has_completed_at (db : Db) (p : Project.t)
    (t : Task.t) :
  reachable db -> p ∈ db -> t ∈ Project.tasks p ->
  Task.status t = "done" -> Task.completed_at t <> None.
Proof.
  intros Hreach Hp Ht.
  apply reachable_invariants in Hreach as (_ & _ & Hdone & _).
  rewrite Forall_forall in Hdone. specialize (Hdone p Hp).
  rewrite Forall_forall in Hdone. exact (Hdone t Ht).
Qed.

Lemma reachable_done_has_completed_at_witness :
  exists p t,
    scenario_db !! 0%nat = Some p /\ Project.tasks p !! 0%nat = Some t
    /\ Task.status t = "done" /\ Task.completed_at t <> None.
Proof.
  eexists. eexists. split; [vm_compute; reflexivity |].
  split; [vm_compute; reflexivity |]. split; [reflexivity |].
  eapply (reachable_done_has_completed_at scenario_db _ _ scenario_reachable).
  - apply list_elem_of_lookup_2 with 0%nat. vm_compute. reflexivity.
  - apply list_elem_of_lookup_2 with 0%nat. reflexivity.
  - reflexivity.
Defined.

(** X12.  In every collection the server can reach, a milestone is
    completed exactly when it has a [completed_at]. *)
Theorem reachable_milestone_consistent (db : Db) (p : Project.t)
    (m : Milestone.t) :
  reachable db -> p ∈ db -> m ∈ Project.milestones p ->
  Milestone.completed m = true <-> Milestone.completed_at m <> None.
Proof.
  intros Hreach Hp Hm.
  apply reachable_invariants in Hreach as (_ & _ & _ & Hmil).
  rewrite Forall_forall in Hmil. specialize (Hmil p Hp).
  rewrite Forall_forall in Hmil. exact (Hmil m Hm).
Qed.

Lemma reachable_milestone_consistent_witness :
  exists p m,
    scenario_db !! 0%nat = Some p /\ Project.milestones p !! 0%nat = Some m
    /\ (Milestone.completed m = true <-> Milestone.completed_at m <> None).
Proof.
  eexists. eexists. split; [vm_compute; reflexivity |].
  split; [vm_compute; reflexivity |].
  eapply (reachable_milestone_consistent scenario_db _ _ scenario_reachable).
  - apply list_elem_of_lookup_2 with 0%nat. vm_compute. reflexivity.
  - apply list_elem_of_lookup_2 with 0%nat. reflexivity.
Defined.

(** X13.  As long as no task update sets the empty string as status,
    requests keep this: a task has a [completed_at] only when its status is
    "done". *)
Theorem completed_at_only_when_done_kept (r : Request) (db : Db) :
  NoDup (Project.id <$> db) -> fresh r db ->
  (forall data, patch_of r = Some data -> TaskUpdate.status data <> Some "") ->
  Forall (fun p => Forall time_only_when_done (Project.tasks p)) db ->
  Forall (fun p => Forall time_only_when_done (Project.tasks p)) (serve r db).
Proof.
  intros Hids Hfresh Hpatch Hall.
  pose proof (serve_step no_empty_status r db Hpatch Hids Hfresh) as Hstep.
  eapply db_step_Forall; [| | exact Hstep | exact Hall].
  - intros. constructor.
  - intros p p' Hp. eapply step_tasks_Forall; [| | | exact Hp].
    + intros. unfold time_only_when_done. simpl. intros H. now contradiction H.
    + intros. now apply apply_task_update_time_only_when_done.
    + intros entries task Hok. exact Hok.
Qed.

Lemma completed_at_only_when_done_kept_witness :
  Forall (fun p => Forall time_only_when_done (Project.tasks p))
    (serve (UpdateTask "p1" "t1" (status_patch "in_progress") "alice"
              "2024-02-01T00:00:00+00:00" "2024-02-01T00:00:00+00:00")
           sample_db).
Proof.
  apply completed_at_only_when_done_kept.
  - exact sample_db_ids.
  - exact I.
  - intros data Hdata. injection Hdata as <-. simpl. discriminate.
  - repeat constructor.
Defined.

Lemma same_id_same_project (db : Db) (q q' : Project.t) :
  NoDup (Project.id <$> db) -> q ∈ db -> q' ∈ db ->
  Project.id q' = Project.id q -> q' = q.
Proof.
  intros Hnd Hq Hq' Hid.
  apply list_elem_of_lookup in Hq as [i Hi].
  apply list_elem_of_lookup in Hq' as [k Hk].
  assert (k = i) by (eapply lookup_same_id; eauto). subst k. congruence.
Qed.

(** X14.  No request changes the owner or the creation time of a
    project: a project of the collection after the request that has the id
    of a project before it has that project's owner and [created_at]. *)
Theorem requests_keep_owner (r : Request) (db : Db) (q q' : Project.t) :
  NoDup (Project.id <$> db) -> fresh r db ->
  q ∈ db -> q' ∈ serve r db -> Project.id q' = Project.id q ->
  Project.owner_id q' = Project.owner_id q
  /\ Project.created_at q' = Project.created_at q.
Proof.
  intros Hids Hfresh Hq Hq' Hid.
  pose proof (serve_step (fun _ => True) r db (fun _ _ => I) Hids Hfresh)
    as Hstep.
  destruct Hstep as [| data owner new_id now Hnew | j p Hj | j p p' Hj Hp].
  - now rewrite (same_id_same_project db q q').
  - apply elem_of_app in Hq' as [Hq' | Hq'].
    + now rewrite (same_id_same_project db q q').
    + apply list_elem_of_singleton in Hq'. subst q'. simpl in Hid.
      exfalso. apply Hnew. rewrite Hid. now apply list_elem_of_fmap_2.
  - destruct (elem_of_delete_ids db j p q' Hids Hj Hq') as [Hin _].
    now rewrite (same_id_same_project db q q').
  - apply list_elem_of_lookup in Hq' as [k Hk].
    destruct (decide (k = j)) as [-> | Hne].
    + rewrite list_lookup_insert_eq in Hk by (eapply lookup_lt_Some; eauto).
      injection Hk as <-.
      apply project_step_identity in Hp as (Hpid & Hown & Hcreated).
      assert (p = q).
      { apply (same_id_same_project db q p Hids Hq).
        - eapply list_elem_of_lookup_2; eauto.
        - congruence. }
      subst q. auto.
    + rewrite list_lookup_insert_ne in Hk by congruence.
      assert (q' ∈ db) by (eapply list_elem_of_lookup_2; eauto).
      now rewrite (same_id_same_project db q q').
Qed.

Lemma requests_keep_owner_witness :
  exists q',
    serve (UpdateProject "p1" (rename "Relaunch") "alice"
             "2024-02-01T00:00:00+00:00") sample_db !! 1%nat = Some q'
    /\ Project.name q' = "Relaunch"
    /\ Project.owner_id q' = "alice".
Proof.
  eexists. split; [vm_compute; reflexivity |]. split; [reflexivity |].
  eapply (requests_keep_owner
            (UpdateProject "p1" (rename "Relaunch") "alice"
               "2024-02-01T00:00:00+00:00") sample_db launch).
  - exact sample_db_ids.
  - exact I.
  - apply list_elem_of_lookup_2 with 1%nat. reflexivity.
  - apply list_elem_of_lookup_2 with 1%nat. vm_compute. reflexivity.
  - reflexivity.
Defined.

(* ================================================================= *)
(** * Further properties of the analytics *)

(** ** The counts of the overview *)

Lemma sum_over_documents {A} (g : Project.t -> list A) (f : list A -> Z)
    (projects : list Project.t) :
  f [] = 0 -> (forall xs ys, f (xs ++ ys) = f xs + f ys) ->
  py_sum ((fun p => f (g p)) <$> projects) = f (projects ≫= g).
Proof.
  intros Hnil Happ. rewrite py_sum_Zsum.
  induction projects as [| p ps IH].
  - simpl. now rewrite Hnil.
  - rewrite fmap_cons, Zsum_cons, IH.
    change ((p :: ps) ≫= g) with (g p ++ (ps ≫= g)).
    now rewrite Happ.
Qed.

Lemma len_filter_le {A} (P : A -> Prop) `{!forall x, Decision (P x)}
    (xs : list A) :
  0 <= len (filter P xs) <= len xs.
Proof. unfold len. pose proof (length_filter P xs). lia. Qed.

Lemma len_three_way {A} (P Q : A -> Prop) `{!forall x, Decision (P x)}
    `{!forall x, Decision (Q x)} (xs : list A) :
  (forall x, P x -> Q x -> False) ->
  len xs = len (filter P xs) + len (filter Q xs)
           + len (filter (fun x => ~ P x /\ ~ Q x) xs).
Proof.
  intros Hdisj. unfold len.
  induction xs as [| x xs IH]; [reflexivity |].
  rewrite !filter_cons.
  destruct (decide (P x)) as [HP | HP], (decide (Q x)) as [HQ | HQ].
  - exfalso. eauto.
  - rewrite decide_False by tauto. simpl length. lia.
  - rewrite decide_False by tauto. simpl length. lia.
  - rewrite decide_True by tauto. simpl length. lia.
Qed.

Lemma len_two_filters {A} (P Q : A -> Prop) `{!forall x, Decision (P x)}
    `{!forall x, Decision (Q x)} (xs : list A) :
  (forall x, P x -> Q x -> False) ->
  len (filter P xs) + len (filter Q xs) <= len xs.
Proof.
  intros Hdisj. rewrite (len_three_way P Q xs Hdisj).
  pose proof (len_filter_le (fun x => ~ P x /\ ~ Q x) xs). lia.
Qed.

(** X15.  In the overview, [todo_tasks] is the number of scanned tasks
    whose status is neither "done" nor "in_progress", whatever else the
    status is; so the three task counts are not negative and add up to
    [total_tasks].  The completed milestones are at most the milestones,
    and the active and the completed projects together at most the
    projects. *)
Theorem overview_counts (db : Db) (owner : string) (now : Z) :
  let projects := take 1000 (filter (by_owner owner) db) in
  exists r,
    get_analytics_overview owner now db = (Return r, db)
    /\ Overview.todo_tasks r
       = len (filter (fun t => ~ has_status "done" t
                               /\ ~ has_status "in_progress" t)
                     (all_tasks projects))
    /\ 0 <= Overview.completed_tasks r
    /\ 0 <= Overview.in_progress_tasks r
    /\ 0 <= Overview.todo_tasks r
    /\ Overview.completed_tasks r + Overview.in_progress_tasks r
       + Overview.todo_tasks r = Overview.total_tasks r
    /\ 0 <= Overview.completed_milestones r <= Overview.total_milestones r
    /\ Overview.total_projects r = len projects
    /\ 0 <= Overview.active_projects r
    /\ 0 <= Overview.completed_projects r
    /\ Overview.active_projects r + Overview.completed_projects r
       <= Overview.total_projects r.
Proof.
  intros projects. exists (overview projects now).
  split; [reflexivity |]. simpl.
  assert (Htotal : py_sum ((fun p => len (Project.tasks p)) <$> projects)
                   = len (all_tasks projects)).
  { apply (sum_over_documents Project.tasks len);
      [reflexivity | apply len_app]. }
  assert (Hcount : forall s,
            py_sum ((fun p => count_if (has_status s) (Project.tasks p))
                      <$> projects)
            = len (filter (has_status s) (all_tasks projects))).
  { intros s.
    rewrite (sum_over_documents Project.tasks
               (fun ts => count_if (has_status s) ts)).
    - apply count_if_len.
    - reflexivity.
    - intros xs ys. rewrite !count_if_len, filter_app. apply len_app. }
  assert (Hmtotal : py_sum ((fun p => len (Project.milestones p)) <$> projects)
                    = len (projects ≫= Project.milestones)).
  { apply (sum_over_documents Project.milestones len);
      [reflexivity | apply len_app]. }
  assert (Hmdone :
            py_sum ((fun p => count_if (fun m => Milestone.completed m = true)
                                       (Project.milestones p)) <$> projects)
            = len (filter (fun m => Milestone.completed m = true)
                          (projects ≫= Project.milestones))).
  { rewrite (sum_over_documents Project.milestones
               (fun ms => count_if (fun m => Milestone.completed m = true) ms)).
    - apply count_if_len.
    - reflexivity.
    - intros xs ys. rewrite !count_if_len, filter_app. apply len_app. }
  rewrite Htotal, !Hcount, Hmtotal, Hmdone, !count_if_len.
  pose proof (len_three_way (has_status "done") (has_status "in_progress")
                (all_tasks projects)) as Hthree.
  assert (Hdisj : forall t, has_status "done" t -> has_status "in_progress" t
                            -> False)
    by (unfold has_status; intros t Hd Hi; congruence).
  specialize (Hthree Hdisj).
  pose proof (len_filter_le (has_status "done") (all_tasks projects)).
  pose proof (len_filter_le (has_status "in_progress") (all_tasks projects)).
  pose proof (len_filter_le
                (fun t => ~ has_status "done" t /\ ~ has_status "in_progress" t)
                (all_tasks projects)).
  pose proof (len_filter_le (fun m => Milestone.completed m = true)
                (projects ≫= Project.milestones)).
  pose proof (len_three_way (fun p => Project.status p = "active")
                (fun p => Project.status p = "completed") projects
                ltac:(intros p Ha Hc; congruence)) as Hprojects.
  pose proof (len_filter_le (fun p => Project.status p = "active") projects).
  pose proof (len_filter_le (fun p => Project.status p = "completed")
                projects).
  pose proof (len_filter_le
                (fun p => ~ Project.status p = "active"
                          /\ ~ Project.status p = "completed") projects).
  repeat split; try lia.
  apply len_two_filters. intros p Ha Hc. congruence.
Qed.

(** ** Where the upcoming deadlines come from *)

(** X16.  The deadlines of the overview, whatever strings
    [datetime.fromisoformat] reads (the parser is [parse]).  The route
    answers the overview of the caller's first 1000 projects.  Every entry
    of [upcoming_deadlines] is the deadline of a scanned project, or the
    due date of a milestone of a scanned project that is not completed; its
    date is not empty, parsed, and is later than [now].  The list has at
    most five entries in ascending order of the deadline strings.  And no
    deadline is lost but to the limit of five: the entry of every scanned
    project whose deadline is not empty, parses and is later than [now],
    and the entry of every such milestone that is not completed, is in the
    list, or the list has five entries and none of them has a greater
    deadline string. *)
Theorem upcoming_deadlines_sources (parse : string -> option datetime.t)
    (projects : list Project.t) (now : Z) :
  let listed :=
    Overview.upcoming_deadlines (overview_by parse projects now) in
  (forall owner db,
     get_analytics_overview_by parse owner now db
     = (Return (overview_by parse (take 1000 (filter (by_owner owner) db)) now),
        db))
  /\ (length listed <= 5)%nat
  /\ StronglySorted (key_le Deadline.deadline) listed
  /\ ((length (collect_deadlines_by parse now projects) <= 5)%nat ->
      listed ≡ₚ collect_deadlines_by parse now projects)
  /\ (forall d, d ∈ listed ->
        Deadline.deadline d <> ""
        /\ parses_after_by parse (Deadline.deadline d) now = true
        /\ ((Deadline.type d = "project"
             /\ Deadline.project_name d = None
             /\ exists p, p ∈ projects
                  /\ Project.deadline p = Some (Deadline.deadline d)
                  /\ Deadline.project_id d = Project.id p
                  /\ Deadline.name d = Project.name p)
            \/ (Deadline.type d = "milestone"
                /\ exists p m, p ∈ projects /\ m ∈ Project.milestones p
                     /\ Milestone.completed m = false
                     /\ Milestone.due_date m = Deadline.deadline d
                     /\ Deadline.name d = Milestone.title m
                     /\ Deadline.project_id d = Project.id p
                     /\ Deadline.project_name d = Some (Project.name p))))
  /\ (forall p deadline,
        p ∈ projects -> Project.deadline p = Some deadline ->
        deadline <> "" -> parses_after_by parse deadline now = true ->
        let d := {| Deadline.type := "project";
                    Deadline.name := Project.name p;
                    Deadline.deadline := deadline;
                    Deadline.project_id := Project.id p;
                    Deadline.project_name := None |} in
        d ∈ listed
        \/ (length listed = 5%nat
            /\ forall x, x ∈ listed ->
                 String.leb (Deadline.deadline x) deadline = true))
  /\ (forall p m,
        p ∈ projects -> m ∈ Project.milestones p ->
        Milestone.completed m = false -> Milestone.due_date m <> "" ->
        parses_after_by parse (Milestone.due_date m) now = true ->
        let d := {| Deadline.type := "milestone";
                    Deadline.name := Milestone.title m;
                    Deadline.deadline := Milestone.due_date m;
                    Deadline.project_id := Project.id p;
                    Deadline.project_name := Some (Project.name p) |} in
        d ∈ listed
        \/ (length listed = 5%nat
            /\ forall x, x ∈ listed ->
                 String.leb (Deadline.deadline x) (Milestone.due_date m)
                 = true)).
Proof.
  intros listed.
  destruct (upcoming_deadlines_by_listed parse now projects)
    as (Hlen & Hsorted & _).
  assert (Hkept : forall d, d ∈ collect_deadlines_by parse now projects ->
            d ∈ listed
            \/ (length listed = 5%nat
                /\ forall x, x ∈ listed -> key_le Deadline.deadline x d)).
  { intros d Hd. subst listed. simpl.
    apply take_sorted_smallest; [apply sort_by_key_sorted |].
    now rewrite sort_by_key_perm. }
  split; [reflexivity |].
  split; [exact Hlen |]. split; [exact Hsorted |]. split; [| split; [| split]].
  - intros Hfew. subst listed. simpl.
    rewrite take_ge.
    + apply sort_by_key_perm.
    + now rewrite sort_by_key_perm.
  - intros d Hd. subst listed. simpl in Hd.
    apply subseteq_take in Hd. rewrite sort_by_key_perm in Hd.
    apply collect_deadlines_by_elem in Hd as (p & Hp & [Hd | (m & Hm & Hd)]).
    + apply project_deadline_by_elem in Hd as (dl & Hdl & Hne & Hafter & ->).
      simpl. split; [exact Hne |]. split; [exact Hafter |]. left.
      split; [reflexivity |]. split; [reflexivity |].
      exists p. auto.
    + apply milestone_deadline_by_elem in Hd as (Hdone & Hne & Hafter & ->).
      simpl. split; [exact Hne |]. split; [exact Hafter |]. right.
      split; [reflexivity |].
      exists p, m. auto 10.
  - intros p deadline Hp Hdl Hne Hafter d. apply Hkept.
    apply collect_deadlines_by_elem. exists p. split; [exact Hp | left].
    apply project_deadline_by_elem. exists deadline. auto.
  - intros p m Hp Hm Hdone Hne Hafter d. apply Hkept.
    apply collect_deadlines_by_elem. exists p. split; [exact Hp | right].
    exists m. split; [exact Hm |].
    apply milestone_deadline_by_elem. auto.
Qed.

Lemma upcoming_deadlines_sources_witness :
  {| Deadline.type := "project";
     Deadline.name := "Launch";
     Deadline.deadline := "2099-01-01T00:00:00.000Z";
     Deadline.project_id := "p1";
     Deadline.project_name := None |}
  ∈ Overview.upcoming_deadlines
      (overview_by fromisoformat
         [launch_due "2099-01-01T00:00:00.000Z" "2030-01-01T00:00:00+00:00"]
         (instant "2026-01-01T00:00:00+00:00")).
Proof.
  destruct (upcoming_deadlines_sources fromisoformat
              [launch_due "2099-01-01T00:00:00.000Z"
                          "2030-01-01T00:00:00+00:00"]
              (instant "2026-01-01T00:00:00+00:00"))
    as (_ & _ & _ & _ & _ & Hproject & _).
  destruct (Hproject
              (launch_due "2099-01-01T00:00:00.000Z"
                          "2030-01-01T00:00:00+00:00")
              "2099-01-01T00:00:00.000Z") as [Hin | [Hfive _]].
  - apply list_elem_of_singleton. reflexivity.
  - reflexivity.
  - discriminate.
  - vm_compute. reflexivity.
  - exact Hin.
  - vm_compute in Hfive. discriminate.
Defined.

Lemma replace_Z_app (s1 s2 : string) :
  replace_Z (s1 +:+ s2) = replace_Z s1 +:+ replace_Z s2.
Proof.
  induction s1 as [| c s1 IH]; simpl; [reflexivity |].
  destruct (Ascii.eqb c "Z"); simpl; now rewrite IH.
Qed.

(** X17.  A date written with a final [Z] is read like the same text
    with the offset [+00:00] in its place: the two parse to the same
    [datetime] and are kept or dropped together. *)
Theorem zulu_is_utc (s : string) (now : Z) :
  fromisoformat (replace_Z (s +:+ "Z"))
  = fromisoformat (replace_Z (s +:+ "+00:00"))
  /\ parses_after (s +:+ "Z") now = parses_after (s +:+ "+00:00") now.
Proof.
  assert (H : replace_Z (s +:+ "Z") = replace_Z (s +:+ "+00:00"))
    by (rewrite !replace_Z_app; reflexivity).
  unfold parses_after, parses_after_by. now rewrite H.
Qed.

(** ** The minutes in the daily buckets *)

Lemma Zsum_perm (xs ys : list Z) : xs ≡ₚ ys -> Zsum xs = Zsum ys.
Proof.
  induction 1 as [| x xs ys _ IH | x y xs | xs ys zs _ IH1 _ IH2].
  - reflexivity.
  - rewrite !Zsum_cons. lia.
  - rewrite !Zsum_cons. lia.
  - congruence.
Qed.

Lemma bucket_sum_insert_new (m : gmap string Z) (k : string) (v : Z) :
  m !! k = None ->
  Zsum (snd <$> map_to_list (<[k := v]> m)) = Zsum (snd <$> map_to_list m) + v.
Proof.
  intros Hk.
  rewrite (Zsum_perm _ (snd <$> (k, v) :: map_to_list m)).
  - rewrite fmap_cons, Zsum_cons. simpl. lia.
  - apply fmap_Permutation. now apply map_to_list_insert.
Qed.

Lemma bucket_sum_insert (m : gmap string Z) (k : string) (v : Z) :
  Zsum (snd <$> map_to_list (<[k := v]> m))
  = Zsum (snd <$> map_to_list m) - default 0 (m !! k) + v.
Proof.
  destruct (m !! k) as [x |] eqn:Hk; simpl.
  - rewrite <- (insert_delete_eq m k v).
    rewrite <- (insert_delete_id m k x Hk) at 2.
    rewrite !bucket_sum_insert_new by apply lookup_delete_eq. lia.
  - rewrite bucket_sum_insert_new by exact Hk. lia.
Qed.

Lemma bucket_sum_track (m : gmap string Z) (es : list TimeEntry.t) :
  Zsum (snd <$> map_to_list (foldl track_daily m es))
  = Zsum (snd <$> map_to_list m)
    + minutes (filter (fun te => TimeEntry.date te <> "") es).
Proof.
  revert m. induction es as [| te es IH]; intros m.
  - cbn [foldl]. rewrite filter_nil, minutes_nil. lia.
  - cbn [foldl]. rewrite IH, filter_cons.
    unfold track_daily, track_entry.
    destruct (String.eqb (first10 (TimeEntry.date te)) "") eqn:Hdate; simpl.
    + apply String.eqb_eq, first10_nonempty_date in Hdate.
      rewrite decide_False by (intros H; now apply H). lia.
    + apply String.eqb_neq in Hdate.
      rewrite decide_True
        by (intros H; apply Hdate; now apply first10_nonempty_date).
      rewrite bucket_sum_insert, minutes_cons. lia.
Qed.

(** X18.  The loops of the time tracking lose no minute of a dated
    entry: when they end, the minutes held by [daily_times], over all its
    dates, are the sum of [duration_minutes] over the entries of the
    scanned projects whose date is not empty. *)
Theorem daily_times_hold_all_dated_minutes (projects : list Project.t) :
  let daily_times := snd (foldl track_project ([], ∅) projects) in
  Zsum (snd <$> map_to_list daily_times)
  = minutes (filter (fun te => TimeEntry.date te <> "")
                    (entries_of (all_tasks projects))).
Proof.
  simpl. rewrite foldl_track_project. simpl.
  rewrite bucket_sum_track, map_to_list_empty. simpl.
  unfold Zsum. simpl. lia.
Qed.

(** ** Optional fields *)



(** ** The overview after a change *)

(** The projects an owner's analytics scan, around a project of that
    owner that is changed in place. *)
Lemma scanned_around (db : Db) (owner : string) (j : nat) (p p' : Project.t) :
  db !! j = Some p ->
  Project.owner_id p = owner -> Project.owner_id p' = owner ->
  (length (filter (by_owner owner) db) <= 1000)%nat ->
  exists before after,
    take 1000 (filter (by_owner owner) db) = before ++ p :: after
    /\ take 1000 (filter (by_owner owner) (<[j := p']> db))
       = before ++ p' :: after.
Proof.
  intros Hj Hown Hown' Hlen.
  exists (filter (by_owner owner) (take j db)),
         (filter (by_owner owner) (drop (S j) db)).
  assert (Hdb : filter (by_owner owner) db
                = filter (by_owner owner) (take j db)
                  ++ p :: filter (by_owner owner) (drop (S j) db)).
  { rewrite <- (take_drop_middle db j p Hj) at 1.
    rewrite filter_app, filter_cons_True by exact Hown. reflexivity. }
  assert (Hdb' : filter (by_owner owner) (<[j := p']> db)
                 = filter (by_owner owner) (take j db)
                   ++ p' :: filter (by_owner owner) (drop (S j) db)).
  { rewrite insert_take_drop by (eapply lookup_lt_Some; eauto).
    rewrite filter_app, filter_cons_True by exact Hown'. reflexivity. }
  rewrite Hdb in Hlen. rewrite Hdb, Hdb'.
  split; apply take_ge; [exact Hlen |].
  rewrite length_app in *. simpl in *. lia.
Qed.

Lemma all_tasks_around (before after : list Project.t) (p : Project.t) :
  all_tasks (before ++ p :: after)
  = all_tasks before ++ Project.tasks p ++ all_tasks after.
Proof. now rewrite all_tasks_app. Qed.

(** The task counts of the overview over the scanned tasks. *)
Lemma overview_task_counts (projects : list Project.t) (now : Z) :
  let r := overview projects now in
  let tasks := all_tasks projects in
  Overview.total_tasks r = len tasks
  /\ Overview.completed_tasks r = len (filter (has_status "done") tasks)
  /\ Overview.in_progress_tasks r
     = len (filter (has_status "in_progress") tasks)
  /\ Overview.todo_tasks r
     = len tasks - len (filter (has_status "done") tasks)
       - len (filter (has_status "in_progress") tasks)
  /\ Overview.total_time_hours r
     = hours_of_minutes (minutes (entries_of tasks)).
Proof.
  simpl.
  assert (Htotal : py_sum ((fun p => len (Project.tasks p)) <$> projects)
                   = len (all_tasks projects)).
  { apply (sum_over_documents Project.tasks len);
      [reflexivity | apply len_app]. }
  assert (Hcount : forall s,
            py_sum ((fun p => count_if (has_status s) (Project.tasks p))
                      <$> projects)
            = len (filter (has_status s) (all_tasks projects))).
  { intros s.
    rewrite (sum_over_documents Project.tasks
               (fun ts => count_if (has_status s) ts)).
    - apply count_if_len.
    - reflexivity.
    - intros xs ys. rewrite !count_if_len, filter_app. apply len_app. }
  rewrite Htotal, !Hcount, total_time_minutes_flat. repeat split.
Qed.

(** X20.  For an owner of at most 1000 projects, a created task shows
    in the overview at once: [total_tasks] and [todo_tasks] are one more
    than before, and the other task counts and [total_time_hours] are as
    before. *)
Theorem created_task_in_overview (db : Db) (project_id owner : string)
    (data : TaskCreate.t) (new_id created now : string) (clock : Z)
    (j : nat) (p : Project.t) :
  list_find (by_id_owner project_id owner) db = Some (j, p) ->
  (length (filter (by_owner owner) db) <= 1000)%nat ->
  exists task db' r r',
    create_task project_id data owner new_id created now db = (Return task, db')
    /\ get_analytics_overview owner clock db = (Return r, db)
    /\ get_analytics_overview owner clock db' = (Return r', db')
    /\ Overview.total_tasks r' = Overview.total_tasks r + 1
    /\ Overview.todo_tasks r' = Overview.todo_tasks r + 1
    /\ Overview.completed_tasks r' = Overview.completed_tasks r
    /\ Overview.in_progress_tasks r' = Overview.in_progress_tasks r
    /\ Overview.total_time_hours r' = Overview.total_time_hours r.
Proof.
  intros Hfind Hlen.
  pose proof Hfind as Hfound.
  apply list_find_Some in Hfound as (Hj & [_ Hown] & _).
  set (task := new_task data new_id created).
  set (p' := push_task task now p).
  destruct (scanned_around db owner j p p' Hj Hown Hown Hlen)
    as (before & after & Hscan & Hscan').
  exists task, (<[j := p']> db),
         (overview (take 1000 (filter (by_owner owner) db)) clock),
         (overview (take 1000 (filter (by_owner owner) (<[j := p']> db)))
                   clock).
  split; [now apply create_task_run |].
  split; [reflexivity |]. split; [reflexivity |].
  destruct (overview_task_counts
              (take 1000 (filter (by_owner owner) db)) clock)
    as (-> & -> & -> & -> & ->).
  destruct (overview_task_counts
              (take 1000 (filter (by_owner owner) (<[j := p']> db))) clock)
    as (-> & -> & -> & -> & ->).
  rewrite Hscan, Hscan', !all_tasks_around. subst p'. simpl.
  rewrite !filter_app, !entries_of_app, !len_app, !minutes_app.
  rewrite !filter_cons, !filter_nil.
  change (entries_of [task]) with (@nil TimeEntry.t).
  rewrite !decide_False by (unfold has_status; simpl; discriminate).
  rewrite minutes_nil.
  change (len (@nil Task.t)) with 0. change (len [task]) with 1.
  repeat split; try lia.
  f_equal. lia.
Qed.

Lemma created_task_in_overview_witness :
  exists task db' r r',
    create_task "p1"
      {| TaskCreate.title := "Build";
         TaskCreate.description := None;
         TaskCreate.priority := "high";
         TaskCreate.due_date := None;
         TaskCreate.estimated_hours := None |}
      "alice" "t2" "2024-02-01T00:00:00+00:00" "2024-02-01T00:00:00+00:00"
      sample_db
    = (Return task, db')
    /\ get_analytics_overview "alice" 0 sample_db = (Return r, sample_db)
    /\ get_analytics_overview "alice" 0 db' = (Return r', db')
    /\ Overview.total_tasks r' = Overview.total_tasks r + 1.
Proof.
  destruct (created_task_in_overview sample_db "p1" "alice"
              {| TaskCreate.title := "Build";
                 TaskCreate.description := None;
                 TaskCreate.priority := "high";
                 TaskCreate.due_date := None;
                 TaskCreate.estimated_hours := None |}
              "t2" "2024-02-01T00:00:00+00:00" "2024-02-01T00:00:00+00:00"
              0 1 launch)
    as (task & db' & r & r' & Hrun & Hr & Hr' & Htotal & _).
  - reflexivity.
  - vm_compute. lia.
  - exists task, db', r, r'. auto.
Defined.

Lemma len_filter_insert {A} (P : A -> Prop) `{!forall x, Decision (P x)}
    (l : list A) (i : nat) (x y : A) :
  l !! i = Some x ->
  len (filter P (<[i := y]> l)) + (if decide (P x) then 1 else 0)
  = len (filter P l) + (if decide (P y) then 1 else 0).
Proof.
  intros Hi.
  assert (Hl : len (filter P l)
               = len (filter P (take i l)) + (if decide (P x) then 1 else 0)
                 + len (filter P (drop (S i) l))).
  { rewrite <- (take_drop_middle l i x Hi) at 1.
    rewrite filter_app, filter_cons, len_app.
    destruct (decide (P x)); unfold len; simpl length; lia. }
  rewrite insert_take_drop by (eapply lookup_lt_Some; eauto).
  rewrite filter_app, filter_cons, len_app, Hl.
  destruct (decide (P y)); unfold len; simpl length; lia.
Qed.

Lemma len_insert {A} (l : list A) (i : nat) (y : A) :
  len (<[i := y]> l) = len l.
Proof. unfold len. now rewrite length_insert. Qed.

(** X21.  For an owner of at most 1000 projects, setting a task that was
    not done to "done" shows in the overview at once: [completed_tasks] is
    one more than before, [total_tasks] is the same, and the tasks that are
    in progress or to do are one fewer. *)
Theorem finished_task_in_overview (db : Db)
    (project_id task_id owner now now' : string) (data : TaskUpdate.t)
    (clock : Z) (j i : nat) (p : Project.t) (task : Task.t) :
  NoDup (Project.id <$> db) ->
  list_find (by_id_owner project_id owner) db = Some (j, p) ->
  task_index task_id (Project.tasks p) = Some (i, task) ->
  Task.status task <> "done" ->
  TaskUpdate.status data = Some "done" ->
  (length (filter (by_owner owner) db) <= 1000)%nat ->
  exists task' db' r r',
    update_task project_id task_id data owner now now' db = (Return task', db')
    /\ Task.completed_at task' = Some now
    /\ get_analytics_overview owner clock db = (Return r, db)
    /\ get_analytics_overview owner clock db' = (Return r', db')
    /\ Overview.completed_tasks r' = Overview.completed_tasks r + 1
    /\ Overview.total_tasks r' = Overview.total_tasks r
    /\ Overview.in_progress_tasks r' + Overview.todo_tasks r' + 1
       = Overview.in_progress_tasks r + Overview.todo_tasks r.
Proof.
  intros Hnd Hfind Htask Hold Hdone Hlen.
  pose proof Hfind as Hfound.
  apply list_find_Some in Hfound as (Hj & [_ Hown] & _).
  pose proof (task_index_lookup _ _ _ _ Htask) as [Hi _].
  set (task' := apply_task_update data now task).
  set (p' := set_tasks (<[i := task']> (Project.tasks p)) now' p).
  destruct (scanned_around db owner j p p' Hj Hown Hown Hlen)
    as (before & after & Hscan & Hscan').
  exists task', (<[j := p']> db),
         (overview (take 1000 (filter (by_owner owner) db)) clock),
         (overview (take 1000 (filter (by_owner owner) (<[j := p']> db)))
                   clock).
  split; [eapply update_task_run; eauto |].
  split.
  { subst task'. unfold apply_task_update, completed_at_update. simpl.
    rewrite Hdone. repeat case_bool_decide; simpl; congruence. }
  split; [reflexivity |]. split; [reflexivity |].
  destruct (overview_task_counts
              (take 1000 (filter (by_owner owner) db)) clock)
    as (-> & -> & -> & -> & _).
  destruct (overview_task_counts
              (take 1000 (filter (by_owner owner) (<[j := p']> db))) clock)
    as (-> & -> & -> & -> & _).
  rewrite Hscan, Hscan', !all_tasks_around. subst p'. simpl.
  rewrite !filter_app, !len_app, len_insert.
  pose proof (len_filter_insert (has_status "done") (Project.tasks p)
                i task task' Hi) as Hcount.
  rewrite decide_False in Hcount by exact Hold.
  rewrite decide_True in Hcount
    by (unfold has_status; subst task'; simpl; now rewrite Hdone).
  repeat split; lia.
Qed.

Lemma finished_task_in_overview_witness :
  exists task' db' r r',
    update_task "p4" "t4" (status_patch "done") "dave"
      "2024-02-01T00:00:00+00:00" "2024-02-01T00:00:00+00:00" daves_db
    = (Return task', db')
    /\ get_analytics_overview "dave" 0 daves_db = (Return r, daves_db)
    /\ get_analytics_overview "dave" 0 db' = (Return r', db')
    /\ Overview.completed_tasks r' = Overview.completed_tasks r + 1.
Proof.
  destruct (finished_task_in_overview daves_db "p4" "t4" "dave"
              "2024-02-01T00:00:00+00:00" "2024-02-01T00:00:00+00:00"
              (status_patch "done") 0 1 0 notes (task_with "t4" [undated]))
    as (task' & db' & r & r' & Hrun & _ & Hr & Hr' & Hdone & _).
  - refine (bool_decide_unpack _ _). vm_compute. exact I.
  - reflexivity.
  - reflexivity.
  - simpl. discriminate.
  - reflexivity.
  - vm_compute. lia.
  - exists task', db', r, r'. auto.
Defined.

(** ** The listing of projects *)

(** X22.  [get_projects] answers projects of the caller only, at most
    1000 of them, in the order of the collection, and leaves the collection
    as it is; when the caller owns at most 1000 projects it answers all of
    them. *)
Theorem get_projects_lists (db : Db) (owner : string) :
  exists projects,
    get_projects owner db = (Return projects, db)
    /\ Forall (fun p => Project.owner_id p = owner) projects
    /\ (length projects <= 1000)%nat
    /\ projects `sublist_of` db
    /\ ((length (filter (by_owner owner) db) <= 1000)%nat ->
        forall p, p ∈ db -> Project.owner_id p = owner -> p ∈ projects).
Proof.
  exists (take 1000 (filter (by_owner owner) db)).
  split; [reflexivity |]. split; [| split; [| split]].
  - apply Forall_take, Forall_forall. intros p Hp.
    now apply list_elem_of_filter in Hp as [Hp _].
  - rewrite length_take. lia.
  - etransitivity; [apply sublist_take | apply sublist_filter].
  - intros Hlen p Hp Hown. rewrite take_ge by exact Hlen.
    apply list_elem_of_filter. split; assumption.
Qed.

(* ================================================================= *)
(** * Properties of the authentication routes *)

Section AuthFacts.
Variable verify_password : string -> string -> bool.
Variable jwt_encode : string -> Z -> string.
Variable jwt_decode : string -> Z -> option (option string).

Lemma find_email_None (email : string) (users : Users) :
  list_find (fun u => User.email u = email) users = None
  <-> email ∉ User.email <$> users.
Proof.
  rewrite list_find_None, Forall_forall. split.
  - intros Hall Hin. apply list_elem_of_fmap in Hin as (u & -> & Hu).
    now apply (Hall u Hu).
  - intros Hnot u Hu Heq. apply Hnot. rewrite <- Heq.
    now apply list_elem_of_fmap_2.
Qed.

Lemma find_email_appended (users : Users) (doc : User.t) :
  User.email doc ∉ User.email <$> users ->
  list_find (fun u => User.email u = User.email doc) (users ++ [doc])
  = Some (length users, doc).
Proof.
  intros Hnew. apply list_find_Some. split; [| split].
  - rewrite lookup_app_r by lia. now rewrite Nat.sub_diag.
  - reflexivity.
  - intros k u Hk Hlt Heq. apply Hnew. rewrite <- Heq.
    rewrite lookup_app_l in Hk by exact Hlt.
    apply list_elem_of_fmap_2. eapply list_elem_of_lookup_2; eauto.
Qed.

(** X23.  [register] answers 400 "Email already registered" and stores
    nothing when a user has the email, whatever else the request holds;
    otherwise it stores one user more, under that email.  So users whose
    emails are distinct have distinct emails after a registration, whether
    it succeeds or not. *)
Theorem register_keeps_emails_distinct (user_data : UserCreate.t)
    (user_id hashed_password created_at : string) (now : Z) (users : Users) :
  (UserCreate.email user_data ∈ User.email <$> users ->
   register jwt_encode user_data user_id hashed_password created_at now users
   = (HTTPException 400 "Email already registered", users))
  /\ (UserCreate.email user_data ∉ User.email <$> users ->
      User.email
        <$> snd (register jwt_encode user_data user_id hashed_password
                   created_at now users)
      = (User.email <$> users) ++ [UserCreate.email user_data])
  /\ (NoDup (User.email <$> users) ->
      NoDup (User.email
               <$> snd (register jwt_encode user_data user_id hashed_password
                          created_at now users))).
Proof.
  unfold register.
  destruct (list_find _ users) as [[i u] |] eqn:Hfind.
  - split; [reflexivity |]. split; [| auto].
    intros Hnot. apply find_email_None in Hnot. congruence.
  - apply find_email_None in Hfind.
    split; [contradiction |]. split.
    + intros _. simpl. now rewrite fmap_app.
    + intros Hnd. simpl. rewrite fmap_app. apply NoDup_app.
      split; [exact Hnd |]. split; [| apply NoDup_singleton].
      intros e He He'. apply list_elem_of_singleton in He'. simpl in He'.
      now subst e.
Qed.

(** X24.  A registration under an email that no user has stores one new
    user, with the hash in place of the password, and answers that user's
    profile.  A login with the same email and a password that the hash
    verifies answers the same profile and stores nothing, and a second
    registration under the email answers 400. *)
Theorem register_then_login (user_data : UserCreate.t)
    (user_id hashed_password created_at : string) (now now' : Z)
    (users : Users) (password : string) :
  UserCreate.email user_data ∉ User.email <$> users ->
  verify_password password hashed_password = true ->
  exists registered doc logged_in,
    register jwt_encode user_data user_id hashed_password created_at now users
    = (Return registered, users ++ [doc])
    /\ User.password doc = hashed_password
    /\ TokenResponse.user registered = user_response doc
    /\ UserResponse.id (TokenResponse.user registered) = user_id
    /\ login verify_password jwt_encode
         {| UserLogin.email := UserCreate.email user_data;
            UserLogin.password := password |} now' (users ++ [doc])
       = (Return logged_in, users ++ [doc])
    /\ TokenResponse.user logged_in = TokenResponse.user registered
    /\ (forall other other_id other_hash other_created other_now,
          UserCreate.email other = UserCreate.email user_data ->
          register jwt_encode other other_id other_hash other_created
            other_now (users ++ [doc])
          = (HTTPException 400 "Email already registered", users ++ [doc])).
Proof.
  intros Hnew Hverify.
  set (doc := {| User.id := user_id;
                 User.name := UserCreate.name user_data;
                 User.email := UserCreate.email user_data;
                 User.password := hashed_password;
                 User.created_at := created_at |}).
  pose proof (find_email_appended users doc Hnew) as Hfound.
  simpl in Hfound.
  eexists. exists doc. eexists.
  split.
  { unfold register. apply find_email_None in Hnew. rewrite Hnew.
    reflexivity. }
  split; [reflexivity |]. split; [reflexivity |]. split; [reflexivity |].
  split.
  { unfold login. simpl. rewrite Hfound. simpl. rewrite Hverify.
    reflexivity. }
  split; [reflexivity |].
  intros other other_id other_hash other_created other_now Hsame.
  unfold register. rewrite Hsame, Hfound. reflexivity.
Qed.

(** X25.  [login] gives one answer for an email that no user has and for
    a password that the stored hash does not verify: 401 "Invalid
    credentials", with the users unchanged. *)
Theorem login_failures_alike (user_data : UserLogin.t) (now : Z)
    (users : Users) :
  (UserLogin.email user_data ∉ User.email <$> users ->
   login verify_password jwt_encode user_data now users
   = (HTTPException 401 "Invalid credentials", users))
  /\ (forall i user,
        list_find (fun u => User.email u = UserLogin.email user_data) users
        = Some (i, user) ->
        verify_password (UserLogin.password user_data) (User.password user)
        = false ->
        login verify_password jwt_encode user_data now users
        = (HTTPException 401 "Invalid credentials", users)).
Proof.
  split.
  - intros Hnone. apply find_email_None in Hnone.
    unfold login. now rewrite Hnone.
  - intros i user Hfind Hwrong. unfold login. now rewrite Hfind, Hwrong.
Qed.

(** X26.  The token of a registration authenticates its user: when the
    token library decodes, at the time of a later request, what it encoded
    for the new user's id, and no user had that id, [get_current_user]
    answers the stored user and [get_me] the profile that [register]
    answered.  The token expires 24 hours after the registration. *)
Theorem registered_token_authenticates (user_data : UserCreate.t)
    (user_id hashed_password created_at : string) (now now' : Z)
    (users : Users) :
  UserCreate.email user_data ∉ User.email <$> users ->
  user_id ∉ User.id <$> users ->
  jwt_decode (jwt_encode user_id (now + 24 * 3600 * 1000000)) now'
  = Some (Some user_id) ->
  exists registered doc,
    register jwt_encode user_data user_id hashed_password created_at now users
    = (Return registered, users ++ [doc])
    /\ TokenResponse.access_token registered
       = jwt_encode user_id (now + 24 * 3600 * 1000000)
    /\ get_current_user jwt_decode (TokenResponse.access_token registered)
         now' (users ++ [doc])
       = (Return doc, users ++ [doc])
    /\ get_me doc = TokenResponse.user registered.
Proof.
  intros Hemail Hid Hdecode.
  set (doc := {| User.id := user_id;
                 User.name := UserCreate.name user_data;
                 User.email := UserCreate.email user_data;
                 User.password := hashed_password;
                 User.created_at := created_at |}).
  eexists. exists doc. split.
  { unfold register. apply find_email_None in Hemail. rewrite Hemail.
    reflexivity. }
  split; [reflexivity |]. split; [| reflexivity].
  unfold get_current_user. simpl.
  unfold create_access_token, ACCESS_TOKEN_EXPIRE_HOURS. rewrite Hdecode.
  assert (Hfind : list_find (fun u => User.id u = user_id) (users ++ [doc])
                  = Some (length users, doc)).
  { apply list_find_Some. split; [| split].
    - rewrite lookup_app_r by lia. now rewrite Nat.sub_diag.
    - reflexivity.
    - intros k u Hk Hlt Heq. apply Hid. rewrite <- Heq.
      rewrite lookup_app_l in Hk by exact Hlt.
      apply list_elem_of_fmap_2. eapply list_elem_of_lookup_2; eauto. }
  now rewrite Hfind.
Qed.
End AuthFacts.

Lemma register_keeps_emails_distinct_witness :
  register plain_encode impostor "u3" "guess" "2024-01-03T00:00:00+00:00" 2
    two_users
  = (HTTPException 400 "Email already registered", two_users)
  /\ NoDup (User.email
              <$> snd (register plain_encode impostor "u3" "guess"
                         "2024-01-03T00:00:00+00:00" 2 two_users))
  /\ User.email
       <$> snd (register plain_encode grace "u2" "c0bol"
                  "2024-01-02T00:00:00+00:00" 1 (take 1 two_users))
     = ["ada@example.org"; "grace@example.org"]
  /\ NoDup (User.email
              <$> snd (register plain_encode grace "u2" "c0bol"
                         "2024-01-02T00:00:00+00:00" 1 (take 1 two_users))).
Proof.
  destruct (register_keeps_emails_distinct plain_encode impostor "u3" "guess"
              "2024-01-03T00:00:00+00:00" 2 two_users)
    as (Htaken & _ & Hkept).
  destruct (register_keeps_emails_distinct plain_encode grace "u2" "c0bol"
              "2024-01-02T00:00:00+00:00" 1 (take 1 two_users))
    as (_ & Hnew & Hkept').
  split; [| split; [| split]].
  - apply Htaken. refine (bool_decide_unpack _ _). vm_compute. exact I.
  - apply Hkept. refine (bool_decide_unpack _ _). vm_compute. exact I.
  - apply Hnew. refine (bool_decide_unpack _ _). vm_compute. exact I.
  - apply Hkept'. refine (bool_decide_unpack _ _). vm_compute. exact I.
Defined.

Lemma register_then_login_witness :
  exists registered users' logged_in,
    register plain_encode ada "u1" "s3cret" "2024-01-01T00:00:00+00:00" 0 []
    = (Return registered, users')
    /\ login plain_verify plain_encode ada_login 1 users'
       = (Return logged_in, users')
    /\ TokenResponse.user logged_in = TokenResponse.user registered.
Proof.
  destruct (register_then_login plain_verify plain_encode ada "u1" "s3cret"
              "2024-01-01T00:00:00+00:00" 0 1 [] "s3cret")
    as (registered & doc & logged_in & Hreg & _ & _ & _ & Hlogin & Hsame & _).
  - apply not_elem_of_nil.
  - reflexivity.
  - exists registered, ([] ++ [doc]), logged_in. auto.
Defined.

Lemma login_failures_alike_witness :
  login plain_verify plain_encode ada_login 1 []
  = (HTTPException 401 "Invalid credentials", [])
  /\ login plain_verify plain_encode
       {| UserLogin.email := "ada@example.org";
          UserLogin.password := "guess" |} 1
       (snd (register plain_encode ada "u1" "s3cret"
               "2024-01-01T00:00:00+00:00" 0 []))
     = (HTTPException 401 "Invalid credentials",
        snd (register plain_encode ada "u1" "s3cret"
               "2024-01-01T00:00:00+00:00" 0 [])).
Proof.
  split.
  - destruct (login_failures_alike plain_verify plain_encode ada_login 1 []) as [Hnone _].
    apply Hnone. apply not_elem_of_nil.
  - destruct (login_failures_alike plain_verify plain_encode
                {| UserLogin.email := "ada@example.org";
                   UserLogin.password := "guess" |} 1
                (snd (register plain_encode ada "u1" "s3cret"
                        "2024-01-01T00:00:00+00:00" 0 [])))
      as [_ Hwrong].
    eapply Hwrong; reflexivity.
Defined.

Lemma registered_token_authenticates_witness :
  exists registered users' user,
    register plain_encode ada "u1" "s3cret" "2024-01-01T00:00:00+00:00" 0 []
    = (Return registered, users')
    /\ get_current_user plain_decode (TokenResponse.access_token registered)
         1 users'
       = (Return user, users')
    /\ get_me user = TokenResponse.user registered.
Proof.
  destruct (registered_token_authenticates plain_encode plain_decode ada "u1"
              "s3cret" "2024-01-01T00:00:00+00:00" 0 1 [])
    as (registered & doc & Hreg & _ & Hauth & Hme).
  - apply not_elem_of_nil.
  - apply not_elem_of_nil.
  - reflexivity.
  - exists registered, ([] ++ [doc]), doc. auto.
Defined.

(* ================================================================= *)
(** * The life of a milestone *)

Lemma milestone_index_appended (milestones : list Milestone.t)
    (m : Milestone.t) :
  Milestone.id m ∉ Milestone.id <$> milestones ->
  milestone_index (Milestone.id m) (milestones ++ [m])
  = Some (length milestones, m).
Proof.
  intros Hnew. apply list_find_Some. split; [| split].
  - rewrite lookup_app_r by lia. now rewrite Nat.sub_diag.
  - reflexivity.
  - intros k y Hk Hlt Heq. apply Hnew. rewrite <- Heq.
    rewrite lookup_app_l in Hk by exact Hlt.
    apply list_elem_of_fmap_2. eapply list_elem_of_lookup_2; eauto.
Qed.

(** X27.  With distinct project ids, a milestone created in a project of
    the caller under an id that no milestone of the project has starts not
    completed; the toggle then finds it and answers it with the flag that
    was sent, its time of completion set or cleared with the flag, and its
    other fields as created; and its removal gives back the project as it
    was before the creation, but for [updated_at], and leaves the other
    projects as they were. *)
Theorem milestone_life_cycle (db : Db) (project_id owner : string)
    (j : nat) (p : Project.t) (data : MilestoneCreate.t) (new_id : string)
    (completed : bool) (created toggled toggled' removed : string) :
  NoDup (Project.id <$> db) ->
  list_find (by_id_owner project_id owner) db = Some (j, p) ->
  new_id ∉ Milestone.id <$> Project.milestones p ->
  exists m db1 m' db2 db3,
    create_milestone project_id data owner new_id created db = (Return m, db1)
    /\ Milestone.id m = new_id
    /\ Milestone.completed m = false
    /\ Milestone.completed_at m = None
    /\ update_milestone project_id new_id completed owner toggled toggled' db1
       = (Return m', db2)
    /\ Milestone.completed m' = completed
    /\ Milestone.completed_at m' = (if completed then Some toggled else None)
    /\ Milestone.id m' = new_id
    /\ Milestone.title m' = MilestoneCreate.title data
    /\ Milestone.description m'
       = match MilestoneCreate.description data with
         | Some d => d
         | None => ""
         end
    /\ Milestone.due_date m' = MilestoneCreate.due_date data
    /\ db2 !! j
       = Some (set_milestones (Project.milestones p ++ [m']) toggled' p)
    /\ delete_milestone project_id new_id owner removed db2
       = (Return "Milestone deleted", db3)
    /\ db3 = <[j := set_updated_at removed p]> db.
Proof.
  intros Hids Hfind Hnew.
  set (m := new_milestone data new_id).
  set (p1 := push_milestone m created p).
  set (m' := set_completed completed toggled m).
  set (p2 := set_milestones (<[length (Project.milestones p) := m']>
                               (Project.milestones p1)) toggled' p1).
  assert (Hj : (j < length db)%nat).
  { apply list_find_Some in Hfind as (Hj & _). eapply lookup_lt_Some; eauto. }
  assert (Hfind1 : list_find (by_id_owner project_id owner) (<[j := p1]> db)
                   = Some (j, p1))
    by (eapply find_after_update; eauto).
  assert (Hids1 : NoDup (Project.id <$> <[j := p1]> db)).
  { rewrite list_fmap_insert. rewrite list_insert_id; [exact Hids |].
    apply list_find_Some in Hfind as (Hp & _).
    now rewrite list_lookup_fmap, Hp. }
  assert (Hm : milestone_index new_id (Project.milestones p1)
               = Some (length (Project.milestones p), m))
    by (apply (milestone_index_appended (Project.milestones p) m); exact Hnew).
  assert (Hfind2 : list_find (by_id_owner project_id owner)
                     (<[j := p2]> (<[j := p1]> db)) = Some (j, p2))
    by (eapply find_after_update; eauto).
  assert (Hms2 : Project.milestones p2 = Project.milestones p ++ [m']).
  { subst p2 p1. simpl.
    rewrite insert_app_r_alt by lia. now rewrite Nat.sub_diag. }
  exists m, (<[j := p1]> db), m', (<[j := p2]> (<[j := p1]> db)),
    (<[j := pull_milestone new_id removed p2]> (<[j := p2]> (<[j := p1]> db))).
  split; [now apply create_milestone_run |].
  split; [reflexivity |]. split; [reflexivity |]. split; [reflexivity |].
  split; [exact (update_milestone_run _ _ _ _ _ Hfind1 Hids1 _ _ _ _ _ _ Hm) |].
  split; [reflexivity |]. split; [reflexivity |]. split; [reflexivity |].
  split; [reflexivity |].
  split; [unfold m', m; simpl; now destruct (MilestoneCreate.description data) |].
  split; [reflexivity |].
  split.
  { rewrite list_lookup_insert_eq by (rewrite length_insert; exact Hj).
    f_equal. unfold p2 at 1. now rewrite <- Hms2. }
  split; [now apply delete_milestone_run |].
  rewrite !list_insert_insert_eq. f_equal.
  unfold pull_milestone. rewrite Hms2, filter_app.
  rewrite filter_all.
  - rewrite filter_cons_False by (intros H; now apply H).
    rewrite filter_nil, app_nil_r. reflexivity.
  - apply Forall_forall. intros x Hx Heq. apply Hnew. rewrite <- Heq.
    now apply list_elem_of_fmap_2.
Qed.

Lemma milestone_life_cycle_witness :
  exists m db1 m' db2,
    create_milestone "p1"
      {| MilestoneCreate.title := "Gamma";
         MilestoneCreate.description := None;
         MilestoneCreate.due_date := "2031-01-01" |}
      "alice" "m9" "2024-02-01T00:00:00+00:00" sample_db = (Return m, db1)
    /\ update_milestone "p1" "m9" true "alice" "2024-02-02T00:00:00+00:00"
         "2024-02-02T00:00:00+00:00" db1 = (Return m', db2)
    /\ Milestone.completed_at m' = Some "2024-02-02T00:00:00+00:00"
    /\ delete_milestone "p1" "m9" "alice" "2024-02-03T00:00:00+00:00" db2
       = (Return "Milestone deleted",
          [garden; set_updated_at "2024-02-03T00:00:00+00:00" launch]).
Proof.
  destruct (milestone_life_cycle sample_db "p1" "alice" 1 launch
              {| MilestoneCreate.title := "Gamma";
                 MilestoneCreate.description := None;
                 MilestoneCreate.due_date := "2031-01-01" |}
              "m9" true "2024-02-01T00:00:00+00:00"
              "2024-02-02T00:00:00+00:00" "2024-02-02T00:00:00+00:00"
              "2024-02-03T00:00:00+00:00")
    as (m & db1 & m' & db2 & db3 & Hc & _ & _ & _ & Hu & _ & Hat & _ & _ & _
        & _ & _ & Hd & ->).
  - refine (bool_decide_unpack _ _). vm_compute. exact I.
  - reflexivity.
  - refine (bool_decide_unpack _ _). vm_compute. exact I.
  - exists m, db1, m', db2. auto.
Defined.
